(** * services.org.ai: the classification-driven document generator

    A shallow embedding of the TypeScript and JavaScript sources of the
    generator -- scripts/naics-parser.ts, scripts/mdx-generator.ts, the
    Wikidata client, the main generator script, scripts/generate-samples.js,
    scripts/generate-samples-fumadocs.js and scripts/generate-flat.js --
    followed by the properties of the specification settled on it and by
    further properties of the code.

    Conventions of the embedding.
    - A JavaScript string is a Rocq [string], one [ascii] per code unit.
      The embedding covers text of code units below 256, which holds
      every title, code and key of the repository's tables: the classes
      of the regular expressions, white space and lower-casing are the
      host's on that range; upper-casing is the host's wherever it stays
      in the range (see [JS.upperChar]).
    - An optional property ([description?: string], a property that may be
      [undefined]) is an [option]; the truthiness of such a value is
      [JS.truthy].
    - A call that may throw returns a [JS.Completion]: [Returned v] or
      [Thrown e].
    - A [Map] is an association list in insertion order ([JSMap]); an
      object literal used as a lookup table is a [gmap], looked up on its
      own keys.
    - The file system is a parameter of the planning scripts: a function
      that takes a file or throws. The files it takes are recorded in the
      order they are written ([Emit.Run]). The main generator script is
      run on a file system that takes every file. *)

From Stdlib Require Import Ascii String List Bool Arith Lia QArith.
From stdpp Require Import base gmap strings pretty.
Import ListNotations.

Local Open Scope nat_scope.

(** ** JavaScript strings and the regular expressions of the sources *)

Module JS.

Definition nl : string := String (ascii_of_nat 10) EmptyString.
Definition dq : string := String (ascii_of_nat 34) EmptyString.
Definition hyphen : ascii := ascii_of_nat 45.

Definition unit_of (c : ascii) : nat := nat_of_ascii c.

Definition inRange (lo hi : nat) (c : ascii) : bool :=
  (lo <=? unit_of c) && (unit_of c <=? hi).

(** [[a-z]], [[A-Z]], [[0-9]] (also [\d]) and [[a-zA-Z0-9]]. *)
Definition isLower : ascii -> bool := inRange 97 122.
Definition isUpper : ascii -> bool := inRange 65 90.
Definition isDigit : ascii -> bool := inRange 48 57.
Definition isAlnum (c : ascii) : bool := isLower c || isUpper c || isDigit c.

(** [\s], and the characters [String.prototype.trim] strips: TAB, LF, VT,
    FF, CR, SPACE and, above the ASCII range, the no-break space U+00A0. *)
Definition isSpace (c : ascii) : bool :=
  inRange 9 13 c || (unit_of c =? 32) || (unit_of c =? 160).

(** The characters [.] does not match. *)
Definition isLineTerminator (c : ascii) : bool :=
  (unit_of c =? 10) || (unit_of c =? 13).

Definition isParen (c : ascii) : bool := (unit_of c =? 40) || (unit_of c =? 41).
Definition isUnderscore (c : ascii) : bool := unit_of c =? 95.
Definition isHyphen (c : ascii) : bool := unit_of c =? 45.
Definition isSlash (c : ascii) : bool := unit_of c =? 47.

(** The letters of the Latin-1 range above ASCII that have a case: the
    capitals U+00C0 to U+00DE without the multiplication sign U+00D7, and
    the small letters U+00E0 to U+00FE without the division sign U+00F7. *)
Definition isLatinUpper (c : ascii) : bool :=
  inRange 192 222 c && negb (unit_of c =? 215).
Definition isLatinLower (c : ascii) : bool :=
  inRange 224 254 c && negb (unit_of c =? 247).

(** The lower-casing of a code unit below 256. On this range
    [toLowerCase] maps unit by unit and without regard to context. *)
Definition lowerChar (c : ascii) : ascii :=
  if isUpper c || isLatinUpper c then ascii_of_nat (unit_of c + 32) else c.

(** The upper-casing of a code unit below 256, where it is again one code
    unit below 256. The three units of the range of which it is not
    (U+00B5, whose capital is Greek; U+00DF, which becomes two letters;
    and U+00FF, whose capital is U+0178) are left as they are: no text of
    the repository holds them and no property below rests on their
    image. *)
Definition upperChar (c : ascii) : ascii :=
  if isLower c || isLatinLower c then ascii_of_nat (unit_of c - 32) else c.

Fixpoint smap (f : ascii -> ascii) (s : string) : string :=
  match s with
  | EmptyString => EmptyString
  | String c t => String (f c) (smap f t)
  end.

Fixpoint sfilter (p : ascii -> bool) (s : string) : string :=
  match s with
  | EmptyString => EmptyString
  | String c t => if p c then String c (sfilter p t) else sfilter p t
  end.

Fixpoint sforall (p : ascii -> bool) (s : string) : bool :=
  match s with
  | EmptyString => true
  | String c t => p c && sforall p t
  end.

(** [s.toLowerCase()], [s.toUpperCase()]. *)
Definition toLowerCase : string -> string := smap lowerChar.
Definition toUpperCase : string -> string := smap upperChar.

(** [s.charAt(0)] and [s.slice(1)]. *)
Definition charAt0 (s : string) : string :=
  match s with
  | EmptyString => EmptyString
  | String c _ => String c EmptyString
  end.
Definition slice1 (s : string) : string :=
  match s with
  | EmptyString => EmptyString
  | String _ t => t
  end.

(** [s.includes(pat)]. *)
Fixpoint includes (pat s : string) : bool :=
  String.prefix pat s
  || match s with
     | EmptyString => false
     | String _ t => includes pat t
     end.

(** [s.replace(/[cls]+/g, rep)]: every maximal run of characters of the
    class is replaced by [rep]. *)
Fixpoint replaceRuns_from (cls : ascii -> bool) (rep : string)
    (inRun : bool) (s : string) : string :=
  match s with
  | EmptyString => EmptyString
  | String c t =>
      if cls c then
        if inRun then replaceRuns_from cls rep true t
        else rep +:+ replaceRuns_from cls rep true t
      else String c (replaceRuns_from cls rep false t)
  end.
Definition replaceRuns (cls : ascii -> bool) (rep : string) : string -> string :=
  replaceRuns_from cls rep false.

(** [s.replace(/[cls]/g, '')]. *)
Definition removeAll (cls : ascii -> bool) : string -> string :=
  sfilter (fun c => negb (cls c)).

(** [s.replace(/([a-z])([A-Z])/g, '$1-$2')]: the scan resumes after the
    upper-case letter of a match. *)
Fixpoint hyphenateLowerUpper (s : string) : string :=
  match s with
  | EmptyString => EmptyString
  | String a r =>
      match r with
      | EmptyString => s
      | String b t =>
          if isLower a && isUpper b
          then String a (String hyphen (String b (hyphenateLowerUpper t)))
          else String a (hyphenateLowerUpper r)
      end
  end.

(** One match of [/[^a-zA-Z0-9]+(.)/] anchored at the head of the input.
    [sepRun s] is entered once a first separator has been consumed: the
    run is greedy, and gives characters back while [(.)] has nothing to
    match.  The result is the captured character and the input left
    after the match. *)
Fixpoint sepRun (s : string) : option (ascii * string) :=
  match s with
  | EmptyString => None
  | String c t =>
      if isAlnum c then Some (c, t)
      else match sepRun t with
           | Some m => Some m
           | None => if isLineTerminator c then None else Some (c, t)
           end
  end.
Definition matchSep (s : string) : option (ascii * string) :=
  match s with
  | EmptyString => None
  | String c t => if isAlnum c then None else sepRun t
  end.

(** [s.replace(/[^a-zA-Z0-9]+(.)/g, (_, chr) => chr.toUpperCase())].
    Each step consumes a character, so [String.length s] steps scan
    all of [s]. *)
Fixpoint capitalizeAfterSep_steps (n : nat) (s : string) : string :=
  match n with
  | 0 => s
  | S n' =>
      match s with
      | EmptyString => EmptyString
      | String c t =>
          match matchSep s with
          | Some (chr, rest) =>
              String (upperChar chr) (capitalizeAfterSep_steps n' rest)
          | None => String c (capitalizeAfterSep_steps n' t)
          end
      end
  end.
Definition capitalizeAfterSep (s : string) : string :=
  capitalizeAfterSep_steps (String.length s) s.

(** [s.replace(/^[A-Z]/, chr => chr.toLowerCase())] and
    [s.replace(/^[a-z]/, chr => chr.toUpperCase())]. *)
Definition lowerLeadingUpper (s : string) : string :=
  match s with
  | EmptyString => EmptyString
  | String c t => if isUpper c then String (lowerChar c) t else s
  end.
Definition upperLeadingLower (s : string) : string :=
  match s with
  | EmptyString => EmptyString
  | String c t => if isLower c then String (upperChar c) t else s
  end.

(** [s.trim()]. *)
Fixpoint trimStart (s : string) : string :=
  match s with
  | EmptyString => EmptyString
  | String c t => if isSpace c then trimStart t else s
  end.
Fixpoint trimEnd (s : string) : string :=
  match s with
  | EmptyString => EmptyString
  | String c t =>
      match trimEnd t with
      | EmptyString => if isSpace c then EmptyString else String c EmptyString
      | r => String c r
      end
  end.
Definition trim (s : string) : string := trimEnd (trimStart s).

(** [s.split('/').pop()]: the text after the last slash. *)
Fixpoint popAfterSlash_acc (seg s : string) : string :=
  match s with
  | EmptyString => seg
  | String c t =>
      if isSlash c then popAfterSlash_acc EmptyString t
      else popAfterSlash_acc (seg +:+ String c EmptyString) t
  end.
Definition popAfterSlash : string -> string := popAfterSlash_acc EmptyString.

(** [lines.join('\n')]. *)
Definition joinLines (lines : list string) : string := String.concat nl lines.

(** Truthiness of an optional string: [undefined] and [''] are falsy. *)
Definition truthy (o : option string) : bool :=
  match o with
  | Some (String _ _) => true
  | _ => false
  end.

(** [a || b] on optional strings, and [a || 'literal']. *)
Definition orElse (a b : option string) : option string :=
  if truthy a then a else b.
Definition orDefault (a : option string) (d : string) : string :=
  match a with
  | Some (String c t) => String c t
  | _ => d
  end.

(** A value interpolated into a template literal: [undefined] prints as
    the text undefined. *)
Definition interpolate (o : option string) : string :=
  match o with
  | Some s => s
  | None => "undefined"
  end.

(** Completion of a call. *)
Record Error := mkError { err_name : string; err_message : string }.
Definition TypeError (msg : string) : Error := mkError "TypeError" msg.

Inductive Completion (A : Type) : Type :=
| Returned (a : A)
| Thrown (e : Error).
Arguments Returned {A} a.
Arguments Thrown {A} e.

#[export] Instance completion_ret : MRet Completion := fun _ a => Returned a.
#[export] Instance completion_bind : MBind Completion := fun _ _ k m =>
  match m with
  | Returned a => k a
  | Thrown e => Thrown e
  end.

End JS.
Export (hints) JS.


(** ** scripts/naics-parser.ts *)

Module Naics.

Record NAICSSector := mkSector {
  sector_code : string;
  sector_name : string;
  sector_description : option string
}.

Record NAICSIndustry := mkIndustry {
  ind_code : string;
  ind_title : string;
  ind_description : option string;
  ind_sector : NAICSSector
}.

Record NAICSClassification := mkClassification {
  code : string;
  title : string;
  sector : string;
  sectorName : string;
  subsector : option string;
  industryGroup : option string;
  industryGroupName : option string
}.

Definition sector54 : NAICSSector :=
  mkSector "54" "Professional, Scientific, and Technical Services"
    (Some "Industries comprising establishments that specialize in performing professional, scientific, and technical activities for others").
Definition sector72 : NAICSSector :=
  mkSector "72" "Accommodation and Food Services"
    (Some "Industries providing customers with lodging and/or preparing meals, snacks, and beverages for immediate consumption").
Definition sector62 : NAICSSector :=
  mkSector "62" "Health Care and Social Assistance"
    (Some "Industries providing health care and social assistance for individuals").
Definition sector61 : NAICSSector :=
  mkSector "61" "Educational Services"
    (Some "Industries providing instruction and training in a wide variety of subjects").

(** The sample table [NAICS_DATA], keyed by industry code. *)
Definition NAICS_DATA : gmap string NAICSIndustry :=
  list_to_map [
    ("541511", mkIndustry "541511" "Custom Computer Programming Services"
       (Some "Writing, modifying, testing, and supporting software to meet the needs of a particular customer") sector54);
    ("541512", mkIndustry "541512" "Computer Systems Design Services"
       (Some "Planning and designing computer systems that integrate computer hardware, software, and communication technologies") sector54);
    ("541513", mkIndustry "541513" "Computer Facilities Management Services"
       (Some "Providing on-site management and operation of clients computer systems and/or data processing facilities") sector54);
    ("722511", mkIndustry "722511" "Full-Service Restaurants"
       (Some "Providing food services to patrons who order and are served while seated and pay after eating") sector72);
    ("722513", mkIndustry "722513" "Limited-Service Restaurants"
       (Some "Providing food services where patrons generally order or select items and pay before eating") sector72);
    ("541110", mkIndustry "541110" "Offices of Lawyers"
       (Some "Legal advice and representation in civil and criminal legal matters") sector54);
    ("541211", mkIndustry "541211" "Offices of Certified Public Accountants"
       (Some "Providing accounting, auditing, and bookkeeping services") sector54);
    ("621111", mkIndustry "621111" "Offices of Physicians (except Mental Health Specialists)"
       (Some "Providing medical care services by licensed physicians") sector62);
    ("621210", mkIndustry "621210" "Offices of Dentists"
       (Some "Providing dental care services by licensed dentists") sector62);
    ("611110", mkIndustry "611110" "Elementary and Secondary Schools"
       (Some "Providing academic courses and associated course work that comprise a basic preparatory education") sector61)
  ].

(** The table of [getIndustryGroupName]. *)
Definition industryGroupNames : gmap string string :=
  list_to_map [
    ("5415", "Computer Systems Design and Related Services");
    ("7225", "Restaurants and Other Eating Places");
    ("5411", "Legal Services");
    ("5412", "Accounting, Tax Preparation, Bookkeeping, and Payroll Services");
    ("6211", "Offices of Physicians");
    ("6212", "Offices of Dentists");
    ("6111", "Elementary and Secondary Schools")
  ].

(** A parser is its table: [new NAICSParser(data)]; the singleton
    [naicsParser] holds [NAICS_DATA]. *)
Section Parser.
Variable data : gmap string NAICSIndustry.

(** [this.data[code] || null]: an industry record is an object, hence
    truthy. The lookup is on the table's own keys: a code that names a
    member every object inherits ([constructor], [toString], ...) is
    outside the embedding. *)
Definition getIndustry (c : string) : option NAICSIndustry := data !! c.

Definition getIndustryGroupName (industryGroup : option string) : option string :=
  match industryGroup with
  | Some (String a t) => industryGroupNames !! String a t
  | _ => None
  end.

Definition getClassification (c : string) : option NAICSClassification :=
  match getIndustry c with
  | None => None
  | Some industry =>
      let sector := String.substring 0 2 c in
      let subsector :=
        if 3 <=? String.length c then Some (String.substring 0 3 c) else None in
      let industryGroup :=
        if 4 <=? String.length c then Some (String.substring 0 4 c) else None in
      Some {| code := ind_code industry;
              title := ind_title industry;
              sector := sector;
              sectorName := sector_name (ind_sector industry);
              subsector := subsector;
              industryGroup := industryGroup;
              industryGroupName := getIndustryGroupName industryGroup |}
  end.
End Parser.

Definition naicsParser_getClassification : string -> option NAICSClassification :=
  getClassification NAICS_DATA.

End Naics.

(** ** The Wikidata client: records and result parsing *)

Module Wikidata.

Record WikidataService := mkService {
  qid : string;
  label : string;
  description : option string;
  industry : option string;
  industryQID : option string;
  provider : option string;
  providerQID : option string;
  inception : option string;
  image : option string;
  wikipedia : option string;
  naicsCode : option string;
  unspscCode : option string
}.

(** The SPARQL JSON result the client parses ([results: any]): an RDF
    term carries its [value]; a variable that is not bound is absent
    from the binding; [results] and [results.bindings] may be absent. *)
Record Term := mkTerm { value : string }.

Record Binding := mkBinding {
  b_service : option Term;
  b_serviceLabel : option Term;
  b_serviceDescription : option Term;
  b_industry : option Term;
  b_industryLabel : option Term;
  b_provider : option Term;
  b_providerLabel : option Term;
  b_inception : option Term;
  b_image : option Term;
  b_wikipedia : option Term
}.

Record Results := mkResults { bindings : option (list Binding) }.
Record Response := mkResponse { results : option Results }.

(** [binding.x?.value] *)
Definition valueOf (t : option Term) : option string := value <$> t.

(** [uri.match(/Q\d+$/)]: the leftmost position where a Q is followed
    by digits up to the end of the input. *)
Definition isQ (c : ascii) : bool := JS.unit_of c =? 81.
Fixpoint matchQID (uri : string) : option string :=
  match uri with
  | EmptyString => None
  | String c t =>
      if isQ c && negb (String.eqb t EmptyString) && JS.sforall JS.isDigit t
      then Some uri
      else matchQID t
  end.

(** [extractQID(uri)]; reading [match] off [undefined] throws. *)
Definition extractQID (uri : option string) : JS.Completion string :=
  match uri with
  | None =>
      JS.Thrown (JS.TypeError "Cannot read properties of undefined (reading 'match')")
  | Some u => JS.Returned (default EmptyString (matchQID u))
  end.

(** [binding.x ? this.extractQID(binding.x.value) : undefined] *)
Definition extractQID_if_bound (t : option Term) : JS.Completion (option string) :=
  match t with
  | None => JS.Returned None
  | Some x => q ← extractQID (Some (value x)); JS.Returned (Some q)
  end.

(** The callback of [bindings.map]; the properties of the object
    literal are evaluated in the order they are written. *)
Definition parseBinding (binding : Binding) : JS.Completion WikidataService :=
  q ← extractQID (valueOf (b_service binding));
  iq ← extractQID_if_bound (b_industry binding);
  pq ← extractQID_if_bound (b_provider binding);
  JS.Returned
    {| qid := q;
       label := JS.orDefault (valueOf (b_serviceLabel binding)) EmptyString;
       description := valueOf (b_serviceDescription binding);
       industry := valueOf (b_industryLabel binding);
       industryQID := iq;
       provider := valueOf (b_providerLabel binding);
       providerQID := pq;
       inception := valueOf (b_inception binding);
       image := valueOf (b_image binding);
       wikipedia := valueOf (b_wikipedia binding);
       naicsCode := None;
       unspscCode := None |}.

(** [array.map(f)] with a callback that may throw: the elements are
    visited in order and the first throw ends the call. *)
Fixpoint mapArray {A B} (f : A -> JS.Completion B) (l : list A) : JS.Completion (list B) :=
  match l with
  | [] => JS.Returned []
  | a :: l' => b ← f a; bs ← mapArray f l'; JS.Returned (b :: bs)
  end.

Definition parseServiceResults (response : Response) : JS.Completion (list WikidataService) :=
  match results response with
  | None => JS.Returned []
  | Some r =>
      match bindings r with
      | None => JS.Returned []
      | Some bs => mapArray parseBinding bs
      end
  end.

End Wikidata.


(** ** scripts/mdx-generator.ts *)

Module Mdx.
Import Naics Wikidata.

(** [toKebabCase], [toCamelCase], [toPascalCase]. *)
Definition toKebabCase (str : string) : string :=
  JS.toLowerCase
    (JS.removeAll (fun c => negb (JS.isAlnum c || JS.isHyphen c))
       (JS.replaceRuns
          (fun c => JS.isSpace c || JS.isUnderscore c || JS.isParen c)
          (String JS.hyphen EmptyString)
          (JS.hyphenateLowerUpper str))).

Definition toCamelCase (str : string) : string :=
  JS.lowerLeadingUpper (JS.capitalizeAfterSep str).

Definition toPascalCase (str : string) : string :=
  JS.upperLeadingLower (JS.capitalizeAfterSep str).

Definition generateFilename (serviceName : string) : string :=
  toPascalCase serviceName +:+ ".mdx".

(** The table of [getServiceType]; a sector that is not a key gets the
    default label. The lookup is on the table's own keys: a sector code
    that names a member every object inherits is outside the embedding. *)
Definition sectorTypes : gmap string string :=
  list_to_map [
    ("54", "Professional Service");
    ("62", "Healthcare Service");
    ("61", "Educational Service");
    ("52", "Financial Service");
    ("72", "Hospitality Service");
    ("81", "Personal Service");
    ("51", "Information Service");
    ("48", "Transportation Service");
    ("49", "Transportation Service");
    ("56", "Support Service")
  ].

Definition getServiceType_of_sector (sectorCode : string) : string :=
  JS.orDefault (sectorTypes !! sectorCode) "Professional Service".

Definition getServiceType (classification : NAICSClassification) : string :=
  getServiceType_of_sector (sector classification).

Definition generateBreadcrumb (classification : NAICSClassification) : string :=
  "[Thing](https://schema.org.ai/Thing) > [Service](Service.mdx) > "
  +:+ sectorName classification.

Definition generatePropertiesSection : string :=
  JS.joinLines [
    "## Properties";
    "";
    "| Property | Type | Description | Inherited From |";
    "|----------|------|-------------|----------------|";
    "| name | Text | The name of the service | Thing |";
    "| description | Text | A description of the service | Thing |";
    "| provider | Organization \| Person | The service provider | Service |";
    "| serviceType | Text | The type of service | Service |";
    "| areaServed | Place \| GeoShape | Geographic area served | Service |";
    "| category | Text \| Thing | Category of the service | Service |";
    "| hoursAvailable | OpeningHoursSpecification | Service hours | Service |";
    "| offers | Offer | Service offer details | Service |";
    "| availableChannel | ServiceChannel | How to access the service | Service |"
  ].

(** The lines added for [wikidata] in the classification section. *)
Definition classificationWikidataLines (wikidata : option WikidataService) : list string :=
  match wikidata with
  | None => []
  | Some w =>
      ("- **Wikidata**: [" +:+ qid w +:+ "](https://www.wikidata.org/wiki/"
         +:+ qid w +:+ ")")
      :: (if JS.truthy (wikipedia w) then
            let wp := JS.interpolate (wikipedia w) in
            ["- **Wikipedia**: [" +:+ JS.popAfterSlash wp +:+ "](" +:+ wp +:+ ")"]
          else [])
  end.

Definition naicsPath (classification : NAICSClassification) : string :=
  sectorName classification
  +:+ (if JS.truthy (industryGroupName classification)
       then " > " +:+ JS.interpolate (industryGroupName classification)
       else "")
  +:+ " > " +:+ title classification.

Definition generateClassificationSection
    (classification : NAICSClassification) (wikidata : option WikidataService) : string :=
  JS.joinLines
    (["## Classification"; "";
      "- **NAICS**: " +:+ code classification +:+ " (" +:+ naicsPath classification +:+ ")"]
     ++ classificationWikidataLines wikidata).

Definition generateExamplesSection (industry : NAICSIndustry) : string :=
  let varName := toCamelCase (ind_title industry) in
  let typeName := toPascalCase (ind_title industry) in
  let serviceType := getServiceType_of_sector (sector_code (ind_sector industry)) in
  JS.joinLines [
    "## Examples";
    "";
    "```typescript";
    "import { $ } from '@org.ai/services'";
    "";
    "// Create a basic service";
    "const " +:+ varName +:+ " = $." +:+ typeName +:+ ".create({";
    "  name: 'Example " +:+ ind_title industry +:+ "',";
    "  description: '" +:+ JS.orDefault (ind_description industry) "Service description" +:+ "',";
    "  provider: 'Example Company',";
    "  serviceType: '" +:+ serviceType +:+ "',";
    "  areaServed: 'United States'";
    "})";
    "";
    "// With additional properties";
    "const detailed" +:+ typeName +:+ " = $." +:+ typeName +:+ ".create({";
    "  name: 'Premium " +:+ ind_title industry +:+ "',";
    "  description: 'Premium service with enhanced features',";
    "  provider: {";
    "    name: 'Premium Service Provider',";
    "    type: 'Organization'";
    "  },";
    "  serviceType: '" +:+ serviceType +:+ "',";
    "  areaServed: {";
    "    name: 'San Francisco Bay Area',";
    "    type: 'Place'";
    "  },";
    "  hoursAvailable: {";
    "    dayOfWeek: ['Monday', 'Tuesday', 'Wednesday', 'Thursday', 'Friday'],";
    "    opens: '09:00',";
    "    closes: '17:00'";
    "  }";
    "})";
    "";
    "// Query services";
    "const allServices = $." +:+ typeName +:+ ".find()";
    "```"
  ].

(** The lines added for [wikidata] in the resources section. *)
Definition resourcesWikidataLines (wikidata : option WikidataService) : list string :=
  match wikidata with
  | None => []
  | Some w =>
      ("- [Wikidata: " +:+ label w +:+ " (" +:+ qid w
         +:+ ")](https://www.wikidata.org/wiki/" +:+ qid w +:+ ")")
      :: (if JS.truthy (wikipedia w) then
            let wp := JS.interpolate (wikipedia w) in
            ["- [Wikipedia: " +:+ JS.popAfterSlash wp +:+ "](" +:+ wp +:+ ")"]
          else [])
  end.

Definition generateResourcesSection
    (wikidata : option WikidataService) (classification : option NAICSClassification) : string :=
  JS.joinLines
    (["## Resources"; ""; "- [Schema.org Service](https://schema.org/Service)"]
     ++ match classification with
        | Some c =>
            ["- [NAICS " +:+ code c +:+ "](https://www.census.gov/naics/?input="
               +:+ code c +:+ ")"]
        | None => []
        end
     ++ resourcesWikidataLines wikidata).

(** The description paragraph of [generate]:
    [industry.description || wikidata?.description || `${industry.title} service.`]. *)
Definition generateDescription
    (industry : NAICSIndustry) (wikidata : option WikidataService) : string :=
  JS.orDefault
    (JS.orElse (ind_description industry) (w ← wikidata; description w))
    (ind_title industry +:+ " service.").

(** The text a line is made of when an optional field is truthy. *)
Definition optionalLine (key : string) (v : option string) : list string :=
  if JS.truthy v then ["  " +:+ key +:+ ": " +:+ JS.dq +:+ JS.interpolate v +:+ JS.dq] else [].

Section Number.
(** A [number] is only ever printed by the generator: the type of
    numbers, the conversion a template literal applies to them, and
    the literal [0.7] are those of the host. *)
Context {Num : Type}.
Variable numberToString : Num -> string.
Variable num_0_7 : Num.

Record ServiceMDXOptions := mkOptions {
  opt_industry : NAICSIndustry;
  opt_classification : NAICSClassification;
  opt_wikidata : option WikidataService;
  opt_digital : option Num;
  opt_examples : option bool
}.

Definition frontmatterWikidataLines (wikidata : option WikidataService) : list string :=
  match wikidata with
  | None => []
  | Some w =>
      ("wikidata: https://www.wikidata.org/wiki/" +:+ qid w)
      :: (if JS.truthy (wikipedia w)
          then ["wikipedia: " +:+ JS.interpolate (wikipedia w)]
          else [])
  end.

Definition generateFrontmatter (industry : NAICSIndustry)
    (classification : NAICSClassification)
    (wikidata : option WikidataService) (digital : Num) : string :=
  JS.joinLines
    (["---";
      "$id: https://services.org.ai/" +:+ toKebabCase (ind_title industry);
      "$context: https://schema.org.ai";
      "$type: Service";
      "name: " +:+ ind_title industry;
      "description: " +:+ JS.orDefault (ind_description industry) "Service type";
      "naics:";
      "  code: " +:+ JS.dq +:+ code classification +:+ JS.dq;
      "  title: " +:+ JS.dq +:+ title classification +:+ JS.dq;
      "  sector: " +:+ JS.dq +:+ sector classification +:+ JS.dq;
      "  sectorName: " +:+ JS.dq +:+ sectorName classification +:+ JS.dq]
     ++ optionalLine "subsector" (subsector classification)
     ++ optionalLine "industryGroup" (industryGroup classification)
     ++ optionalLine "industryGroupName" (industryGroupName classification)
     ++ frontmatterWikidataLines wikidata
     ++ ["digital: " +:+ numberToString digital;
         "category: Service";
         "serviceType: " +:+ getServiceType classification;
         "---"]).

(** The sections of [generate], in the order of its template; the
    examples section is the empty string when [examples] is false. *)
Definition examplesSection (o : ServiceMDXOptions) : string :=
  if default true (opt_examples o)
  then generateExamplesSection (opt_industry o)
  else "".

Definition generate (o : ServiceMDXOptions) : string :=
  let industry := opt_industry o in
  let classification := opt_classification o in
  let wikidata := opt_wikidata o in
  let digital := default num_0_7 (opt_digital o) in
  let frontmatter := generateFrontmatter industry classification wikidata digital in
  let breadcrumb := generateBreadcrumb classification in
  let title := "# " +:+ ind_title industry in
  let description := generateDescription industry wikidata in
  let properties := generatePropertiesSection in
  let classificationSection := generateClassificationSection classification wikidata in
  let resources := generateResourcesSection wikidata (Some classification) in
  JS.trim
    (frontmatter +:+ JS.nl +:+ JS.nl
     +:+ breadcrumb +:+ JS.nl +:+ JS.nl
     +:+ title +:+ JS.nl +:+ JS.nl
     +:+ description +:+ JS.nl +:+ JS.nl
     +:+ properties +:+ JS.nl +:+ JS.nl
     +:+ classificationSection +:+ JS.nl +:+ JS.nl
     +:+ examplesSection o +:+ JS.nl +:+ JS.nl
     +:+ resources +:+ JS.nl).

(** *** The call on a record that lacks [code] or [title]

    The types are erased at run time: [generate] can be handed a
    record in which [code] or [title] is [undefined].  [industry.code]
    is never read.  [industry.title] is first read by
    [generateFrontmatter], as the argument of [toKebabCase], whose
    [str.replace] throws on [undefined].  Every use of
    [classification.code] and [classification.title] is an
    interpolation into a template literal. *)
Record LooseIndustry := mkLooseIndustry {
  l_code : option string;
  l_title : option string;
  l_description : option string;
  l_sector : NAICSSector
}.

Record LooseClassification := mkLooseClassification {
  lc_code : option string;
  lc_title : option string;
  lc_sector : string;
  lc_sectorName : string;
  lc_subsector : option string;
  lc_industryGroup : option string;
  lc_industryGroupName : option string
}.

Record LooseOptions := mkLooseOptions {
  lo_industry : LooseIndustry;
  lo_classification : LooseClassification;
  lo_wikidata : option WikidataService;
  lo_digital : option Num;
  lo_examples : option bool
}.

Definition toKebabCase_loose (str : option string) : JS.Completion string :=
  match str with
  | None =>
      JS.Thrown (JS.TypeError "Cannot read properties of undefined (reading 'replace')")
  | Some s => JS.Returned (toKebabCase s)
  end.

Definition interpolated (c : LooseClassification) : NAICSClassification :=
  {| code := JS.interpolate (lc_code c);
     title := JS.interpolate (lc_title c);
     sector := lc_sector c;
     sectorName := lc_sectorName c;
     subsector := lc_subsector c;
     industryGroup := lc_industryGroup c;
     industryGroupName := lc_industryGroupName c |}.

Definition generate_loose (o : LooseOptions) : JS.Completion string :=
  let industry := lo_industry o in
  _ ← toKebabCase_loose (l_title industry);
  JS.Returned
    (generate
       {| opt_industry :=
            mkIndustry (JS.interpolate (l_code industry))
              (JS.interpolate (l_title industry))
              (l_description industry) (l_sector industry);
          opt_classification := interpolated (lo_classification o);
          opt_wikidata := lo_wikidata o;
          opt_digital := lo_digital o;
          opt_examples := lo_examples o |}).

(** A record that has both fields, seen as a loose record. *)
Definition loosen (o : ServiceMDXOptions) : LooseOptions :=
  let i := opt_industry o in
  let c := opt_classification o in
  {| lo_industry :=
       mkLooseIndustry (Some (ind_code i)) (Some (ind_title i))
         (ind_description i) (ind_sector i);
     lo_classification :=
       mkLooseClassification (Some (code c)) (Some (title c)) (sector c)
         (sectorName c) (subsector c) (industryGroup c) (industryGroupName c);
     lo_wikidata := opt_wikidata o;
     lo_digital := opt_digital o;
     lo_examples := opt_examples o |}.

Definition missingCode (o : LooseOptions) : Prop :=
  l_code (lo_industry o) = None /\ lc_code (lo_classification o) = None.
Definition missingTitle (o : LooseOptions) : Prop :=
  l_title (lo_industry o) = None /\ lc_title (lo_classification o) = None.
End Number.

End Mdx.


(** ** The main generator script: the digital-delivery score *)

Module Generate.
Import Naics.

Definition keywordMatch (title : string) : bool :=
  JS.includes "computer" title
  || JS.includes "software" title
  || JS.includes "web" title
  || JS.includes "data processing" title
  || JS.includes "internet" title.

Definition calculateDigitalScore (industry : NAICSIndustry) : Q :=
  let sectorCode := sector_code (ind_sector industry) in
  let title := JS.toLowerCase (ind_title industry) in
  if keywordMatch title then 1.0
  else if String.eqb sectorCode "51" then 0.9
  else if String.eqb sectorCode "54" then 0.7
  else if String.eqb sectorCode "52" then 0.8
  else if String.eqb sectorCode "62" then 0.5
  else if String.eqb sectorCode "61" then 0.6
  else if String.eqb sectorCode "72" then 0.3
  else if String.eqb sectorCode "81" then 0.3
  else if String.eqb sectorCode "48" || String.eqb sectorCode "49" then 0.5
  else 0.5.

End Generate.

(** ** scripts/generate-samples.js: the names derived by [generateServiceMDX] *)

Module Samples.

Definition kebabName (name : string) : string :=
  JS.removeAll JS.isParen
    (JS.replaceRuns JS.isSpace (String JS.hyphen EmptyString) (JS.toLowerCase name)).

Definition pascalName (name : string) : string :=
  JS.removeAll JS.isParen (JS.replaceRuns JS.isSpace EmptyString name).

(** [s.charAt(0).toLowerCase() + s.slice(1)] *)
Definition lowerFirst (s : string) : string :=
  JS.toLowerCase (JS.charAt0 s) +:+ JS.slice1 s.

Definition camelName (name : string) : string := lowerFirst (pascalName name).

End Samples.


(** ** [Map]: an association list in insertion order *)

Module JSMap.
Section Ops.
Context {K V : Type} `{EqDecision K}.

Fixpoint get (k : K) (m : list (K * V)) : option V :=
  match m with
  | [] => None
  | (k', v) :: m' => if decide (k = k') then Some v else get k m'
  end.

Definition has (k : K) (m : list (K * V)) : bool :=
  match get k m with
  | Some _ => true
  | None => false
  end.

(** [m.set(k, v)]: the value of a present key is replaced in place, a
    new key goes last. *)
Fixpoint set (k : K) (v : V) (m : list (K * V)) : list (K * V) :=
  match m with
  | [] => [(k, v)]
  | (k', v') :: m' =>
      if decide (k = k') then (k, v) :: m' else (k', v') :: set k v m'
  end.

Definition keys (m : list (K * V)) : list K := map fst m.
Definition values (m : list (K * V)) : list V := map snd m.
End Ops.
End JSMap.

(** ** The files a generation script writes

    The file system is the emission driver: a write is recorded with the
    path segments handed to [path.join] below [BASE_DIR], tagged with the
    loop that issued it. *)

Module Emit.
Inductive Kind := Leaf | CategoryIndex | SubcategoryIndex.

Record File := mkFile {
  kind : Kind;
  path : list string;
  content : string
}.

(** What a script has done when it returns or throws: the files written,
    the counter [generated], and the error that ended it, if any. *)
Record Run := mkRun {
  written : list File;
  generated : nat;
  thrown : option JS.Error
}.

Definition isLeaf (f : File) : bool :=
  match kind f with
  | Leaf => true
  | _ => false
  end.

Definition leafDocuments (r : Run) : list File := List.filter isLeaf (written r).

(** What the file system does with a file handed to [fs.writeFileSync]
    (in the nested script, after [fs.mkdirSync] on its directory): it
    takes the file, or it throws. *)
Definition taken (writeFileSync : File -> option JS.Error) (f : File) : bool :=
  match writeFileSync f with
  | None => true
  | Some _ => false
  end.
End Emit.

(** ** scripts/generate-samples-fumadocs.js *)

Module Fumadocs.
Import Naics Emit.

Record Service := mkService {
  name : string;
  description : string;
  category : option string;
  subcategory : option string;
  naics : NAICSClassification;
  unspsc : string;
  wikidata : string;
  wikipedia : string;
  digital : Q;
  serviceType : string
}.

(** [name.replace(/\s+/g, '-').replace(/[()]/g, '')] *)
Definition fileSlug (name : string) : string :=
  JS.removeAll JS.isParen
    (JS.replaceRuns JS.isSpace (String JS.hyphen EmptyString) name).

(** [name.replace(/-/g, ' ')]; reading [replace] off [undefined] throws. *)
Definition displayName (n : option string) : JS.Completion string :=
  match n with
  | None =>
      JS.Thrown (JS.TypeError "Cannot read properties of undefined (reading 'replace')")
  | Some s =>
      JS.Returned (JS.smap (fun c => if JS.isHyphen c then ascii_of_nat 32 else c) s)
  end.

(** [services[0]] of an index page; the groups the planner builds are
    never empty. *)
Definition first (services : list Service) : JS.Completion Service :=
  match services with
  | s :: _ => JS.Returned s
  | [] => JS.Thrown (JS.TypeError "Cannot read properties of undefined (reading 'naics')")
  end.

Definition generateCategoryIndex (categoryName : option string)
    (services : list Service) : JS.Completion string :=
  display ← displayName categoryName;
  s0 ← first services;
  JS.Returned (JS.joinLines [
    "---";
    "title: " +:+ display;
    "description: Service types in the " +:+ display +:+ " category";
    "---";
    "";
    "# " +:+ display;
    "";
    "Browse service types in this category:";
    "";
    JS.joinLines
      (map (fun s => "- [" +:+ name s +:+ "](./" +:+ JS.interpolate (subcategory s)
                       +:+ "/" +:+ fileSlug (name s) +:+ ")") services);
    "";
    "## Overview";
    "";
    "This category includes services classified under NAICS sector: **"
      +:+ sectorName (naics s0) +:+ "**";
    "";
    "Total service types: " +:+ pretty (length services);
    ""
  ]).

Definition generateSubcategoryIndex (categoryName subcategoryName : option string)
    (services : list Service) : JS.Completion string :=
  categoryDisplay ← displayName categoryName;
  subcategoryDisplay ← displayName subcategoryName;
  s0 ← first services;
  JS.Returned (JS.joinLines [
    "---";
    "title: " +:+ subcategoryDisplay;
    "description: Service types in " +:+ subcategoryDisplay;
    "---";
    "";
    "# " +:+ subcategoryDisplay;
    "";
    "Service types in this subcategory:";
    "";
    JS.joinLines
      (map (fun s => "- [" +:+ name s +:+ "](./" +:+ fileSlug (name s) +:+ ")") services);
    "";
    "## Classification";
    "";
    "- **Category**: " +:+ categoryDisplay;
    "- **Subcategory**: " +:+ subcategoryDisplay;
    "- **NAICS Industry Group**: " +:+ JS.interpolate (industryGroupName (naics s0));
    ""
  ]).

Definition SubcategoryMap := list (option string * list Service).
Definition CategoryMap := list (option string * SubcategoryMap).

(** One turn of the grouping loop; the array a key maps to is updated
    in place, which keeps the key where it was inserted. *)
Definition groupService (categoryMap : CategoryMap) (service : Service) : CategoryMap :=
  let categoryKey := category service in
  let categoryMap1 :=
    if JSMap.has categoryKey categoryMap then categoryMap
    else JSMap.set categoryKey [] categoryMap in
  let subcategoryMap := default [] (JSMap.get categoryKey categoryMap1) in
  let subcategoryKey := subcategory service in
  let subcategoryMap1 :=
    if JSMap.has subcategoryKey subcategoryMap then subcategoryMap
    else JSMap.set subcategoryKey [] subcategoryMap in
  let services := default [] (JSMap.get subcategoryKey subcategoryMap1) in
  JSMap.set categoryKey
    (JSMap.set subcategoryKey (services ++ [service]) subcategoryMap1)
    categoryMap1.

Definition groupServices (services : list Service) : CategoryMap :=
  fold_left groupService services [].

Definition dirName (key : option string) : string :=
  "(" +:+ JS.interpolate key +:+ ")".

Section Planner.
(** The text of a leaf page, [generateServiceMDX]: a template over
    the fields of the service. *)
Variable generateServiceMDX : Service -> string.
(** The file system under the script: [None] when it takes the file,
    the error it throws otherwise. *)
Variable writeFileSync : File -> option JS.Error.

Definition leafFile (service : Service) : File :=
  mkFile Leaf
    [dirName (category service); dirName (subcategory service);
     fileSlug (name service) +:+ ".mdx"]
    (generateServiceMDX service).

(** The loop over the services. Its body is in a [try]: a record whose
    write throws is logged, and neither written nor counted. *)
Fixpoint writeLeaves (services : list Service) : list File :=
  match services with
  | [] => []
  | service :: rest =>
      match writeFileSync (leafFile service) with
      | None => leafFile service :: writeLeaves rest
      | Some _ => writeLeaves rest
      end
  end.

(** The inner loop over [subcategoryMap.entries()]. *)
Fixpoint writeSubcategoryIndexes (categoryKey : option string)
    (entries : SubcategoryMap) : list File * option JS.Error :=
  match entries with
  | [] => ([], None)
  | (subcategoryKey, services) :: rest =>
      match generateSubcategoryIndex categoryKey subcategoryKey services with
      | JS.Thrown e => ([], Some e)
      | JS.Returned page =>
          let f := mkFile SubcategoryIndex
                     [dirName categoryKey; dirName subcategoryKey; "index.mdx"] page in
          match writeFileSync f with
          | Some e => ([], Some e)
          | None =>
              let '(fs, e) := writeSubcategoryIndexes categoryKey rest in
              (f :: fs, e)
          end
      end
  end.

(** The loop over [categoryMap.entries()]; it has no [try]. *)
Fixpoint writeCategoryIndexes (entries : CategoryMap) : list File * option JS.Error :=
  match entries with
  | [] => ([], None)
  | (categoryKey, subcategoryMap) :: rest =>
      let allServices := concat (JSMap.values subcategoryMap) in
      match generateCategoryIndex categoryKey allServices with
      | JS.Thrown e => ([], Some e)
      | JS.Returned page =>
          let f := mkFile CategoryIndex [dirName categoryKey; "index.mdx"] page in
          match writeFileSync f with
          | Some e => ([], Some e)
          | None =>
              match writeSubcategoryIndexes categoryKey subcategoryMap with
              | (fs, Some e) => (f :: fs, Some e)
              | (fs, None) =>
                  let '(fs', e) := writeCategoryIndexes rest in
                  (f :: fs ++ fs', e)
              end
          end
      end
  end.

(** [generateSamples], run on a batch in place of [SAMPLE_SERVICES]. *)
Definition generateSamples (services : list Service) : Run :=
  let categoryMap := groupServices services in
  let leaves := writeLeaves services in
  let '(indexes, e) := writeCategoryIndexes categoryMap in
  mkRun (leaves ++ indexes) (length leaves) e.
End Planner.

End Fumadocs.


(** ** scripts/generate-flat.js *)

Module Flat.
Import Naics Emit.

Record Category := mkCategory { cat_name : string; cat_display : string }.

Record Service := mkService {
  name : string;
  titleCase : string;
  description : string;
  category : option Category;
  subcategory : option Category;
  naics : NAICSClassification;
  unspsc : string;
  wikidata : string;
  wikipedia : string;
  digital : Q;
  serviceType : string
}.

(** The values of [categoryMap] and [subcategoryMap]. *)
Record CategoryData := mkCategoryData {
  cd_display : string;
  cd_services : list Service
}.
Record SubcategoryData := mkSubcategoryData {
  sd_category : Category;
  sd_subcategory : Category;
  sd_services : list Service
}.

Definition CategoryMap := list (string * CategoryData).
Definition SubcategoryMap := list (string * SubcategoryData).

(** [service.category.name], [service.subcategory.name]: reading [name]
    off [undefined] throws. *)
Definition required (c : option Category) : JS.Completion Category :=
  match c with
  | Some x => JS.Returned x
  | None => JS.Thrown (JS.TypeError "Cannot read properties of undefined (reading 'name')")
  end.

(** One turn of the grouping loop. *)
Definition groupService (maps : CategoryMap * SubcategoryMap) (service : Service)
    : JS.Completion (CategoryMap * SubcategoryMap) :=
  let '(categoryMap, subcategoryMap) := maps in
  cat ← required (category service);
  let categoryMap1 :=
    if JSMap.has (cat_name cat) categoryMap then categoryMap
    else JSMap.set (cat_name cat) (mkCategoryData (cat_display cat) []) categoryMap in
  let categoryMap2 :=
    match JSMap.get (cat_name cat) categoryMap1 with
    | Some d =>
        JSMap.set (cat_name cat)
          (mkCategoryData (cd_display d) (cd_services d ++ [service])) categoryMap1
    | None => categoryMap1
    end in
  sub ← required (subcategory service);
  let subKey := cat_name cat +:+ ":" +:+ cat_name sub in
  let subcategoryMap1 :=
    if JSMap.has subKey subcategoryMap then subcategoryMap
    else JSMap.set subKey (mkSubcategoryData cat sub []) subcategoryMap in
  let subcategoryMap2 :=
    match JSMap.get subKey subcategoryMap1 with
    | Some d =>
        JSMap.set subKey
          (mkSubcategoryData (sd_category d) (sd_subcategory d)
             (sd_services d ++ [service])) subcategoryMap1
    | None => subcategoryMap1
    end in
  JS.Returned (categoryMap2, subcategoryMap2).

Fixpoint groupServices (maps : CategoryMap * SubcategoryMap) (services : list Service)
    : JS.Completion (CategoryMap * SubcategoryMap) :=
  match services with
  | [] => JS.Returned maps
  | service :: rest => maps' ← groupService maps service; groupServices maps' rest
  end.

Section Planner.
(** The page templates [generateServiceMDX], [generateCategoryMDX] and
    [generateSubcategoryMDX]; the two index templates are called
    inside a [try]. *)
Variable generateServiceMDX : Service -> string.
Variable generateCategoryMDX : Category -> list Service -> JS.Completion string.
Variable generateSubcategoryMDX :
  Category -> Category -> list Service -> JS.Completion string.
(** The file system under the script: [None] when it takes the file,
    the error it throws otherwise. *)
Variable writeFileSync : File -> option JS.Error.

Definition leafFile (service : Service) : File :=
  mkFile Leaf [titleCase service +:+ ".mdx"] (generateServiceMDX service).

(** The loop over the services. Its body is in a [try]: a record whose
    write throws is logged, and neither written nor counted. *)
Fixpoint writeLeaves (services : list Service) : list File :=
  match services with
  | [] => []
  | service :: rest =>
      match writeFileSync (leafFile service) with
      | None => leafFile service :: writeLeaves rest
      | Some _ => writeLeaves rest
      end
  end.

(** A page whose template or whose write throws is logged and skipped. *)
Definition categoryFiles (categoryMap : CategoryMap) : list File :=
  flat_map
    (fun '(categoryKey, categoryData) =>
       match generateCategoryMDX (mkCategory categoryKey (cd_display categoryData))
               (cd_services categoryData) with
       | JS.Returned page =>
           let f := mkFile CategoryIndex [categoryKey +:+ ".mdx"] page in
           if taken writeFileSync f then [f] else []
       | JS.Thrown _ => []
       end)
    categoryMap.

Definition subcategoryFiles (subcategoryMap : SubcategoryMap) : list File :=
  flat_map
    (fun '(_, subData) =>
       match generateSubcategoryMDX (sd_category subData) (sd_subcategory subData)
               (sd_services subData) with
       | JS.Returned page =>
           let f := mkFile SubcategoryIndex
                      [cat_name (sd_subcategory subData) +:+ ".mdx"] page in
           if taken writeFileSync f then [f] else []
       | JS.Thrown _ => []
       end)
    subcategoryMap.

(** [generateServices], run on a batch in place of [SAMPLE_SERVICES];
    the grouping loop has no [try]. *)
Definition generateServices (services : list Service) : Run :=
  match groupServices ([], []) services with
  | JS.Thrown e => mkRun [] 0 (Some e)
  | JS.Returned (categoryMap, subcategoryMap) =>
      let leaves := writeLeaves services in
      mkRun (leaves ++ categoryFiles categoryMap ++ subcategoryFiles subcategoryMap)
        (length leaves) None
  end.
End Planner.

End Flat.


(** ** scripts/naics-parser.ts: the queries over the whole table

    [Object.values(this.data)] is the list of the table's records in the
    enumeration order of the host; the queries are functions of that
    list. *)

Module NaicsQueries.
Import Naics.

(** The literal [serviceSectors] of [getServiceIndustries]. *)
Definition serviceSectors : list string :=
  ["42"; "44"; "45"; "48"; "49"; "51"; "52"; "53"; "54"; "55"; "56"; "61"; "62"; "71";
   "72"; "81"; "92"].

(** [array.includes(x)] on strings. *)
Definition arrayIncludes (l : list string) (x : string) : bool :=
  existsb (String.eqb x) l.

(** The filter of [searchIndustries]; a description that is absent or
    empty is falsy. *)
Definition matchesKeyword (lowerKeyword : string) (industry : NAICSIndustry) : bool :=
  JS.includes lowerKeyword (JS.toLowerCase (ind_title industry))
  || match ind_description industry with
     | Some (String c d) => JS.includes lowerKeyword (JS.toLowerCase (String c d))
     | _ => false
     end.

(** One turn of the [forEach] of [getAllSectors]. *)
Definition addSector (sectors : list (string * NAICSSector)) (industry : NAICSIndustry)
    : list (string * NAICSSector) :=
  let sector := ind_sector industry in
  if JSMap.has (sector_code sector) sectors then sectors
  else JSMap.set (sector_code sector) sector sectors.

Section Queries.
Variable industries : list NAICSIndustry.

Definition getAllIndustries : list NAICSIndustry := industries.

Definition getIndustriesBySector (sectorCode : string) : list NAICSIndustry :=
  List.filter (fun industry => String.eqb (sector_code (ind_sector industry)) sectorCode)
    industries.

Definition getServiceIndustries : list NAICSIndustry :=
  List.filter (fun industry => arrayIncludes serviceSectors (sector_code (ind_sector industry)))
    industries.

Definition getAllSectors : list NAICSSector :=
  JSMap.values (fold_left addSector industries []).

Definition searchIndustries (keyword : string) : list NAICSIndustry :=
  let lowerKeyword := JS.toLowerCase keyword in
  List.filter (matchesKeyword lowerKeyword) industries.
End Queries.

(** The records of [NAICS_DATA] as [Object.values] lists them: its keys
    are integer indices, which are enumerated in ascending order. *)
Definition NAICS_VALUES : list NAICSIndustry :=
  [mkIndustry "541110" "Offices of Lawyers"
     (Some "Legal advice and representation in civil and criminal legal matters") sector54;
   mkIndustry "541211" "Offices of Certified Public Accountants"
     (Some "Providing accounting, auditing, and bookkeeping services") sector54;
   mkIndustry "541511" "Custom Computer Programming Services"
     (Some "Writing, modifying, testing, and supporting software to meet the needs of a particular customer") sector54;
   mkIndustry "541512" "Computer Systems Design Services"
     (Some "Planning and designing computer systems that integrate computer hardware, software, and communication technologies") sector54;
   mkIndustry "541513" "Computer Facilities Management Services"
     (Some "Providing on-site management and operation of clients computer systems and/or data processing facilities") sector54;
   mkIndustry "611110" "Elementary and Secondary Schools"
     (Some "Providing academic courses and associated course work that comprise a basic preparatory education") sector61;
   mkIndustry "621111" "Offices of Physicians (except Mental Health Specialists)"
     (Some "Providing medical care services by licensed physicians") sector62;
   mkIndustry "621210" "Offices of Dentists"
     (Some "Providing dental care services by licensed dentists") sector62;
   mkIndustry "722511" "Full-Service Restaurants"
     (Some "Providing food services to patrons who order and are served while seated and pay after eating") sector72;
   mkIndustry "722513" "Limited-Service Restaurants"
     (Some "Providing food services where patrons generally order or select items and pay before eating") sector72].

End NaicsQueries.

(** ** The main generator script: [generateAllServices]

    The loop over [naicsParser.getServiceIndustries()], run on a table
    and the list of its records. The output directory and its creation
    are left out: a write is recorded with its file name. Inside the
    [try], [generate] and [generateFilename] do not throw on a typed
    record; the [catch] is for the write. *)

Module Driver.
Import Naics Emit.

Record Tally := mkTally {
  files : list File;
  generated : nat;
  failed : nat
}.

Section Loop.
(** The printing of a number by a template literal. *)
Variable numberToString : Q -> string.
Variable data : gmap string NAICSIndustry.

(** The body of the loop: [None] when the classification is not found,
    which counts as a failure. *)
Definition generateService (industry : NAICSIndustry) : option File :=
  match getClassification data (ind_code industry) with
  | None => None
  | Some classification =>
      Some (mkFile Leaf [Mdx.generateFilename (ind_title industry)]
              (Mdx.generate numberToString 0.7%Q
                 (Mdx.mkOptions industry classification None
                    (Some (Generate.calculateDigitalScore industry)) (Some true))))
  end.

Definition step (t : Tally) (industry : NAICSIndustry) : Tally :=
  match generateService industry with
  | None => mkTally (files t) (generated t) (S (failed t))
  | Some f => mkTally (files t ++ [f]) (S (generated t)) (failed t)
  end.

Definition generateAllServices (industries : list NAICSIndustry) : Tally :=
  fold_left step (NaicsQueries.getServiceIndustries industries) (mkTally [] 0 0).
End Loop.

End Driver.

(** * The vocabulary of the properties *)

(** ** Slugs *)

Definition notSpace (c : ascii) : bool := negb (JS.isSpace c).
Definition notParen (c : ascii) : bool := negb (JS.isParen c).
Definition notUpper (c : ascii) : bool := negb (JS.isUpper c).
(** Lower-casing leaves the code unit as it is. *)
Definition lowerFixed (c : ascii) : bool := Ascii.eqb (JS.lowerChar c) c.

(** The text has this line: it is made of lines joined by line feeds, and
    this is one of them. *)
Definition hasLine (line text : string) : Prop :=
  exists before after, text = JS.joinLines (before ++ line :: after).

(** A code unit of the ASCII range, and a text made of such units. *)
Definition isAsciiUnit (c : ascii) : bool := JS.unit_of c <? 128.
Definition asciiText (s : string) : Prop := JS.sforall isAsciiUnit s = true.

(** The one-letter titles U+00C9 (capital E with acute) and U+00E9 (small
    e with acute): letters with a case outside [A-Z] and [a-z]. *)
Definition capitalEacute : string := String (ascii_of_nat 201) EmptyString.
Definition smallEacute : string := String (ascii_of_nat 233) EmptyString.
Definition anyChar (c : ascii) : bool := true.

(** A slug is clean when it has no white space, no parenthesis and no
    upper-case letter, and lower-casing leaves it as it is. *)
Definition cleanSlug (s : string) : Prop :=
  JS.sforall notSpace s = true
  /\ JS.sforall notParen s = true
  /\ JS.sforall notUpper s = true
  /\ JS.toLowerCase s = s.

(** ** The digital-delivery score *)

(** The title holds one of the keywords of the first rule. *)
Definition hasKeyword (title : string) : Prop :=
  JS.includes "computer" title = true
  \/ JS.includes "software" title = true
  \/ JS.includes "web" title = true
  \/ JS.includes "data processing" title = true
  \/ JS.includes "internet" title = true.

(** ** Query results *)

(** The binding binds [?service]. *)
Definition serviceBound (b : Wikidata.Binding) : Prop := Wikidata.b_service b <> None.

(** A binding with no variable bound at all, and the response whose
    [bindings] array holds just that binding. *)
Definition emptyBinding : Wikidata.Binding :=
  Wikidata.mkBinding None None None None None None None None None None.

Definition unboundServiceResponse : Wikidata.Response :=
  Wikidata.mkResponse (Some (Wikidata.mkResults (Some [emptyBinding]))).

(** ** The ends of a text *)

(** The last character exists and is not white space. *)
Fixpoint endsNonSpace (s : string) : bool :=
  match s with
  | EmptyString => false
  | String c EmptyString => negb (JS.isSpace c)
  | String _ t => endsNonSpace t
  end.

(** The first character exists and is not white space. *)
Definition startsNonSpace (s : string) : bool :=
  match s with
  | EmptyString => false
  | String c _ => negb (JS.isSpace c)
  end.

(** ** Scanning a document for the examples heading

    A scanner for the text that opens the heading of the examples
    section: two number signs, a space and the letter E. *)

Inductive ScanState := Idle | Hash1 | Hash2 | Hash2Space | Found.

Definition isHash (c : ascii) : bool := JS.unit_of c =? 35.
Definition isBlank (c : ascii) : bool := JS.unit_of c =? 32.
Definition isCapitalE (c : ascii) : bool := JS.unit_of c =? 69.

Definition scanStep (q : ScanState) (c : ascii) : ScanState :=
  match q with
  | Found => Found
  | Idle => if isHash c then Hash1 else Idle
  | Hash1 => if isHash c then Hash2 else Idle
  | Hash2 => if isHash c then Hash2 else if isBlank c then Hash2Space else Idle
  | Hash2Space => if isCapitalE c then Found else if isHash c then Hash1 else Idle
  end.

Fixpoint scan (q : ScanState) (s : string) : ScanState :=
  match s with
  | EmptyString => q
  | String c t => scan (scanStep q c) t
  end.

(** Text without a number sign. *)
Definition plainText (s : string) : bool := JS.sforall (fun c => negb (isHash c)) s.

Definition plainOption (o : option string) : bool :=
  match o with
  | Some s => plainText s
  | None => true
  end.

(** A string that leaves the scanner idle: it holds no heading and ends
    in the middle of none. *)
Definition calm (s : string) : Prop := scan Idle s = Idle.

(** ** Records of the scenarios of the specification *)

(** A number given by the text a template literal prints for it. *)
Definition printed (text : string) : string := text.

(** The record of the rendering scenario: code 611110 with an empty
    description; its classification; facts about it. *)
Definition schoolIndustry : Naics.NAICSIndustry :=
  Naics.mkIndustry "611110" "Elementary and Secondary Schools" (Some EmptyString)
    Naics.sector61.

Definition schoolClassification : Naics.NAICSClassification :=
  Naics.mkClassification "611110" "Elementary and Secondary Schools" "61"
    "Educational Services" (Some "611") (Some "6111")
    (Some "Elementary and Secondary Schools").

Definition schoolFacts : Wikidata.WikidataService :=
  Wikidata.mkService "Q3914" "school"
    (Some "institution for the education of students by teachers")
    None None None None None None (Some "https://en.wikipedia.org/wiki/School") None None.

(** The table's own record for 611110, which has a description. *)
Definition describedSchoolIndustry : Naics.NAICSIndustry :=
  Naics.mkIndustry "611110" "Elementary and Secondary Schools"
    (Some "Providing academic courses and associated course work that comprise a basic preparatory education")
    Naics.sector61.

(** The call of the scenario: no facts, no examples. *)
Definition scenarioOptions : Mdx.ServiceMDXOptions :=
  Mdx.mkOptions schoolIndustry schoolClassification None (Some "0.6") (Some false).

(** A call in which the record and the facts both have a description. *)
Definition overrideOptions : Mdx.ServiceMDXOptions :=
  Mdx.mkOptions describedSchoolIndustry schoolClassification (Some schoolFacts)
    (Some "0.6") (Some true).

(** A call without examples on a record whose description is the text of
    a heading. *)
Definition echoOptions : Mdx.ServiceMDXOptions :=
  Mdx.mkOptions
    (Naics.mkIndustry "611110" "Elementary and Secondary Schools" (Some "## Examples")
       Naics.sector61)
    schoolClassification None (Some "0.6") (Some false).

(** A record without [code], in either of its two objects. *)
Definition codelessOptions : Mdx.LooseOptions :=
  Mdx.mkLooseOptions
    (Mdx.mkLooseIndustry None (Some "Elementary and Secondary Schools") None Naics.sector61)
    (Mdx.mkLooseClassification None (Some "Elementary and Secondary Schools") "61"
       "Educational Services" None None None)
    None (Some "0.6") (Some false).

(** ** Groups and files of the planners *)

(** A record is filed in a map when the list under its own category and
    subcategory keys holds it. *)
Definition filed (s : Fumadocs.Service) (m : Fumadocs.CategoryMap) : Prop :=
  exists sub l,
    JSMap.get (Fumadocs.category s) m = Some sub
    /\ JSMap.get (Fumadocs.subcategory s) sub = Some l
    /\ In s l.

(** The record carries its category and its subcategory. *)
Definition hasMetadata (s : Fumadocs.Service) : Prop :=
  Fumadocs.category s <> None /\ Fumadocs.subcategory s <> None.

Definition hasFlatMetadata (s : Flat.Service) : Prop :=
  Flat.category s <> None /\ Flat.subcategory s <> None.

(** The groups an index page can be rendered for: the keys are present
    and no group is empty. *)
Definition renderableSub (e : option string * list Fumadocs.Service) : Prop :=
  e.1 <> None /\ e.2 <> [].
Definition renderableCat (e : option string * Fumadocs.SubcategoryMap) : Prop :=
  e.1 <> None /\ e.2 <> [] /\ Forall renderableSub e.2.

Definition notLeaf (f : Emit.File) : Prop := Emit.isLeaf f = false.

(** Two records of the sample tables; the second one takes its category
    as an argument, so that it can be left out. *)
Definition programmingClassification : Naics.NAICSClassification :=
  Naics.mkClassification "541511" "Custom Computer Programming Services" "54"
    "Professional, Scientific, and Technical Services" (Some "541") (Some "5415")
    (Some "Computer Systems Design and Related Services").

Definition restaurantClassification : Naics.NAICSClassification :=
  Naics.mkClassification "722511" "Full-Service Restaurants" "72"
    "Accommodation and Food Services" (Some "722") (Some "7225")
    (Some "Restaurants and Other Eating Places").

Definition nestedProgramming : Fumadocs.Service :=
  Fumadocs.mkService "Custom Computer Programming Services"
    "Writing, modifying, testing, and supporting software to meet the needs of a particular customer"
    (Some "Professional-Services") (Some "Computer-Services") programmingClassification
    "80111700" "Q21198342" "https://en.wikipedia.org/wiki/Custom_software" 1.0
    "Professional Service".

Definition nestedRestaurant (category : option string) : Fumadocs.Service :=
  Fumadocs.mkService "Full-Service Restaurants"
    "Providing food services to patrons who order and are served while seated and pay after eating"
    category (Some "Restaurants") restaurantClassification
    "90101501" "Q11707" "https://en.wikipedia.org/wiki/Restaurant" 0.3
    "Hospitality Service".

Definition flatProgramming : Flat.Service :=
  Flat.mkService "Custom Computer Programming Services" "CustomComputerProgrammingServices"
    "Writing, modifying, testing, and supporting software to meet the needs of a particular customer"
    (Some (Flat.mkCategory "ProfessionalServices" "Professional Services"))
    (Some (Flat.mkCategory "ComputerServices" "Computer Services")) programmingClassification
    "80111700" "Q21198342" "https://en.wikipedia.org/wiki/Custom_software" 1.0
    "Professional Service".

Definition flatRestaurant (category : option Flat.Category) : Flat.Service :=
  Flat.mkService "Full-Service Restaurants" "FullServiceRestaurants"
    "Providing food services to patrons who order and are served while seated and pay after eating"
    category (Some (Flat.mkCategory "Restaurants" "Restaurants")) restaurantClassification
    "90101501" "Q11707" "https://en.wikipedia.org/wiki/Restaurant" 0.3
    "Hospitality Service".

Definition hospitality : Flat.Category :=
  Flat.mkCategory "HospitalityServices" "Hospitality Services".

(** Two file systems: one that takes every file, and one that throws on
    a file whose name has a slash in it, as [fs.writeFileSync] does when
    the directory the name then points into is not there. *)
Definition takesAll (_ : Emit.File) : option JS.Error := None.

Definition hasSlash (segment : string) : bool :=
  negb (JS.sforall (fun c => negb (JS.isSlash c)) segment).

Definition noSuchDirectory : JS.Error :=
  JS.mkError "Error" "ENOENT: no such file or directory".

Definition refusesSlash (f : Emit.File) : option JS.Error :=
  if existsb hasSlash (Emit.path f) then Some noSuchDirectory else None.

(** Two records with their metadata whose names have a slash. *)
Definition nestedSlashed : Fumadocs.Service :=
  Fumadocs.mkService "Input/Output Services" "Services for input and output"
    (Some "Professional-Services") (Some "Computer-Services") programmingClassification
    "80111700" "Q21198342" "https://en.wikipedia.org/wiki/Input/output" 1.0
    "Professional Service".

Definition flatSlashed : Flat.Service :=
  Flat.mkService "Input/Output Services" "Input/OutputServices"
    "Services for input and output"
    (Some (Flat.mkCategory "ProfessionalServices" "Professional Services"))
    (Some (Flat.mkCategory "ComputerServices" "Computer Services")) programmingClassification
    "80111700" "Q21198342" "https://en.wikipedia.org/wiki/Input/output" 1.0
    "Professional Service".

(** Page templates that print the heading of the page only. *)
Definition nestedHeading (s : Fumadocs.Service) : string := "# " +:+ Fumadocs.name s.
Definition flatHeading (s : Flat.Service) : string := "# " +:+ Flat.name s.
Definition categoryHeading (c : Flat.Category) (_ : list Flat.Service)
    : JS.Completion string :=
  JS.Returned ("# " +:+ Flat.cat_display c).
Definition subcategoryHeading (_ c : Flat.Category) (_ : list Flat.Service)
    : JS.Completion string :=
  JS.Returned ("# " +:+ Flat.cat_display c).

(** ** The layout of a rendered document *)

Section DocumentLayout.
Context {Num : Type}.
Variable numberToString : Num -> string.
Variable num_0_7 : Num.

Definition frontmatterOf (o : @Mdx.ServiceMDXOptions Num) : string :=
  Mdx.generateFrontmatter numberToString (Mdx.opt_industry o) (Mdx.opt_classification o)
    (Mdx.opt_wikidata o) (default num_0_7 (Mdx.opt_digital o)).

(** The part of a document above its description paragraph, and the part
    between the description and the examples slot. *)
Definition documentHead (o : @Mdx.ServiceMDXOptions Num) : string :=
  frontmatterOf o +:+ JS.nl +:+ JS.nl
  +:+ Mdx.generateBreadcrumb (Mdx.opt_classification o) +:+ JS.nl +:+ JS.nl
  +:+ "# " +:+ Naics.ind_title (Mdx.opt_industry o).

Definition documentMiddle (o : @Mdx.ServiceMDXOptions Num) : string :=
  Mdx.generatePropertiesSection +:+ JS.nl +:+ JS.nl
  +:+ Mdx.generateClassificationSection (Mdx.opt_classification o) (Mdx.opt_wikidata o).

Definition documentTail (o : @Mdx.ServiceMDXOptions Num) : string :=
  Mdx.generateResourcesSection (Mdx.opt_wikidata o) (Some (Mdx.opt_classification o)).

Definition document (o : @Mdx.ServiceMDXOptions Num) (examplesText : string) : string :=
  documentHead o +:+ JS.nl +:+ JS.nl
  +:+ Mdx.generateDescription (Mdx.opt_industry o) (Mdx.opt_wikidata o) +:+ JS.nl +:+ JS.nl
  +:+ documentMiddle o +:+ JS.nl +:+ JS.nl
  +:+ examplesText +:+ JS.nl +:+ JS.nl
  +:+ documentTail o.

(** The lines of the metadata block above its [description] key. *)
Definition frontmatterTop (industry : Naics.NAICSIndustry) : string :=
  "---" +:+ JS.nl
  +:+ "$id: https://services.org.ai/" +:+ Mdx.toKebabCase (Naics.ind_title industry) +:+ JS.nl
  +:+ "$context: https://schema.org.ai" +:+ JS.nl
  +:+ "$type: Service" +:+ JS.nl
  +:+ "name: " +:+ Naics.ind_title industry +:+ JS.nl.

Definition frontmatterBelowDescription (classification : Naics.NAICSClassification)
    (wikidata : option Wikidata.WikidataService) (digital : Num) : string :=
  JS.joinLines
    (["naics:";
      "  code: " +:+ JS.dq +:+ Naics.code classification +:+ JS.dq;
      "  title: " +:+ JS.dq +:+ Naics.title classification +:+ JS.dq;
      "  sector: " +:+ JS.dq +:+ Naics.sector classification +:+ JS.dq;
      "  sectorName: " +:+ JS.dq +:+ Naics.sectorName classification +:+ JS.dq]
     ++ Mdx.optionalLine "subsector" (Naics.subsector classification)
     ++ Mdx.optionalLine "industryGroup" (Naics.industryGroup classification)
     ++ Mdx.optionalLine "industryGroupName" (Naics.industryGroupName classification)
     ++ Mdx.frontmatterWikidataLines wikidata
     ++ ["digital: " +:+ numberToString digital;
         "category: Service";
         "serviceType: " +:+ Mdx.getServiceType classification;
         "---"]).

(** No text field of the record or of the facts, and no printed number,
    holds a number sign. *)
Definition plainFacts (wikidata : option Wikidata.WikidataService) : bool :=
  match wikidata with
  | None => true
  | Some w =>
      plainText (Wikidata.qid w) && plainText (Wikidata.label w)
      && plainOption (Wikidata.description w) && plainOption (Wikidata.wikipedia w)
  end.

Definition plainClassification (c : Naics.NAICSClassification) : bool :=
  plainText (Naics.code c) && plainText (Naics.title c)
  && plainText (Naics.sector c) && plainText (Naics.sectorName c)
  && plainOption (Naics.subsector c) && plainOption (Naics.industryGroup c)
  && plainOption (Naics.industryGroupName c).

Definition plainInput (o : @Mdx.ServiceMDXOptions Num) : bool :=
  plainText (Naics.ind_title (Mdx.opt_industry o))
  && plainOption (Naics.ind_description (Mdx.opt_industry o))
  && plainClassification (Mdx.opt_classification o)
  && plainFacts (Mdx.opt_wikidata o)
  && plainText (numberToString (default num_0_7 (Mdx.opt_digital o))).

End DocumentLayout.

(** ** Vocabulary of the further properties *)

(** The last character exists and is in the class. *)
Fixpoint endsWith (p : ascii -> bool) (s : string) : bool :=
  match s with
  | EmptyString => false
  | String c EmptyString => p c
  | String _ t => endsWith p t
  end.

(** The first character, if there is one, is in the class. *)
Definition startsWithOrEmpty (p : ascii -> bool) (s : string) : bool :=
  match s with
  | EmptyString => true
  | String c _ => p c
  end.

(** The alphabet of a slug: [a-z], [0-9] and the hyphen. *)
Definition slugChar (c : ascii) : bool := JS.isLower c || JS.isDigit c || JS.isHyphen c.

Definition notLower (c : ascii) : bool := negb (JS.isLower c).

(** The text is empty or ends in a letter or a digit. *)
Definition closedByAlnum (s : string) : Prop :=
  s = EmptyString \/ endsWith JS.isAlnum s = true.

(** An entity identifier: the letter Q followed by at least one digit. *)
Definition wellFormedQID (q : string) : Prop :=
  exists digits,
    q = "Q" +:+ digits /\ digits <> EmptyString /\ JS.sforall JS.isDigit digits = true.

(** A binding that binds [?service] only. *)
Definition serviceOnly (uri : string) : Wikidata.Binding :=
  Wikidata.mkBinding (Some (Wikidata.mkTerm uri)) None None None None None None None None None.

(** The printing of a number that has at most one decimal digit, as the
    scores have: the digit is left out when it is 0, as a template
    literal leaves it out. *)
Definition printScore (q : Q) : string :=
  let tenths := Z.to_nat (Qnum q * 10 / Zpos (Qden q)) in
  if tenths mod 10 =? 0 then pretty (tenths / 10)
  else pretty (tenths / 10) +:+ "." +:+ pretty (tenths mod 10).

(** The list the nested planner keeps under a category and a subcategory
    key; no list when either key is not there. *)
Definition groupOf (m : Fumadocs.CategoryMap) (k sk : option string) : list Fumadocs.Service :=
  default [] (JSMap.get sk (default [] (JSMap.get k m))).

(** The record carries these two keys. *)
Definition keyedBy (k sk : option string) (s : Fumadocs.Service) : bool :=
  bool_decide (Fumadocs.category s = k /\ Fumadocs.subcategory s = sk).


(** The key of an entry of a map is not [undefined]. *)
Definition keyPresent {A} (e : option string * A) : bool :=
  match e.1 with
  | Some _ => true
  | None => false
  end.

(** No category key and no subcategory key of the map is [undefined]. *)
Definition allKeyed (m : Fumadocs.CategoryMap) : bool :=
  forallb (fun e => keyPresent e && forallb keyPresent e.2) m.

(** No category of the map is without a subcategory, and no subcategory
    without a record. *)
Definition nonEmptyCat (e : option string * Fumadocs.SubcategoryMap) : Prop :=
  e.2 <> [] /\ Forall (fun e' : option string * list Fumadocs.Service => e'.2 <> []) e.2.

(** The error of [categoryName.replace] on a key that is [undefined]. *)
Definition replaceOfUndefined : JS.Error :=
  JS.TypeError "Cannot read properties of undefined (reading 'replace')".

(** The line of a subcategory index page that links a record: the
    address is the file name of its leaf document without the extension. *)
Definition subcategoryLink (s : Fumadocs.Service) : string :=
  "- [" +:+ Fumadocs.name s +:+ "](./" +:+ Fumadocs.fileSlug (Fumadocs.name s) +:+ ")".

(** The path of the index page of the subcategory of a record. *)
Definition subcategoryIndexPath (s : Fumadocs.Service) : list string :=
  [Fumadocs.dirName (Fumadocs.category s); Fumadocs.dirName (Fumadocs.subcategory s);
   "index.mdx"].

(** The records the flat planner keeps under a category name, and under
    a subcategory key; none when the key is not there. *)
Definition flatCategoryGroup (cm : Flat.CategoryMap) (k : string) : list Flat.Service :=
  match JSMap.get k cm with
  | Some d => Flat.cd_services d
  | None => []
  end.

Definition flatSubcategoryGroup (sm : Flat.SubcategoryMap) (k : string) : list Flat.Service :=
  match JSMap.get k sm with
  | Some d => Flat.sd_services d
  | None => []
  end.

(** The key of the subcategory map for a record:
    [`${service.category.name}:${service.subcategory.name}`]. *)
Definition flatSubKey (s : Flat.Service) : option string :=
  match Flat.category s, Flat.subcategory s with
  | Some c, Some sub => Some (Flat.cat_name c +:+ ":" +:+ Flat.cat_name sub)
  | _, _ => None
  end.

Definition flatCategoryKey (s : Flat.Service) : option string :=
  match Flat.category s with
  | Some c => Some (Flat.cat_name c)
  | None => None
  end.

Definition inFlatCategory (k : string) (s : Flat.Service) : bool :=
  bool_decide (flatCategoryKey s = Some k).

Definition inFlatSubcategory (k : string) (s : Flat.Service) : bool :=
  bool_decide (flatSubKey s = Some k).

(** Neither white space nor a parenthesis. *)
Definition fileNameChar (c : ascii) : bool := notSpace c && notParen c.

(** The line of a category index page that links a record, and the line
    that gives the number of records of the page. *)
Definition categoryLink (s : Fumadocs.Service) : string :=
  "- [" +:+ Fumadocs.name s +:+ "](./" +:+ JS.interpolate (Fumadocs.subcategory s)
    +:+ "/" +:+ Fumadocs.fileSlug (Fumadocs.name s) +:+ ")".

Definition totalLine (n : nat) : string := "Total service types: " +:+ pretty n.

(** The records of a category of the map, as the category index page is
    given them: [Array.from(subcategoryMap.values()).flat()]. *)
Definition recordsOfCategory (m : Fumadocs.CategoryMap) (k : option string)
    : list Fumadocs.Service :=
  concat (JSMap.values (default [] (JSMap.get k m))).

Definition inCategory (k : option string) (s : Fumadocs.Service) : bool :=
  bool_decide (Fumadocs.category s = k).

(** * Properties *)

(** ** Characters and strings *)

Ltac all_chars c :=
  destruct c as [[] [] [] [] [] [] [] []]; vm_compute;
  try reflexivity; try discriminate; try tauto.

Lemma append_cons c s t : String c s +:+ t = String c (s +:+ t).
Proof. reflexivity. Qed.

Lemma append_nil s : EmptyString +:+ s = s.
Proof. reflexivity. Qed.

Lemma append_assoc s t u : (s +:+ t) +:+ u = s +:+ (t +:+ u).
Proof. induction s as [|c s IH]; [reflexivity|]. rewrite !append_cons, IH. reflexivity. Qed.

Lemma append_nil_r s : s +:+ EmptyString = s.
Proof. induction s as [|c s IH]; [reflexivity|]. rewrite append_cons, IH. reflexivity. Qed.

Lemma sforall_app (P : ascii -> bool) s t :
  JS.sforall P (s +:+ t) = JS.sforall P s && JS.sforall P t.
Proof.
  induction s as [|c s IH]; simpl; [reflexivity|].
  rewrite IH. apply andb_assoc.
Qed.

Lemma sforall_smap (P Q : ascii -> bool) (f : ascii -> ascii) s :
  (forall c, P c = true -> Q (f c) = true) ->
  JS.sforall P s = true -> JS.sforall Q (JS.smap f s) = true.
Proof.
  intros Hf. induction s as [|c s IH]; simpl; [reflexivity|].
  intros [Hc Hs]%andb_true_iff. rewrite (Hf _ Hc), (IH Hs). reflexivity.
Qed.

Lemma sforall_sfilter (P Q : ascii -> bool) (p : ascii -> bool) s :
  (forall c, p c = true -> P c = true -> Q c = true) ->
  JS.sforall P s = true -> JS.sforall Q (JS.sfilter p s) = true.
Proof.
  intros Hp. induction s as [|c s IH]; simpl; [reflexivity|].
  intros [Hc Hs]%andb_true_iff. destruct (p c) eqn:Epc; simpl; auto.
  rewrite (Hp _ Epc Hc). auto.
Qed.

Lemma sforall_replaceRuns (P Q : ascii -> bool) (cls : ascii -> bool) rep b s :
  (forall c, cls c = false -> P c = true -> Q c = true) ->
  JS.sforall Q rep = true ->
  JS.sforall P s = true ->
  JS.sforall Q (JS.replaceRuns_from cls rep b s) = true.
Proof.
  intros Hc Hrep. revert b.
  induction s as [|c s IH]; intros b; simpl; [reflexivity|].
  intros [Hpc Hs]%andb_true_iff.
  destruct (cls c) eqn:E.
  - destruct b; [auto|]. rewrite sforall_app, Hrep. simpl. auto.
  - simpl. rewrite (Hc _ E Hpc). simpl. auto.
Qed.

Lemma sforall_any s : JS.sforall anyChar s = true.
Proof. induction s; simpl; auto. Qed.

Lemma sforall_weaken (P Q : ascii -> bool) s :
  (forall c, P c = true -> Q c = true) ->
  JS.sforall P s = true -> JS.sforall Q s = true.
Proof.
  intros H. induction s as [|c s IH]; simpl; [reflexivity|].
  intros [Hc Hs]%andb_true_iff. rewrite (H _ Hc). auto.
Qed.

Lemma toLowerCase_fixed s :
  JS.sforall lowerFixed s = true -> JS.toLowerCase s = s.
Proof.
  induction s as [|c s IH]; simpl; [reflexivity|].
  intros [Hc Hs]%andb_true_iff. unfold JS.toLowerCase in *. simpl.
  rewrite (IH Hs). f_equal. apply Ascii.eqb_eq, Hc.
Qed.

Lemma cleanSlug_intro s :
  JS.sforall (fun c => notSpace c && notParen c && notUpper c && lowerFixed c) s = true ->
  cleanSlug s.
Proof.
  intros H. unfold cleanSlug.
  repeat split.
  - revert H. apply sforall_weaken. intros c Hc.
    apply andb_true_iff in Hc as [Hc _]. apply andb_true_iff in Hc as [Hc _].
    apply andb_true_iff in Hc as [Hc _]. exact Hc.
  - revert H. apply sforall_weaken. intros c Hc.
    apply andb_true_iff in Hc as [Hc _]. apply andb_true_iff in Hc as [Hc _].
    apply andb_true_iff in Hc as [_ Hc]. exact Hc.
  - revert H. apply sforall_weaken. intros c Hc.
    apply andb_true_iff in Hc as [Hc _]. apply andb_true_iff in Hc as [_ Hc]. exact Hc.
  - apply toLowerCase_fixed. revert H. apply sforall_weaken. intros c Hc.
    apply andb_true_iff in Hc as [_ Hc]. exact Hc.
Qed.

(** The output of [toKebabCase] is made of [a-z], [0-9] and the hyphen. *)
Lemma toKebabCase_alphabet str :
  JS.sforall (fun c => JS.isLower c || JS.isDigit c || JS.isHyphen c)
    (Mdx.toKebabCase str) = true.
Proof.
  unfold Mdx.toKebabCase, JS.toLowerCase, JS.removeAll.
  apply sforall_smap with (P := fun c => JS.isAlnum c || JS.isHyphen c).
  - intros c. all_chars c.
  - apply sforall_sfilter with (P := anyChar); [|apply sforall_any].
    intros c Hc _. rewrite negb_involutive in Hc. exact Hc.
Qed.

Lemma toKebabCase_clean str : cleanSlug (Mdx.toKebabCase str).
Proof.
  apply cleanSlug_intro. generalize (toKebabCase_alphabet str).
  apply sforall_weaken. intros c. all_chars c.
Qed.

Lemma kebabName_clean name : cleanSlug (Samples.kebabName name).
Proof.
  apply cleanSlug_intro. unfold Samples.kebabName, JS.removeAll.
  apply sforall_sfilter with (P := fun c => notSpace c && (notUpper c && lowerFixed c)).
  { intros c H1 [H2 [H3 H4]%andb_true_iff]%andb_true_iff.
    unfold notParen. rewrite H1, H2, H3, H4. reflexivity. }
  apply sforall_replaceRuns with (P := fun c => notUpper c && lowerFixed c).
  - intros c H1 H2. unfold notSpace. rewrite H1, H2. reflexivity.
  - reflexivity.
  - unfold JS.toLowerCase. apply sforall_smap with (P := anyChar); [|apply sforall_any].
    intros c _. all_chars c.
Qed.

(** C6. For every non-empty input string, the path slug -- [toKebabCase] of
    the generator class and [kebabName] of the sample script -- contains no
    white-space character, no parenthesis and no upper-case letter, and is
    its own lower-casing. *)
Theorem path_slug_is_clean (s : string) :
  s <> EmptyString ->
  cleanSlug (Mdx.toKebabCase s) /\ cleanSlug (Samples.kebabName s).
Proof.
  intros _. split; [apply toKebabCase_clean | apply kebabName_clean].
Qed.

Lemma path_slug_is_clean_witness :
  "Offices of Physicians (except Mental Health Specialists)" <> EmptyString
  /\ cleanSlug (Mdx.toKebabCase "Offices of Physicians (except Mental Health Specialists)")
  /\ cleanSlug (Samples.kebabName "Offices of Physicians (except Mental Health Specialists)").
Proof.
  split; [discriminate|].
  apply (path_slug_is_clean "Offices of Physicians (except Mental Health Specialists)").
  discriminate.
Defined.

(** ** Identifier and variable names *)

(** C7, as the code has it. In the generator class [toPascalCase] turns
    the title Full-Service Restaurants into FullServiceRestaurants and
    [toCamelCase] turns it into fullServiceRestaurants; on every input
    [toCamelCase] is [toPascalCase] with its first character lower-cased
    when that character is one of A to Z, and left as it is otherwise.
    In the sample script [camelName] is [pascalName] with its first
    character lower-cased, on every name. *)
Theorem camel_is_pascal_lowerFirst :
  Mdx.toPascalCase "Full-Service Restaurants" = "FullServiceRestaurants"
  /\ Mdx.toCamelCase "Full-Service Restaurants" = "fullServiceRestaurants"
  /\ (forall s, Mdx.toCamelCase s = JS.lowerLeadingUpper (Mdx.toPascalCase s))
  /\ (forall name, Samples.camelName name = Samples.lowerFirst (Samples.pascalName name)).
Proof.
  split; [reflexivity|]. split; [reflexivity|]. split; [|reflexivity].
  intros s. unfold Mdx.toCamelCase, Mdx.toPascalCase.
  destruct (JS.capitalizeAfterSep s) as [|c t]; [reflexivity|].
  unfold JS.lowerLeadingUpper, JS.upperLeadingLower.
  destruct (JS.isLower c) eqn:El.
  - replace (JS.isUpper c) with false by (revert El; all_chars c).
    replace (JS.isUpper (JS.upperChar c)) with true by (revert El; all_chars c).
    f_equal. revert El. all_chars c.
  - reflexivity.
Qed.

(** C7, as stated, fails in both places it is about. The sample script
    strips white space and parentheses only, so its names for the title
    Full-Service Restaurants keep the hyphen. In the generator class the
    one-letter title U+00C9 is its own name under [toPascalCase] and
    under [toCamelCase], both of which look for [A-Z] and [a-z] only,
    while its first character lower-cased is U+00E9. *)
Lemma names_are_not_as_claimed :
  Samples.pascalName "Full-Service Restaurants" = "Full-ServiceRestaurants"
  /\ Samples.pascalName "Full-Service Restaurants" <> "FullServiceRestaurants"
  /\ Samples.camelName "Full-Service Restaurants" = "full-ServiceRestaurants"
  /\ Samples.camelName "Full-Service Restaurants" <> "fullServiceRestaurants"
  /\ Mdx.toPascalCase capitalEacute = capitalEacute
  /\ Mdx.toCamelCase capitalEacute = capitalEacute
  /\ Samples.lowerFirst (Mdx.toPascalCase capitalEacute) = smallEacute
  /\ Mdx.toCamelCase capitalEacute <> Samples.lowerFirst (Mdx.toPascalCase capitalEacute).
Proof.
  split; [reflexivity|]. split; [discriminate|]. split; [reflexivity|].
  split; [discriminate|]. split; [reflexivity|]. split; [reflexivity|].
  split; [reflexivity | discriminate].
Qed.

(** ** The classification registry *)

Lemma substring_0_prefix n s :
  exists rest, s = String.substring 0 n s +:+ rest.
Proof.
  revert s. induction n as [|n IH]; intros s.
  - exists s. destruct s; reflexivity.
  - destruct s as [|c s]; [exists EmptyString; reflexivity|].
    destruct (IH s) as [rest Hrest]. exists rest. rewrite Hrest at 1. reflexivity.
Qed.

Lemma substring_0_length n s :
  String.length (String.substring 0 n s) = Nat.min n (String.length s).
Proof.
  revert s. induction n as [|n IH]; intros s.
  - destruct s; reflexivity.
  - destruct s as [|c s]; [reflexivity|]. simpl. f_equal. apply IH.
Qed.

(** C1. For every code that is a key of the table, [getClassification]
    returns a record whose [sector] is the first 2 characters of the code,
    whose [subsector] is the first 3 characters, unset when the code has
    fewer than 3, and whose [industryGroup] is the first 4 characters,
    unset when the code has fewer than 4; the singleton parser resolves
    541511 to sector 54, subsector 541 and industry group 5415. *)
Theorem getClassification_prefix_codes
    (data : gmap string Naics.NAICSIndustry) (c : string) (industry : Naics.NAICSIndustry) :
  data !! c = Some industry ->
  (exists r, Naics.getClassification data c = Some r
     /\ Naics.sector r = String.substring 0 2 c
     /\ (3 <= String.length c -> Naics.subsector r = Some (String.substring 0 3 c))
     /\ (String.length c < 3 -> Naics.subsector r = None)
     /\ (4 <= String.length c -> Naics.industryGroup r = Some (String.substring 0 4 c))
     /\ (String.length c < 4 -> Naics.industryGroup r = None))
  /\ (exists r, Naics.naicsParser_getClassification "541511" = Some r
        /\ Naics.code r = "541511"
        /\ Naics.sector r = "54"
        /\ Naics.subsector r = Some "541"
        /\ Naics.industryGroup r = Some "5415").
Proof.
  intros Hkey. split.
  - unfold Naics.getClassification, Naics.getIndustry. rewrite Hkey.
    eexists. split; [reflexivity|].
    cbn [Naics.sector Naics.subsector Naics.industryGroup].
    split; [reflexivity|].
    repeat split; intros Hlen.
    + apply Nat.leb_le in Hlen. rewrite Hlen. reflexivity.
    + destruct (3 <=? String.length c) eqn:E; [apply Nat.leb_le in E; lia | reflexivity].
    + apply Nat.leb_le in Hlen. rewrite Hlen. reflexivity.
    + destruct (4 <=? String.length c) eqn:E; [apply Nat.leb_le in E; lia | reflexivity].
  - eexists. split; [vm_compute; reflexivity|]. repeat split.
Qed.

Lemma getClassification_prefix_codes_witness :
  exists r, Naics.getClassification Naics.NAICS_DATA "722511" = Some r
    /\ Naics.sector r = "72"
    /\ Naics.subsector r = Some "722"
    /\ Naics.industryGroup r = Some "7225".
Proof.
  destruct (getClassification_prefix_codes Naics.NAICS_DATA "722511"
              (Naics.mkIndustry "722511" "Full-Service Restaurants"
                 (Some "Providing food services to patrons who order and are served while seated and pay after eating")
                 Naics.sector72))
    as [[r (Hr & Hs & H3 & _ & H4 & _)] _].
  - vm_compute. reflexivity.
  - exists r. split; [exact Hr|]. split; [exact Hs|].
    split; [apply H3; simpl; lia | apply H4; simpl; lia].
Defined.

(** ** The digital-delivery score *)

Lemma prefix_spec pat s :
  String.prefix pat s = true <-> exists b, s = pat +:+ b.
Proof.
  revert s. induction pat as [|a pat IH]; intros s.
  - split; [intros _; exists s; reflexivity | intros _; destruct s; reflexivity].
  - destruct s as [|c s]; simpl.
    + split; [discriminate | intros [b Hb]; discriminate].
    + destruct (ascii_dec a c) as [->|Hne].
      * rewrite IH. split; intros [b Hb]; exists b.
        -- rewrite append_cons. f_equal. exact Hb.
        -- rewrite append_cons in Hb. injection Hb as Hb. exact Hb.
      * split; [discriminate|]. intros [b Hb]. rewrite append_cons in Hb.
        injection Hb as Hc _. congruence.
Qed.

Lemma includes_nil pat :
  JS.includes pat EmptyString = String.prefix pat EmptyString.
Proof. unfold JS.includes. apply orb_false_r. Qed.

Lemma includes_cons pat c s :
  JS.includes pat (String c s) = String.prefix pat (String c s) || JS.includes pat s.
Proof. reflexivity. Qed.

(** [includes] finds exactly the occurrences of the pattern. *)
Lemma includes_spec pat s :
  JS.includes pat s = true <-> exists a b, s = a +:+ pat +:+ b.
Proof.
  induction s as [|c s IH].
  - rewrite includes_nil, prefix_spec. split.
    + intros [b Hb]. exists EmptyString, b. exact Hb.
    + intros [a [b Hab]]. destruct a; [exists b; exact Hab | discriminate].
  - rewrite includes_cons, orb_true_iff, IH, prefix_spec. split.
    + intros [[b Hb] | [a [b Hab]]].
      * exists EmptyString, b. exact Hb.
      * exists (String c a), b. rewrite append_cons. f_equal. exact Hab.
    + intros [a [b Hab]]. destruct a as [|c' a].
      * left. exists b. exact Hab.
      * right. exists a, b. rewrite append_cons in Hab. injection Hab as _ Hab. exact Hab.
Qed.

Lemma keywordMatch_spec title :
  Generate.keywordMatch title = true <-> hasKeyword title.
Proof.
  unfold Generate.keywordMatch, hasKeyword.
  rewrite !orb_true_iff. tauto.
Qed.

Local Open Scope Q_scope.

(** C9. The digital-delivery score: an industry whose lower-cased title
    contains computer, software, web, data processing or internet scores
    1.0 whatever its sector; without a keyword the score is the default
    of the sector -- 0.9 for 51, 0.7 for 54, 0.8 for 52, 0.5 for 62, 0.6
    for 61, 0.3 for 72 and 81, 0.5 for 48 and 49 -- and 0.5 for any other
    sector. *)
Theorem digital_score_precedence (industry : Naics.NAICSIndustry) :
  let title := JS.toLowerCase (Naics.ind_title industry) in
  let sectorCode := Naics.sector_code (Naics.ind_sector industry) in
  let score := Generate.calculateDigitalScore industry in
  (hasKeyword title -> score = 1.0)
  /\ (~ hasKeyword title ->
      (sectorCode = "51" -> score = 0.9)
      /\ (sectorCode = "54" -> score = 0.7)
      /\ (sectorCode = "52" -> score = 0.8)
      /\ (sectorCode = "62" -> score = 0.5)
      /\ (sectorCode = "61" -> score = 0.6)
      /\ (sectorCode = "72" -> score = 0.3)
      /\ (sectorCode = "81" -> score = 0.3)
      /\ (sectorCode = "48" \/ sectorCode = "49" -> score = 0.5)
      /\ (~ In sectorCode ["51"; "54"; "52"; "62"; "61"; "72"; "81"; "48"; "49"] ->
          score = 0.5)).
Proof.
  intros title sectorCode score. subst score. unfold Generate.calculateDigitalScore.
  fold title. fold sectorCode. split.
  - intros Hk. apply keywordMatch_spec in Hk. rewrite Hk. reflexivity.
  - intros Hk. destruct (Generate.keywordMatch title) eqn:E.
    { apply keywordMatch_spec in E. contradiction. }
    repeat split.
    1-7: intros ->; reflexivity.
    + intros [-> | ->]; reflexivity.
    + intros Hnot. simpl in Hnot.
      repeat match goal with
             | |- context [String.eqb sectorCode ?k] =>
                 destruct (String.eqb_spec sectorCode k) as [Heq|_];
                 [exfalso; apply Hnot; rewrite Heq; tauto|]
             end.
      reflexivity.
Qed.

Lemma digital_score_precedence_witness :
  Generate.calculateDigitalScore
    (Naics.mkIndustry "541511" "Custom Computer Programming Services" None Naics.sector54) = 1.0
  /\ Generate.calculateDigitalScore
       (Naics.mkIndustry "722511" "Full-Service Restaurants" None Naics.sector72) = 0.3
  /\ Generate.calculateDigitalScore
       (Naics.mkIndustry "111110" "Soybean Farming" None
          (Naics.mkSector "11" "Agriculture, Forestry, Fishing and Hunting" None)) = 0.5.
Proof.
  split; [|split].
  - apply (proj1 (digital_score_precedence
             (Naics.mkIndustry "541511" "Custom Computer Programming Services" None
                Naics.sector54))).
    left. reflexivity.
  - destruct (digital_score_precedence
                (Naics.mkIndustry "722511" "Full-Service Restaurants" None Naics.sector72))
      as [_ Hrest].
    destruct Hrest as (_ & _ & _ & _ & _ & H72 & _).
    + intros H. unfold hasKeyword in H. vm_compute in H.
      repeat destruct H as [H|H]; discriminate.
    + apply H72. reflexivity.
  - destruct (digital_score_precedence
                (Naics.mkIndustry "111110" "Soybean Farming" None
                   (Naics.mkSector "11" "Agriculture, Forestry, Fishing and Hunting" None)))
      as [_ Hrest].
    destruct Hrest as (_ & _ & _ & _ & _ & _ & _ & _ & Hother).
    + intros H. unfold hasKeyword in H. vm_compute in H.
      repeat destruct H as [H|H]; discriminate.
    + apply Hother. simpl. intros H. repeat destruct H as [H|H]; try discriminate. exact H.
Defined.

Local Close Scope Q_scope.

(** ** Parsing query results *)

Lemma parseServiceResults_absent (response : Wikidata.Response) :
  Wikidata.results response = None
  \/ (exists r, Wikidata.results response = Some r /\ Wikidata.bindings r = None) ->
  Wikidata.parseServiceResults response = JS.Returned [].
Proof.
  unfold Wikidata.parseServiceResults.
  intros [-> | [r [-> ->]]]; reflexivity.
Qed.

Lemma extractQID_if_bound_returns t :
  exists q, Wikidata.extractQID_if_bound t = JS.Returned q.
Proof. destruct t as [x|]; eexists; reflexivity. Qed.

Lemma parseBinding_bound b :
  serviceBound b -> exists s, Wikidata.parseBinding b = JS.Returned s.
Proof.
  unfold serviceBound, Wikidata.parseBinding. intros Hb.
  destruct (Wikidata.b_service b) as [t|]; [|contradiction].
  destruct (extractQID_if_bound_returns (Wikidata.b_industry b)) as [iq Hiq].
  destruct (extractQID_if_bound_returns (Wikidata.b_provider b)) as [pq Hpq].
  cbn. rewrite Hiq. cbn. rewrite Hpq. cbn. eexists. reflexivity.
Qed.

(** With [?service] bound in every binding, the parser returns one
    service per binding, in the order of the bindings. *)
Lemma mapArray_parseBinding_bound (bs : list Wikidata.Binding) :
  Forall serviceBound bs ->
  exists services,
    Wikidata.mapArray Wikidata.parseBinding bs = JS.Returned services
    /\ Forall2 (fun b s => Wikidata.parseBinding b = JS.Returned s) bs services.
Proof.
  induction 1 as [|b bs Hb _ IH].
  - exists []. split; [reflexivity | constructor].
  - destruct (parseBinding_bound b Hb) as [s Hs].
    destruct IH as [services [Hmap Hall]].
    exists (s :: services). split.
    + cbn. rewrite Hs. cbn. rewrite Hmap. reflexivity.
    + constructor; assumption.
Qed.

(** X14. When every binding of the response binds [?service], the parser
    does not throw: it returns one service per binding, in the order of
    the bindings, each one parsed from its own binding. *)
Lemma parseServiceResults_bound (r : Wikidata.Results) (bs : list Wikidata.Binding) :
  Wikidata.bindings r = Some bs ->
  Forall serviceBound bs ->
  exists services,
    Wikidata.parseServiceResults (Wikidata.mkResponse (Some r)) = JS.Returned services
    /\ length services = length bs
    /\ Forall2 (fun b s => Wikidata.parseBinding b = JS.Returned s) bs services.
Proof.
  intros Hr Hall. unfold Wikidata.parseServiceResults. cbn. rewrite Hr.
  destruct (mapArray_parseBinding_bound bs Hall) as [services [Hmap H2]].
  exists services. split; [exact Hmap|]. split; [|exact H2].
  symmetry. eapply Forall2_length. exact H2.
Qed.

(** C10. On a response that has a [bindings] array whose one binding does
    not bind [?service], [parseServiceResults] does not return a service
    for the binding: [extractQID] is handed [undefined] and throws a
    TypeError. *)
Theorem parseServiceResults_unbound_service_throws :
  Wikidata.parseServiceResults unboundServiceResponse
  = JS.Thrown (JS.TypeError "Cannot read properties of undefined (reading 'match')").
Proof. reflexivity. Qed.

(** ** The layout of a rendered document *)

Lemma endsNonSpace_app_r a b : endsNonSpace b = true -> endsNonSpace (a +:+ b) = true.
Proof.
  intros Hb. induction a as [|c a IH]; [exact Hb|].
  rewrite append_cons. simpl. destruct (a +:+ b) eqn:E; [discriminate | exact IH].
Qed.

Lemma startsNonSpace_app_l a b : startsNonSpace a = true -> startsNonSpace (a +:+ b) = true.
Proof. destruct a; [discriminate | intros H; exact H]. Qed.

Lemma trimStart_id s : startsNonSpace s = true -> JS.trimStart s = s.
Proof.
  destruct s as [|c s]; [discriminate|]. simpl.
  destruct (JS.isSpace c); [discriminate | reflexivity].
Qed.

Lemma trimEnd_id s : endsNonSpace s = true -> JS.trimEnd s = s.
Proof.
  induction s as [|c s IH]; [discriminate|].
  destruct s as [|c' s'].
  - simpl. destruct (JS.isSpace c); [discriminate | reflexivity].
  - intros H. change (endsNonSpace (String c' s') = true) in H.
    change (JS.trimEnd (String c (String c' s')))
      with (match JS.trimEnd (String c' s') with
            | EmptyString => if JS.isSpace c then EmptyString else String c EmptyString
            | r => String c r
            end).
    rewrite (IH H). reflexivity.
Qed.

Lemma trimEnd_spaces w : JS.sforall JS.isSpace w = true -> JS.trimEnd w = EmptyString.
Proof.
  induction w as [|c w IH]; [reflexivity|]. simpl.
  intros [Hc Hw]%andb_true_iff. rewrite (IH Hw), Hc. reflexivity.
Qed.

Lemma trimEnd_app_spaces s w :
  endsNonSpace s = true -> JS.sforall JS.isSpace w = true -> JS.trimEnd (s +:+ w) = s.
Proof.
  intros Hs Hw. induction s as [|c s IH]; [discriminate|].
  rewrite append_cons.
  change (JS.trimEnd (String c (s +:+ w)))
    with (match JS.trimEnd (s +:+ w) with
          | EmptyString => if JS.isSpace c then EmptyString else String c EmptyString
          | r => String c r
          end).
  destruct s as [|c' s'].
  - rewrite append_nil, (trimEnd_spaces _ Hw). simpl in Hs.
    destruct (JS.isSpace c); [discriminate | reflexivity].
  - rewrite IH; [reflexivity | exact Hs].
Qed.

Lemma trim_document s :
  startsNonSpace s = true -> endsNonSpace s = true -> JS.trim (s +:+ JS.nl) = s.
Proof.
  intros Hs He. unfold JS.trim.
  rewrite trimStart_id; [|apply startsNonSpace_app_l, Hs].
  apply trimEnd_app_spaces; [exact He | reflexivity].
Qed.

Lemma joinLines_cons2 a b l :
  JS.joinLines (a :: b :: l) = a +:+ JS.nl +:+ JS.joinLines (b :: l).
Proof. reflexivity. Qed.

Lemma endsNonSpace_joinLines l :
  endsNonSpace (List.last l EmptyString) = true -> endsNonSpace (JS.joinLines l) = true.
Proof.
  induction l as [|a l IH]; [discriminate|].
  destruct l as [|b l]; [intros H; exact H|].
  intros H. rewrite joinLines_cons2.
  apply endsNonSpace_app_r, endsNonSpace_app_r, IH. exact H.
Qed.

Ltac ends_with_literal :=
  repeat (apply endsNonSpace_app_r); reflexivity.

Lemma generateResourcesSection_ends w c :
  endsNonSpace (Mdx.generateResourcesSection w (Some c)) = true.
Proof.
  unfold Mdx.generateResourcesSection. apply endsNonSpace_joinLines.
  unfold Mdx.resourcesWikidataLines.
  destruct w as [w|]; [destruct (JS.truthy (Wikidata.wikipedia w))|];
    cbn [app List.last]; ends_with_literal.
Qed.

(** ** Scanning a document for the examples heading *)

Lemma scan_app q a b : scan q (a +:+ b) = scan (scan q a) b.
Proof.
  revert q. induction a as [|c a IH]; intros q; [reflexivity|].
  rewrite append_cons. simpl. apply IH.
Qed.

Lemma scan_Found s : scan Found s = Found.
Proof. induction s as [|c s IH]; [reflexivity | exact IH]. Qed.

Lemma scan_heading q s : scan q ("## Examples" +:+ s) = Found.
Proof. rewrite scan_app. destruct q; cbn; apply scan_Found. Qed.

Lemma scan_finds pat_before pat_after :
  scan Idle (pat_before +:+ "## Examples" +:+ pat_after) = Found.
Proof. rewrite scan_app. apply scan_heading. Qed.

Lemma calm_no_heading s : calm s -> JS.includes "## Examples" s = false.
Proof.
  unfold calm. intros Hs. destruct (JS.includes "## Examples" s) eqn:E; [|reflexivity].
  apply includes_spec in E as [a [b ->]]. rewrite scan_finds in Hs. discriminate.
Qed.

Lemma calm_nil : calm EmptyString.
Proof. reflexivity. Qed.

Lemma calm_app a b : calm a -> calm b -> calm (a +:+ b).
Proof. unfold calm. intros Ha Hb. rewrite scan_app, Ha. exact Hb. Qed.

Lemma calm_plain s : plainText s = true -> calm s.
Proof.
  unfold calm, plainText. induction s as [|c s IH]; [reflexivity|].
  simpl. intros [Hc Hs]%andb_true_iff.
  destruct (isHash c); [discriminate | apply IH, Hs].
Qed.

Lemma calm_joinLines lines : Forall calm lines -> calm (JS.joinLines lines).
Proof.
  induction 1 as [|a l Ha Hl IH]; [reflexivity|].
  destruct l as [|b l]; [exact Ha|].
  rewrite joinLines_cons2. apply calm_app; [exact Ha|].
  apply calm_app; [reflexivity | exact IH].
Qed.

Lemma plainText_app a b : plainText (a +:+ b) = plainText a && plainText b.
Proof. apply sforall_app. Qed.

Lemma plainText_popAfterSlash_acc seg s :
  plainText seg = true -> plainText s = true ->
  plainText (JS.popAfterSlash_acc seg s) = true.
Proof.
  revert seg. induction s as [|c s IH]; intros seg Hseg Hs; [exact Hseg|].
  unfold plainText in Hs. simpl in Hs. apply andb_true_iff in Hs as [Hc Hs].
  simpl. destruct (JS.isSlash c).
  - apply IH; [reflexivity | exact Hs].
  - apply IH; [|exact Hs]. rewrite plainText_app, Hseg. unfold plainText. simpl.
    rewrite Hc. reflexivity.
Qed.

Lemma plainText_popAfterSlash s :
  plainText s = true -> plainText (JS.popAfterSlash s) = true.
Proof. apply plainText_popAfterSlash_acc. reflexivity. Qed.

Lemma plainText_toKebabCase s : plainText (Mdx.toKebabCase s) = true.
Proof.
  generalize (toKebabCase_alphabet s). apply sforall_weaken. intros c. all_chars c.
Qed.

Lemma plainText_getServiceType sectorCode :
  plainText (Mdx.getServiceType_of_sector sectorCode) = true.
Proof.
  unfold Mdx.getServiceType_of_sector.
  destruct (Mdx.sectorTypes !! sectorCode) as [label|] eqn:E; [|reflexivity].
  apply elem_of_list_to_map_2 in E.
  repeat (apply elem_of_cons in E as [E|E]; [injection E as _ ->; reflexivity|]).
  apply elem_of_nil in E. contradiction.
Qed.

Section RendererProperties.
Context {Num : Type}.
Variable numberToString : Num -> string.
Variable num_0_7 : Num.

Lemma frontmatter_starts industry classification wikidata digital :
  startsNonSpace
    (Mdx.generateFrontmatter numberToString industry classification wikidata digital) = true.
Proof.
  unfold Mdx.generateFrontmatter. cbn [app]. rewrite joinLines_cons2.
  apply startsNonSpace_app_l. reflexivity.
Qed.

(** [trim] removes the final line feed of the template and nothing else. *)
Lemma generate_layout (o : @Mdx.ServiceMDXOptions Num) :
  Mdx.generate numberToString num_0_7 o = document numberToString num_0_7 o (Mdx.examplesSection o).
Proof.
  unfold Mdx.generate. cbv zeta.
  match goal with
  | |- JS.trim ?t = _ =>
      replace t with (document numberToString num_0_7 o (Mdx.examplesSection o) +:+ JS.nl)
  end.
  - apply trim_document.
    + unfold document, documentHead, frontmatterOf. rewrite !append_assoc.
      apply startsNonSpace_app_l, frontmatter_starts.
    + unfold document, documentTail.
      do 12 apply endsNonSpace_app_r. apply generateResourcesSection_ends.
  - unfold document, documentHead, documentMiddle, documentTail, frontmatterOf.
    rewrite !append_assoc. reflexivity.
Qed.

Lemma frontmatter_description_key industry classification wikidata digital :
  Mdx.generateFrontmatter numberToString industry classification wikidata digital
  = frontmatterTop industry +:+ "description: "
    +:+ JS.orDefault (Naics.ind_description industry) "Service type" +:+ JS.nl
    +:+ frontmatterBelowDescription numberToString classification wikidata digital.
Proof.
  unfold Mdx.generateFrontmatter, frontmatterTop, frontmatterBelowDescription.
  cbn [app]. do 6 rewrite joinLines_cons2.
  repeat rewrite append_assoc. reflexivity.
Qed.

(** The description paragraph sits between the title line and the
    properties table. *)
Lemma generate_has_description (o : @Mdx.ServiceMDXOptions Num) :
  exists post,
    Mdx.generate numberToString num_0_7 o
    = documentHead numberToString num_0_7 o +:+ JS.nl +:+ JS.nl
      +:+ Mdx.generateDescription (Mdx.opt_industry o) (Mdx.opt_wikidata o)
      +:+ JS.nl +:+ JS.nl +:+ post.
Proof. rewrite generate_layout. eexists. reflexivity. Qed.

(** C2, as the code has it. The description paragraph of the rendered
    document is [record.description] whenever that is present and
    non-empty; [facts.description] is used only when [record.description]
    is absent or empty, and then only if it is itself present and
    non-empty; when both are absent or empty the paragraph is the title
    followed by the word service and a full stop. The [description] key of
    the metadata block is [record.description], or the fixed text Service
    type. *)
Theorem description_precedence (o : @Mdx.ServiceMDXOptions Num) :
  let industry := Mdx.opt_industry o in
  let facts := Mdx.opt_wikidata o in
  let paragraph := Mdx.generateDescription industry facts in
  (exists post,
     Mdx.generate numberToString num_0_7 o
     = documentHead numberToString num_0_7 o +:+ JS.nl +:+ JS.nl +:+ paragraph +:+ JS.nl +:+ JS.nl +:+ post)
  /\ (forall d, Naics.ind_description industry = Some d -> d <> EmptyString ->
      paragraph = d)
  /\ (JS.truthy (Naics.ind_description industry) = false ->
      forall w d, facts = Some w -> Wikidata.description w = Some d -> d <> EmptyString ->
      paragraph = d)
  /\ (JS.truthy (Naics.ind_description industry) = false ->
      JS.truthy (w ← facts; Wikidata.description w) = false ->
      paragraph = Naics.ind_title industry +:+ " service.")
  /\ (forall digital, exists post,
      Mdx.generateFrontmatter numberToString industry (Mdx.opt_classification o) facts digital
      = frontmatterTop industry +:+ "description: "
        +:+ JS.orDefault (Naics.ind_description industry) "Service type" +:+ JS.nl +:+ post).
Proof.
  cbv zeta. split; [apply generate_has_description|].
  unfold Mdx.generateDescription, JS.orElse.
  split; [|split; [|split]].
  - intros d -> Hd. destruct d; [contradiction | reflexivity].
  - intros Hrec w d -> Hw Hd. rewrite Hrec. cbn. rewrite Hw.
    destruct d; [contradiction | reflexivity].
  - intros Hrec Hfacts. rewrite Hrec.
    destruct (w ← Mdx.opt_wikidata o; Wikidata.description w) as [[|c d]|];
      try reflexivity. discriminate.
  - intros digital. eexists. apply frontmatter_description_key.
Qed.

(** The output does not depend on the fields [generate] never reads: the
    industry's own [code] and the name and description of its sector. *)
Lemma generate_ignores_unread_fields industry classification wikidata digital examples
    code' name' description' :
  let sector := Naics.ind_sector industry in
  Mdx.generate numberToString num_0_7
    (Mdx.mkOptions
       (Naics.mkIndustry code' (Naics.ind_title industry) (Naics.ind_description industry)
          (Naics.mkSector (Naics.sector_code sector) name' description'))
       classification wikidata digital examples)
  = Mdx.generate numberToString num_0_7
      (Mdx.mkOptions industry classification wikidata digital examples).
Proof. destruct industry as [? ? ? []]. reflexivity. Qed.

Lemma generate_loose_loosen (o : @Mdx.ServiceMDXOptions Num) :
  Mdx.generate_loose numberToString num_0_7 (Mdx.loosen o)
  = JS.Returned (Mdx.generate numberToString num_0_7 o).
Proof. destruct o as [[] [] ? ? ?]. reflexivity. Qed.

(** C4, as the code has it. [generate] validates nothing and knows no
    InvalidRecord error. On every well-formed record it raises no error
    and returns the document. On a record without [title] it throws, and
    what it throws is the TypeError of the slug derivation; nothing is
    returned. On a record that has its [title] it returns a document even
    when [code] is missing. *)
Theorem generate_errors (lo : @Mdx.LooseOptions Num) :
  (forall o, lo = Mdx.loosen o ->
     Mdx.generate_loose numberToString num_0_7 lo
     = JS.Returned (Mdx.generate numberToString num_0_7 o))
  /\ (Mdx.missingTitle lo ->
      Mdx.generate_loose numberToString num_0_7 lo
      = JS.Thrown (JS.TypeError "Cannot read properties of undefined (reading 'replace')"))
  /\ (Mdx.l_title (Mdx.lo_industry lo) <> None ->
      exists doc, Mdx.generate_loose numberToString num_0_7 lo = JS.Returned doc).
Proof.
  split; [|split].
  - intros o ->. apply generate_loose_loosen.
  - intros [Ht _]. unfold Mdx.generate_loose. rewrite Ht. reflexivity.
  - intros Ht. unfold Mdx.generate_loose.
    destruct (Mdx.l_title (Mdx.lo_industry lo)) as [t|]; [|contradiction].
    eexists. reflexivity.
Qed.

(** The examples slot when [examples] is false, and when it is true or
    left out. *)
Lemma examplesSection_off (o : @Mdx.ServiceMDXOptions Num) :
  Mdx.opt_examples o = Some false -> Mdx.examplesSection o = EmptyString.
Proof. unfold Mdx.examplesSection. intros ->. reflexivity. Qed.

Lemma examplesSection_on (o : @Mdx.ServiceMDXOptions Num) :
  Mdx.opt_examples o <> Some false ->
  Mdx.examplesSection o = Mdx.generateExamplesSection (Mdx.opt_industry o).
Proof.
  unfold Mdx.examplesSection. destruct (Mdx.opt_examples o) as [[]|]; try reflexivity.
  intros H. contradiction H. reflexivity.
Qed.

Lemma generateExamplesSection_heading industry :
  String.prefix "## Examples" (Mdx.generateExamplesSection industry) = true.
Proof.
  unfold Mdx.generateExamplesSection. cbv zeta. rewrite joinLines_cons2.
  apply prefix_spec. eexists. reflexivity.
Qed.

(** *** A document rendered without examples has no examples heading *)

Lemma plainText_orDefault v d :
  plainOption v = true -> plainText d = true -> plainText (JS.orDefault v d) = true.
Proof. destruct v as [[|c s]|]; intros Hv Hd; [exact Hd | exact Hv | exact Hd]. Qed.

Ltac plain_leaf :=
  lazymatch goal with
  | |- plainText (Mdx.toKebabCase _) = true => apply plainText_toKebabCase
  | |- plainText (Mdx.getServiceType_of_sector _) = true => apply plainText_getServiceType
  | |- plainText (JS.popAfterSlash _) = true => apply plainText_popAfterSlash; assumption
  | |- plainText (JS.orDefault _ _) = true =>
      apply plainText_orDefault; [assumption | reflexivity]
  | |- _ => first [ assumption | vm_compute; reflexivity ]
  end.

Ltac plain_text :=
  rewrite ?plainText_app; repeat (apply andb_true_intro; split); plain_leaf.

Ltac calm_text :=
  repeat match goal with
         | |- calm (JS.joinLines _) => apply calm_joinLines
         | |- calm (_ +:+ _) => apply calm_app
         | |- Forall calm (_ :: _) => constructor
         | |- Forall calm [] => constructor
         | |- Forall calm (_ ++ _) => apply Forall_app; split
         end.

Ltac calm_leaf :=
  lazymatch goal with
  | |- calm (String _ _) => vm_compute; reflexivity
  | |- calm EmptyString => reflexivity
  | |- calm Mdx.generatePropertiesSection => vm_compute; reflexivity
  | |- calm _ => apply calm_plain; plain_leaf
  end.

Lemma plainOption_truthy v :
  plainOption v = true -> JS.truthy v = true -> plainText (JS.interpolate v) = true.
Proof. destruct v as [s|]; [intros H _; exact H | discriminate]. Qed.

Lemma calm_optionalLine key v :
  plainText key = true -> plainOption v = true -> Forall calm (Mdx.optionalLine key v).
Proof.
  intros Hk Hv. unfold Mdx.optionalLine. destruct (JS.truthy v) eqn:E; [|constructor].
  pose proof (plainOption_truthy v Hv E) as Hi.
  constructor; [|constructor]. apply calm_plain. plain_text.
Qed.

Lemma calm_frontmatterWikidataLines w :
  plainFacts w = true -> Forall calm (Mdx.frontmatterWikidataLines w).
Proof.
  destruct w as [w|]; [|constructor]. cbn [plainFacts Mdx.frontmatterWikidataLines].
  intros H. apply andb_true_iff in H as [H Hwp]. apply andb_true_iff in H as [H _].
  apply andb_true_iff in H as [Hq _].
  constructor; [apply calm_plain; plain_text|].
  destruct (JS.truthy (Wikidata.wikipedia w)) eqn:E; [|constructor].
  pose proof (plainOption_truthy _ Hwp E) as Hi.
  constructor; [|constructor]. apply calm_plain. plain_text.
Qed.

Lemma calm_classificationWikidataLines w :
  plainFacts w = true -> Forall calm (Mdx.classificationWikidataLines w).
Proof.
  destruct w as [w|]; [|constructor]. cbn [plainFacts Mdx.classificationWikidataLines].
  intros H. apply andb_true_iff in H as [H Hwp]. apply andb_true_iff in H as [H _].
  apply andb_true_iff in H as [Hq _].
  constructor; [apply calm_plain; plain_text|].
  destruct (JS.truthy (Wikidata.wikipedia w)) eqn:E; [|constructor].
  pose proof (plainOption_truthy _ Hwp E) as Hi. cbv zeta.
  constructor; [|constructor]. apply calm_plain. plain_text.
Qed.

Lemma calm_resourcesWikidataLines w :
  plainFacts w = true -> Forall calm (Mdx.resourcesWikidataLines w).
Proof.
  destruct w as [w|]; [|constructor]. cbn [plainFacts Mdx.resourcesWikidataLines].
  intros H. apply andb_true_iff in H as [H Hwp]. apply andb_true_iff in H as [H _].
  apply andb_true_iff in H as [Hq Hl].
  constructor; [apply calm_plain; plain_text|].
  destruct (JS.truthy (Wikidata.wikipedia w)) eqn:E; [|constructor].
  pose proof (plainOption_truthy _ Hwp E) as Hi. cbv zeta.
  constructor; [|constructor]. apply calm_plain. plain_text.
Qed.

Lemma plainText_generateDescription industry w :
  plainText (Naics.ind_title industry) = true ->
  plainOption (Naics.ind_description industry) = true ->
  plainFacts w = true ->
  plainText (Mdx.generateDescription industry w) = true.
Proof.
  intros Ht Hd Hw. unfold Mdx.generateDescription, JS.orElse.
  destruct (Naics.ind_description industry) as [[|c d]|]; cbn [JS.truthy].
  2: exact Hd.
  all: destruct w as [w|]; cbn; [|plain_text].
  all: cbn [plainFacts] in Hw; apply andb_true_iff in Hw as [Hw _];
    apply andb_true_iff in Hw as [_ Hwd].
  all: destruct (Wikidata.description w) as [[|c d]|]; cbn; try exact Hwd; plain_text.
Qed.

Lemma calm_document_without_examples (o : @Mdx.ServiceMDXOptions Num) :
  plainInput numberToString num_0_7 o = true -> calm (document numberToString num_0_7 o EmptyString).
Proof.
  unfold plainInput, plainClassification.
  intros H. repeat rewrite andb_true_iff in H.
  destruct H as ((((Htitle & Hdesc) & Hcls) & Hfacts) & Hnum).
  destruct Hcls as ((((((Hc1 & Hc2) & Hc3) & Hc4) & Hc5) & Hc6) & Hc7).
  assert (Hign :
    plainText (if JS.truthy (Naics.industryGroupName (Mdx.opt_classification o))
               then " > " +:+ JS.interpolate (Naics.industryGroupName (Mdx.opt_classification o))
               else "") = true).
  { destruct (JS.truthy (Naics.industryGroupName (Mdx.opt_classification o))) eqn:E;
      [|reflexivity].
    pose proof (plainOption_truthy _ Hc7 E). plain_text. }
  unfold document, documentHead, documentMiddle, documentTail, frontmatterOf.
  unfold Mdx.generateFrontmatter, Mdx.generateBreadcrumb, Mdx.generateClassificationSection,
    Mdx.generateResourcesSection, Mdx.naicsPath, Mdx.getServiceType.
  calm_text.
  all: lazymatch goal with
       | |- Forall calm (Mdx.optionalLine _ _) => apply calm_optionalLine; plain_leaf
       | |- Forall calm (Mdx.frontmatterWikidataLines _) =>
           apply calm_frontmatterWikidataLines; assumption
       | |- Forall calm (Mdx.classificationWikidataLines _) =>
           apply calm_classificationWikidataLines; assumption
       | |- Forall calm (Mdx.resourcesWikidataLines _) =>
           apply calm_resourcesWikidataLines; assumption
       | |- calm (Mdx.generateDescription _ _) =>
           apply calm_plain, plainText_generateDescription; assumption
       | |- calm (if _ then _ else _) => apply calm_plain; exact Hign
       | |- _ => calm_leaf
       end.
Qed.

Lemma joinLines_last a b (l : list string) :
  exists body,
    JS.joinLines (a :: b :: l) = body +:+ JS.nl +:+ List.last (a :: b :: l) EmptyString.
Proof.
  revert a b. induction l as [|c l IH]; intros a b.
  - exists a. reflexivity.
  - destruct (IH b c) as [body Hbody]. exists (a +:+ JS.nl +:+ body).
    rewrite joinLines_cons2, Hbody. cbn [List.last]. rewrite !append_assoc. reflexivity.
Qed.

Lemma hasLine_of_lines line lines : In line lines -> hasLine line (JS.joinLines lines).
Proof.
  intros Hin. apply in_split in Hin as (before & after & ->).
  exists before, after. reflexivity.
Qed.

(** C8, as the code has it. When [examples] is false the examples slot
    of the document is empty: the classification section is followed by
    four line feeds and then by the resources section, and the heading of
    the examples section occurs in the document only if a text field of
    the input itself holds a number sign. When [examples] is true or left
    out, the slot holds the whole examples section: it opens with the
    heading and the fence of a typescript block, closes with the closing
    fence, and has the import line, the two lines of the first [create]
    call, named after [toCamelCase] and [toPascalCase] of the title, and
    the [find] query as lines. *)
Theorem examples_section_follows_option (o : @Mdx.ServiceMDXOptions Num) :
  (Mdx.opt_examples o = Some false ->
     Mdx.generate numberToString num_0_7 o
     = documentHead numberToString num_0_7 o +:+ JS.nl +:+ JS.nl
       +:+ Mdx.generateDescription (Mdx.opt_industry o) (Mdx.opt_wikidata o)
       +:+ JS.nl +:+ JS.nl
       +:+ documentMiddle o +:+ JS.nl +:+ JS.nl +:+ JS.nl +:+ JS.nl
       +:+ documentTail o
     /\ (plainInput numberToString num_0_7 o = true ->
         JS.includes "## Examples" (Mdx.generate numberToString num_0_7 o) = false))
  /\ (Mdx.opt_examples o <> Some false ->
      let title := Naics.ind_title (Mdx.opt_industry o) in
      let section := Mdx.generateExamplesSection (Mdx.opt_industry o) in
      Mdx.generate numberToString num_0_7 o
      = documentHead numberToString num_0_7 o +:+ JS.nl +:+ JS.nl
        +:+ Mdx.generateDescription (Mdx.opt_industry o) (Mdx.opt_wikidata o)
        +:+ JS.nl +:+ JS.nl
        +:+ documentMiddle o +:+ JS.nl +:+ JS.nl
        +:+ section +:+ JS.nl +:+ JS.nl
        +:+ documentTail o
      /\ String.prefix ("## Examples" +:+ JS.nl +:+ JS.nl +:+ "```typescript" +:+ JS.nl)
           section = true
      /\ (exists body, section = body +:+ JS.nl +:+ "```")
      /\ hasLine "import { $ } from '@org.ai/services'" section
      /\ hasLine
           ("const " +:+ Mdx.toCamelCase title +:+ " = $." +:+ Mdx.toPascalCase title
              +:+ ".create({") section
      /\ hasLine ("  name: 'Example " +:+ title +:+ "',") section
      /\ hasLine ("const allServices = $." +:+ Mdx.toPascalCase title +:+ ".find()")
           section).
Proof.
  split.
  - intros Hoff. rewrite generate_layout, (examplesSection_off o Hoff).
    split; [reflexivity|].
    intros Hplain. apply calm_no_heading, calm_document_without_examples, Hplain.
  - intros Hon. cbv zeta.
    split; [rewrite generate_layout, (examplesSection_on o Hon); reflexivity|].
    unfold Mdx.generateExamplesSection. cbv zeta.
    split; [do 3 rewrite joinLines_cons2; apply prefix_spec; eexists;
            repeat rewrite append_assoc; reflexivity|].
    split; [apply joinLines_last|].
    split; [apply hasLine_of_lines; do 3 right; left; reflexivity|].
    split; [apply hasLine_of_lines; do 6 right; left; reflexivity|].
    split; [apply hasLine_of_lines; do 7 right; left; reflexivity|].
    apply hasLine_of_lines. do 35 right. left. reflexivity.
Qed.

End RendererProperties.

(** ** The renderer on the records of the specification's scenarios *)

Lemma schoolClassification_resolved :
  Naics.naicsParser_getClassification "611110" = Some schoolClassification.
Proof. vm_compute. reflexivity. Qed.

Lemma description_precedence_witness :
  Mdx.generateDescription schoolIndustry (Some schoolFacts)
  = "institution for the education of students by teachers"
  /\ Mdx.generateDescription schoolIndustry None
     = "Elementary and Secondary Schools service."
  /\ Mdx.generateDescription describedSchoolIndustry (Some schoolFacts)
     = "Providing academic courses and associated course work that comprise a basic preparatory education".
Proof.
  split; [|split].
  - destruct (description_precedence printed "0.7"
                (Mdx.mkOptions schoolIndustry schoolClassification (Some schoolFacts)
                   None None)) as (_ & _ & Hfacts & _).
    apply (Hfacts eq_refl schoolFacts); [reflexivity | reflexivity | discriminate].
  - destruct (description_precedence printed "0.7" scenarioOptions) as (_ & _ & _ & Hnone & _).
    apply Hnone; reflexivity.
  - destruct (description_precedence printed "0.7" overrideOptions) as (_ & Hrec & _).
    apply Hrec; [reflexivity | discriminate].
Defined.

(** C2, as stated, fails: the facts carry a non-empty description, and
    the description of the rendered document is the record's, not the
    facts'. *)
Lemma facts_description_does_not_override :
  JS.truthy (Wikidata.description schoolFacts) = true
  /\ Mdx.generateDescription (Mdx.opt_industry overrideOptions)
       (Mdx.opt_wikidata overrideOptions)
     <> JS.interpolate (Wikidata.description schoolFacts)
  /\ JS.includes (JS.interpolate (Wikidata.description schoolFacts))
       (Mdx.generate printed "0.7" overrideOptions) = false
  /\ JS.includes (JS.interpolate (Naics.ind_description describedSchoolIndustry))
       (Mdx.generate printed "0.7" overrideOptions) = true.
Proof.
  split; [reflexivity|]. split; [discriminate|]. split; vm_compute; reflexivity.
Qed.

Lemma generate_errors_witness :
  (exists doc, Mdx.generate_loose printed "0.7" (Mdx.loosen scenarioOptions) = JS.Returned doc)
  /\ (exists doc, Mdx.generate_loose printed "0.7" codelessOptions = JS.Returned doc).
Proof.
  split.
  - eexists.
    apply (proj1 (generate_errors printed "0.7" (Mdx.loosen scenarioOptions)) scenarioOptions).
    reflexivity.
  - apply (proj2 (proj2 (generate_errors printed "0.7" codelessOptions))). discriminate.
Defined.

(** C4, as stated, fails: the record has no [code], and [generate]
    signals no error at all; it returns a document in which the missing
    code is printed as the word undefined. *)
Lemma missing_code_is_rendered :
  Mdx.missingCode codelessOptions
  /\ (forall e, Mdx.generate_loose printed "0.7" codelessOptions <> JS.Thrown e)
  /\ exists doc,
       Mdx.generate_loose printed "0.7" codelessOptions = JS.Returned doc
       /\ JS.includes ("  code: " +:+ JS.dq +:+ "undefined" +:+ JS.dq) doc = true.
Proof.
  split; [split; reflexivity|]. split; [intros e; discriminate|].
  eexists. split; [reflexivity|]. vm_compute. reflexivity.
Qed.

Lemma examples_section_follows_option_witness :
  JS.includes "## Examples" (Mdx.generate printed "0.7" scenarioOptions) = false
  /\ JS.includes "Elementary and Secondary Schools service."
       (Mdx.generate printed "0.7" scenarioOptions) = true
  /\ hasLine
       "const elementaryAndSecondarySchools = $.ElementaryAndSecondarySchools.create({"
       (Mdx.generateExamplesSection describedSchoolIndustry).
Proof.
  split; [|split].
  - apply (proj1 (examples_section_follows_option printed "0.7" scenarioOptions));
      reflexivity.
  - vm_compute. reflexivity.
  - destruct (proj2 (examples_section_follows_option printed "0.7" overrideOptions))
      as (_ & _ & _ & _ & Hcreate & _); [discriminate|].
    exact Hcreate.
Defined.

(** C8, as stated, fails on a record whose own text holds the heading:
    with [examples] false and the description ## Examples, the document
    has that text as a paragraph of its own, between blank lines. *)
Lemma examples_heading_is_echoed :
  Mdx.opt_examples echoOptions = Some false
  /\ JS.includes (JS.nl +:+ JS.nl +:+ "## Examples" +:+ JS.nl +:+ JS.nl)
       (Mdx.generate printed "0.7" echoOptions) = true
  /\ JS.includes "## Examples" (Mdx.generate printed "0.7" echoOptions) = true.
Proof. split; [reflexivity|]. split; vm_compute; reflexivity. Qed.

(** ** Maps in insertion order *)

Section JSMapLemmas.
Context {K V : Type} `{EqDecision K}.
Implicit Types (k : K) (v : V) (m : list (K * V)).

Lemma get_set_eq k v m : JSMap.get k (JSMap.set k v m) = Some v.
Proof.
  induction m as [|[k' v'] m IH]; simpl.
  - destruct (decide (k = k)); [reflexivity | contradiction].
  - destruct (decide (k = k')) as [->|Hne]; simpl.
    + destruct (decide (k' = k')); [reflexivity | contradiction].
    + destruct (decide (k = k')); [contradiction | exact IH].
Qed.

Lemma get_set_ne k k' v m : k <> k' -> JSMap.get k (JSMap.set k' v m) = JSMap.get k m.
Proof.
  intros Hne. induction m as [|[k0 v0] m IH]; simpl.
  - destruct (decide (k = k')); [contradiction | reflexivity].
  - destruct (decide (k' = k0)) as [->|Hne0]; simpl.
    + destruct (decide (k = k0)); [contradiction | reflexivity].
    + destruct (decide (k = k0)); [reflexivity | exact IH].
Qed.

Lemma set_set k v v' m : JSMap.set k v (JSMap.set k v' m) = JSMap.set k v m.
Proof.
  induction m as [|[k0 v0] m IH]; simpl.
  - destruct (decide (k = k)); [reflexivity | contradiction].
  - destruct (decide (k = k0)) as [->|Hne]; simpl.
    + destruct (decide (k0 = k0)); [reflexivity | contradiction].
    + destruct (decide (k = k0)); [contradiction | rewrite IH; reflexivity].
Qed.

Lemma has_get k m : JSMap.has k m = false -> JSMap.get k m = None.
Proof. unfold JSMap.has. destruct (JSMap.get k m); [discriminate | reflexivity]. Qed.

Lemma get_In k v m : JSMap.get k m = Some v -> In (k, v) m.
Proof.
  induction m as [|[k0 v0] m IH]; simpl; [discriminate|].
  destruct (decide (k = k0)) as [->|Hne].
  - intros [= ->]. left. reflexivity.
  - intros H'. right. apply IH, H'.
Qed.

Lemma set_nonempty k v m : JSMap.set k v m <> [].
Proof.
  destruct m as [|[k0 v0] m]; simpl; [discriminate|].
  destruct (decide (k = k0)); discriminate.
Qed.

Lemma Forall_set (P : K * V -> Prop) k v m :
  P (k, v) -> Forall P m -> Forall P (JSMap.set k v m).
Proof.
  intros Hkv. induction 1 as [|[k0 v0] m H0 Hm IH]; simpl.
  - constructor; [exact Hkv | constructor].
  - destruct (decide (k = k0)); constructor; assumption.
Qed.

(** A key that is set afresh and then set again is set once. *)
Lemma set_after_ensure k v v0 m :
  JSMap.set k v (if JSMap.has k m then m else JSMap.set k v0 m) = JSMap.set k v m.
Proof. destruct (JSMap.has k m); [reflexivity | apply set_set]. Qed.

Lemma get_after_ensure k v0 m :
  default v0 (JSMap.get k (if JSMap.has k m then m else JSMap.set k v0 m))
  = default v0 (JSMap.get k m).
Proof.
  destruct (JSMap.has k m) eqn:E; [reflexivity|].
  rewrite get_set_eq, (has_get _ _ E). reflexivity.
Qed.
End JSMapLemmas.

(** ** The nested planner *)

(** What one turn of the grouping loop comes to: the service is appended
    to the list found under its own category and subcategory keys. *)
Lemma Fumadocs_groupService_eq (m : Fumadocs.CategoryMap) (s : Fumadocs.Service) :
  Fumadocs.groupService m s
  = let sub := default [] (JSMap.get (Fumadocs.category s) m) in
    let l := default [] (JSMap.get (Fumadocs.subcategory s) sub) in
    JSMap.set (Fumadocs.category s)
      (JSMap.set (Fumadocs.subcategory s) (l ++ [s]) sub) m.
Proof.
  unfold Fumadocs.groupService, Fumadocs.CategoryMap, Fumadocs.SubcategoryMap in *.
  cbv zeta.
  rewrite set_after_ensure, !get_after_ensure, set_after_ensure. reflexivity.
Qed.

Lemma groupService_files_new m s : filed s (Fumadocs.groupService m s).
Proof.
  rewrite Fumadocs_groupService_eq. cbv zeta. unfold filed.
  eexists. eexists. split; [apply get_set_eq|]. split; [apply get_set_eq|].
  apply in_or_app. right. left. reflexivity.
Qed.

Lemma groupService_keeps_filed m s x : filed s m -> filed s (Fumadocs.groupService m x).
Proof.
  intros (sub & l & Hsub & Hl & Hin).
  rewrite Fumadocs_groupService_eq. cbv zeta. unfold filed.
  destruct (decide (Fumadocs.category s = Fumadocs.category x)) as [Ec|Nc].
  - rewrite Ec in *. rewrite Hsub. cbn [from_option id].
    destruct (decide (Fumadocs.subcategory s = Fumadocs.subcategory x)) as [Es|Ns].
    + rewrite Es in *. rewrite Hl. cbn [from_option id].
      eexists. eexists. split; [apply get_set_eq|]. split; [apply get_set_eq|].
      apply in_or_app. left. exact Hin.
    + eexists. eexists. split; [apply get_set_eq|].
      split; [rewrite get_set_ne by exact Ns; exact Hl | exact Hin].
  - exists sub, l. split; [rewrite get_set_ne by exact Nc; exact Hsub|].
    split; assumption.
Qed.

Lemma groupServices_files_from m services s :
  filed s m \/ In s services -> filed s (fold_left Fumadocs.groupService services m).
Proof.
  revert m. induction services as [|x services IH]; intros m [Hm|Hin]; simpl.
  - exact Hm.
  - contradiction.
  - apply IH. left. apply groupService_keeps_filed, Hm.
  - destruct Hin as [->|Hin].
    + apply IH. left. apply groupService_files_new.
    + apply IH. right. exact Hin.
Qed.

(** Every record of the batch is filed under its own keys. *)
Lemma groupServices_files services s :
  In s services -> filed s (Fumadocs.groupServices services).
Proof. intros Hin. apply groupServices_files_from. right. exact Hin. Qed.

(** Every category key of the map is the category of a record. *)
Lemma groupServices_keys_from (known : list Fumadocs.Service) m services :
  Forall (fun e => exists s, In s known /\ Fumadocs.category s = e.1) m ->
  Forall (fun e => exists s, In s (known ++ services) /\ Fumadocs.category s = e.1)
    (fold_left Fumadocs.groupService services m).
Proof.
  revert known m. induction services as [|x services IH]; intros known m Hm; simpl.
  - rewrite app_nil_r. exact Hm.
  - replace (known ++ x :: services) with ((known ++ [x]) ++ services)
      by (rewrite <- app_assoc; reflexivity).
    apply IH. rewrite Fumadocs_groupService_eq. cbv zeta.
    apply Forall_set.
    + exists x. split; [apply in_or_app; right; left; reflexivity | reflexivity].
    + eapply Forall_impl; [exact Hm|]. intros e (s & Hs & He).
      exists s. split; [apply in_or_app; left; exact Hs | exact He].
Qed.

Lemma groupServices_keys services k :
  In k (JSMap.keys (Fumadocs.groupServices services)) ->
  exists s, In s services /\ Fumadocs.category s = k.
Proof.
  unfold JSMap.keys. intros (e & <- & He)%in_map_iff.
  pose proof (groupServices_keys_from [] [] services (Forall_nil_2 _)) as Hall.
  rewrite Forall_forall in Hall. apply (Hall e). apply list_elem_of_In. exact He.
Qed.

Lemma groupService_renderable m s :
  hasMetadata s -> Forall renderableCat m ->
  Forall renderableCat (Fumadocs.groupService m s).
Proof.
  intros [Hc Hs] Hm. rewrite Fumadocs_groupService_eq. cbv zeta.
  apply Forall_set; [|exact Hm]. unfold renderableCat. cbn [fst snd].
  split; [exact Hc|]. split; [apply set_nonempty|].
  apply Forall_set.
  - split; [exact Hs|]. cbn [snd]. intros E. apply app_eq_nil in E as [_ E]. discriminate.
  - destruct (JSMap.get (Fumadocs.category s) m) as [sub|] eqn:E; [|constructor].
    apply get_In in E. rewrite Forall_forall in Hm.
    apply list_elem_of_In in E. apply Hm in E. apply E.
Qed.

Lemma groupServices_renderable services :
  Forall hasMetadata services -> Forall renderableCat (Fumadocs.groupServices services).
Proof.
  unfold Fumadocs.groupServices. generalize (Forall_nil_2 renderableCat).
  generalize (@nil (option string * Fumadocs.SubcategoryMap)).
  induction services as [|x services IH]; intros m Hm Hall; simpl; [exact Hm|].
  apply Forall_cons in Hall as [Hx Hall].
  apply IH; [apply groupService_renderable; assumption | exact Hall].
Qed.

Lemma leafDocuments_split leaves others generated thrown :
  Forall (fun f => Emit.isLeaf f = true) leaves ->
  Forall notLeaf others ->
  Emit.leafDocuments (Emit.mkRun (leaves ++ others) generated thrown) = leaves.
Proof.
  unfold Emit.leafDocuments. cbn [Emit.written]. intros Hl Ho.
  rewrite List.filter_app.
  replace (List.filter Emit.isLeaf others) with (@nil Emit.File).
  - rewrite app_nil_r. induction Hl as [|f l Hf _ IH]; [reflexivity|].
    simpl. rewrite Hf, IH. reflexivity.
  - induction Ho as [|f l Hf _ IH]; [reflexivity|].
    simpl. rewrite Hf. exact IH.
Qed.

Section NestedPlannerProperties.
Variable generateServiceMDX : Fumadocs.Service -> string.
Variable writeFileSync : Emit.File -> option JS.Error.

Lemma writeLeaves_are_leaves services :
  Forall (fun f => Emit.isLeaf f = true)
    (Fumadocs.writeLeaves generateServiceMDX writeFileSync services).
Proof.
  induction services as [|s services IH]; [constructor|].
  cbn [Fumadocs.writeLeaves].
  destruct (writeFileSync (Fumadocs.leafFile generateServiceMDX s));
    [exact IH | constructor; [reflexivity | exact IH]].
Qed.

(** The leaf loop writes the documents of the records whose write does
    not throw, in the order of the batch. *)
Lemma writeLeaves_taken services :
  Fumadocs.writeLeaves generateServiceMDX writeFileSync services
  = map (Fumadocs.leafFile generateServiceMDX)
      (List.filter
         (fun s => Emit.taken writeFileSync (Fumadocs.leafFile generateServiceMDX s))
         services).
Proof.
  induction services as [|s services IH]; [reflexivity|].
  cbn [Fumadocs.writeLeaves List.filter]. unfold Emit.taken at 1.
  destruct (writeFileSync (Fumadocs.leafFile generateServiceMDX s));
    [exact IH | cbn [map]; rewrite IH; reflexivity].
Qed.

Lemma writeLeaves_all services :
  Forall (fun s => writeFileSync (Fumadocs.leafFile generateServiceMDX s) = None) services ->
  Fumadocs.writeLeaves generateServiceMDX writeFileSync services
  = map (Fumadocs.leafFile generateServiceMDX) services.
Proof.
  induction 1 as [|s services Hs _ IH]; [reflexivity|].
  cbn [Fumadocs.writeLeaves map]. rewrite Hs, IH. reflexivity.
Qed.

Lemma writeSubcategoryIndexes_notLeaf categoryKey entries :
  Forall notLeaf (Fumadocs.writeSubcategoryIndexes writeFileSync categoryKey entries).1.
Proof.
  induction entries as [|[k services] entries IH]; simpl; [constructor|].
  destruct (Fumadocs.generateSubcategoryIndex categoryKey k services); [|constructor].
  destruct (writeFileSync _); [constructor|].
  destruct (Fumadocs.writeSubcategoryIndexes writeFileSync categoryKey entries) as [fs e].
  constructor; [reflexivity | exact IH].
Qed.

Lemma writeCategoryIndexes_notLeaf entries :
  Forall notLeaf (Fumadocs.writeCategoryIndexes writeFileSync entries).1.
Proof.
  induction entries as [|[k sub] entries IH]; simpl; [constructor|].
  destruct (Fumadocs.generateCategoryIndex k (concat (JSMap.values sub))); [|constructor].
  destruct (writeFileSync _); [constructor|].
  pose proof (writeSubcategoryIndexes_notLeaf k sub) as Hsub.
  destruct (Fumadocs.writeSubcategoryIndexes writeFileSync k sub) as [fs [e|]].
  - constructor; [reflexivity | exact Hsub].
  - destruct (Fumadocs.writeCategoryIndexes writeFileSync entries) as [fs' e'].
    constructor; [reflexivity|]. apply Forall_app. split; [exact Hsub | exact IH].
Qed.

(** The leaf documents of a run of the nested planner are those its leaf
    loop has written, whatever the metadata of the records, and the
    counter counts them. *)
Lemma generateSamples_leaf_count services :
  Emit.leafDocuments (Fumadocs.generateSamples generateServiceMDX writeFileSync services)
  = Fumadocs.writeLeaves generateServiceMDX writeFileSync services
  /\ Emit.generated (Fumadocs.generateSamples generateServiceMDX writeFileSync services)
     = length (Fumadocs.writeLeaves generateServiceMDX writeFileSync services).
Proof.
  unfold Fumadocs.generateSamples. cbv zeta.
  pose proof (writeCategoryIndexes_notLeaf (Fumadocs.groupServices services)) as Hidx.
  destruct (Fumadocs.writeCategoryIndexes writeFileSync (Fumadocs.groupServices services))
    as [indexes e].
  split; [|reflexivity].
  apply leafDocuments_split; [apply writeLeaves_are_leaves | exact Hidx].
Qed.

Hypothesis every_write_succeeds : forall f, writeFileSync f = None.

Lemma writeSubcategoryIndexes_returns categoryKey entries :
  categoryKey <> None -> Forall renderableSub entries ->
  (Fumadocs.writeSubcategoryIndexes writeFileSync categoryKey entries).2 = None.
Proof.
  intros Hc. induction 1 as [|[k services] entries [Hk Hs] _ IH]; [reflexivity|].
  cbn [fst snd] in Hk, Hs. simpl.
  destruct categoryKey as [c|]; [|contradiction].
  destruct k as [k|]; [|contradiction].
  destruct services as [|s0 services]; [contradiction|].
  cbn [Fumadocs.generateSubcategoryIndex Fumadocs.displayName Fumadocs.first mbind
       JS.completion_bind].
  rewrite every_write_succeeds.
  destruct (Fumadocs.writeSubcategoryIndexes writeFileSync (Some c) entries) as [fs e].
  exact IH.
Qed.

Lemma writeCategoryIndexes_returns entries :
  Forall renderableCat entries ->
  (Fumadocs.writeCategoryIndexes writeFileSync entries).2 = None.
Proof.
  induction 1 as [|[k sub] entries (Hk & Hsub & Hall) _ IH]; [reflexivity|].
  cbn [fst snd] in Hk, Hsub, Hall. simpl.
  pose proof (writeSubcategoryIndexes_returns k sub Hk Hall) as Hret.
  destruct k as [k|]; [|contradiction].
  destruct sub as [|[sk l] sub]; [contradiction|].
  apply Forall_cons in Hall as [[_ Hl] _]. cbn [snd] in Hl.
  destruct l as [|s0 l]; [contradiction|].
  cbn [JSMap.values map snd concat app].
  cbn [Fumadocs.generateCategoryIndex Fumadocs.displayName Fumadocs.first mbind
       JS.completion_bind].
  rewrite every_write_succeeds.
  destruct (Fumadocs.writeSubcategoryIndexes writeFileSync (Some k) ((sk, s0 :: l) :: sub))
    as [fs e].
  cbn [snd] in Hret. subst e.
  destruct (Fumadocs.writeCategoryIndexes writeFileSync entries) as [fs' e']. exact IH.
Qed.

(** On a batch whose records all carry their metadata, and on a file
    system that takes every file, the nested planner ends without an
    error. *)
Lemma generateSamples_returns services :
  Forall hasMetadata services ->
  Emit.thrown (Fumadocs.generateSamples generateServiceMDX writeFileSync services) = None.
Proof.
  intros Hall. unfold Fumadocs.generateSamples. cbv zeta.
  pose proof (writeCategoryIndexes_returns _ (groupServices_renderable services Hall)) as Hret.
  destruct (Fumadocs.writeCategoryIndexes writeFileSync (Fumadocs.groupServices services))
    as [indexes e].
  exact Hret.
Qed.

End NestedPlannerProperties.

(** ** The flat planner *)

Lemma Flat_groupService_returns maps s :
  hasFlatMetadata s -> exists maps', Flat.groupService maps s = JS.Returned maps'.
Proof.
  intros [Hc Hs]. unfold Flat.groupService. destruct maps as [cm sm].
  destruct (Flat.category s) as [c|]; [|contradiction].
  destruct (Flat.subcategory s) as [sub|]; [|contradiction].
  eexists. reflexivity.
Qed.

Lemma Flat_groupService_throws maps s :
  ~ hasFlatMetadata s ->
  Flat.groupService maps s
  = JS.Thrown (JS.TypeError "Cannot read properties of undefined (reading 'name')").
Proof.
  unfold hasFlatMetadata, Flat.groupService. intros Hno. destruct maps as [cm sm].
  destruct (Flat.category s) as [c|]; [|reflexivity].
  destruct (Flat.subcategory s) as [sub|]; [|reflexivity].
  contradiction Hno. split; discriminate.
Qed.

Lemma Flat_groupServices_returns services maps :
  Forall hasFlatMetadata services ->
  exists maps', Flat.groupServices maps services = JS.Returned maps'.
Proof.
  intros Hall. revert maps. induction Hall as [|s services Hs _ IH]; intros maps.
  - eexists. reflexivity.
  - destruct (Flat_groupService_returns maps s Hs) as [maps1 H1].
    destruct (IH maps1) as [maps' H']. exists maps'.
    cbn [Flat.groupServices]. rewrite H1. exact H'.
Qed.

Lemma hasFlatMetadata_dec s : {hasFlatMetadata s} + {~ hasFlatMetadata s}.
Proof.
  unfold hasFlatMetadata.
  destruct (Flat.category s), (Flat.subcategory s);
    first [ left; split; discriminate | right; intros [H1 H2]; congruence ].
Qed.

Lemma Flat_groupServices_throws services maps :
  Exists (fun s => ~ hasFlatMetadata s) services ->
  Flat.groupServices maps services
  = JS.Thrown (JS.TypeError "Cannot read properties of undefined (reading 'name')").
Proof.
  revert maps. induction services as [|s services IH]; intros maps Hex.
  - apply Exists_nil in Hex. contradiction.
  - cbn [Flat.groupServices].
    destruct (hasFlatMetadata_dec s) as [Hs|Hs].
    + destruct (Flat_groupService_returns maps s Hs) as [maps1 ->].
      apply IH. apply Exists_cons in Hex as [Hex|Hex]; [contradiction | exact Hex].
    + rewrite (Flat_groupService_throws maps s Hs). reflexivity.
Qed.

Section FlatPlannerProperties.
Variable generateServiceMDX : Flat.Service -> string.
Variable generateCategoryMDX : Flat.Category -> list Flat.Service -> JS.Completion string.
Variable generateSubcategoryMDX :
  Flat.Category -> Flat.Category -> list Flat.Service -> JS.Completion string.
Variable writeFileSync : Emit.File -> option JS.Error.

Lemma categoryFiles_notLeaf categoryMap :
  Forall notLeaf (Flat.categoryFiles generateCategoryMDX writeFileSync categoryMap).
Proof.
  unfold Flat.categoryFiles.
  induction categoryMap as [|[k d] m IH]; [constructor|].
  cbn [flat_map]. apply Forall_app. split; [|exact IH].
  destruct (generateCategoryMDX _ _); [|constructor].
  cbv zeta. destruct (Emit.taken _ _); constructor; [reflexivity | constructor].
Qed.

Lemma subcategoryFiles_notLeaf subcategoryMap :
  Forall notLeaf (Flat.subcategoryFiles generateSubcategoryMDX writeFileSync subcategoryMap).
Proof.
  unfold Flat.subcategoryFiles.
  induction subcategoryMap as [|[k d] m IH]; [constructor|].
  cbn [flat_map]. apply Forall_app. split; [|exact IH].
  destruct (generateSubcategoryMDX _ _ _); [|constructor].
  cbv zeta. destruct (Emit.taken _ _); constructor; [reflexivity | constructor].
Qed.

Lemma flat_writeLeaves_are_leaves services :
  Forall (fun f => Emit.isLeaf f = true)
    (Flat.writeLeaves generateServiceMDX writeFileSync services).
Proof.
  induction services as [|s services IH]; [constructor|].
  cbn [Flat.writeLeaves].
  destruct (writeFileSync (Flat.leafFile generateServiceMDX s));
    [exact IH | constructor; [reflexivity | exact IH]].
Qed.

Lemma flat_writeLeaves_taken services :
  Flat.writeLeaves generateServiceMDX writeFileSync services
  = map (Flat.leafFile generateServiceMDX)
      (List.filter
         (fun s => Emit.taken writeFileSync (Flat.leafFile generateServiceMDX s)) services).
Proof.
  induction services as [|s services IH]; [reflexivity|].
  cbn [Flat.writeLeaves List.filter]. unfold Emit.taken at 1.
  destruct (writeFileSync (Flat.leafFile generateServiceMDX s));
    [exact IH | cbn [map]; rewrite IH; reflexivity].
Qed.

Lemma flat_writeLeaves_all services :
  Forall (fun s => writeFileSync (Flat.leafFile generateServiceMDX s) = None) services ->
  Flat.writeLeaves generateServiceMDX writeFileSync services
  = map (Flat.leafFile generateServiceMDX) services.
Proof.
  induction 1 as [|s services Hs _ IH]; [reflexivity|].
  cbn [Flat.writeLeaves map]. rewrite Hs, IH. reflexivity.
Qed.

(** On a batch whose records all carry their metadata the flat planner
    ends without an error, whatever the file system does; its leaf
    documents are those its leaf loop has written, and the counter
    counts them. *)
Lemma generateServices_complete services :
  Forall hasFlatMetadata services ->
  let run :=
    Flat.generateServices generateServiceMDX generateCategoryMDX generateSubcategoryMDX
      writeFileSync services in
  Emit.thrown run = None
  /\ Emit.leafDocuments run = Flat.writeLeaves generateServiceMDX writeFileSync services
  /\ Emit.generated run
     = length (Flat.writeLeaves generateServiceMDX writeFileSync services).
Proof.
  intros Hall. cbv zeta. unfold Flat.generateServices.
  destruct (Flat_groupServices_returns services ([], []) Hall) as [[cm sm] ->].
  cbv zeta. split; [reflexivity|]. split; [|reflexivity].
  apply leafDocuments_split; [apply flat_writeLeaves_are_leaves|].
  apply Forall_app. split; [apply categoryFiles_notLeaf | apply subcategoryFiles_notLeaf].
Qed.

(** X23. A record without its category or subcategory, anywhere in the
    batch, ends the flat planner in its grouping loop, which has no
    [try]: the run ends in a TypeError, no file is written and nothing is
    counted, not even for the records before it. *)
Lemma generateServices_aborts services :
  Exists (fun s => ~ hasFlatMetadata s) services ->
  Flat.generateServices generateServiceMDX generateCategoryMDX generateSubcategoryMDX
    writeFileSync services
  = Emit.mkRun [] 0
      (Some (JS.TypeError "Cannot read properties of undefined (reading 'name')")).
Proof.
  intros Hex. unfold Flat.generateServices.
  rewrite (Flat_groupServices_throws services ([], []) Hex). reflexivity.
Qed.

End FlatPlannerProperties.

(** ** One leaf document per record *)

(** C5, as the code has it. Neither planner has an Uncategorized group.
    On every batch and every file system, the leaf documents of the
    nested planner are the documents of the records whose write does not
    throw, one per such record and in the order of the batch, and the
    counter counts them; a record whose write throws is skipped. So when
    the write of every leaf succeeds there is exactly one leaf document
    per record. The nested planner files each record under its own
    category and subcategory keys, and has no category key that is not
    the category of a record. On a batch whose records all carry category
    and subcategory, the nested planner ends without an error when every
    write succeeds, and the flat planner ends without an error whatever
    the file system does; the leaf documents of the flat planner are then
    again those of the records whose write does not throw, exactly one
    per record when the write of every leaf succeeds. *)
Theorem one_leaf_per_record
    (writeFileSync : Emit.File -> option JS.Error)
    (nestedLeaf : Fumadocs.Service -> string) (nestedBatch : list Fumadocs.Service)
    (flatLeaf : Flat.Service -> string)
    (flatCategory : Flat.Category -> list Flat.Service -> JS.Completion string)
    (flatSubcategory :
       Flat.Category -> Flat.Category -> list Flat.Service -> JS.Completion string)
    (flatBatch : list Flat.Service) :
  let nested := Fumadocs.generateSamples nestedLeaf writeFileSync nestedBatch in
  let flat :=
    Flat.generateServices flatLeaf flatCategory flatSubcategory writeFileSync flatBatch in
  (Emit.leafDocuments nested
   = map (Fumadocs.leafFile nestedLeaf)
       (List.filter (fun s => Emit.taken writeFileSync (Fumadocs.leafFile nestedLeaf s))
          nestedBatch)
   /\ Emit.generated nested = length (Emit.leafDocuments nested)
   /\ (Forall (fun s => writeFileSync (Fumadocs.leafFile nestedLeaf s) = None) nestedBatch ->
       Emit.leafDocuments nested = map (Fumadocs.leafFile nestedLeaf) nestedBatch
       /\ length (Emit.leafDocuments nested) = length nestedBatch)
   /\ (forall s, In s nestedBatch -> filed s (Fumadocs.groupServices nestedBatch))
   /\ (forall k, In k (JSMap.keys (Fumadocs.groupServices nestedBatch)) ->
       exists s, In s nestedBatch /\ Fumadocs.category s = k)
   /\ (Forall hasMetadata nestedBatch -> (forall f, writeFileSync f = None) ->
       Emit.thrown nested = None))
  /\ (Forall hasFlatMetadata flatBatch ->
      Emit.thrown flat = None
      /\ Emit.leafDocuments flat
         = map (Flat.leafFile flatLeaf)
             (List.filter (fun s => Emit.taken writeFileSync (Flat.leafFile flatLeaf s))
                flatBatch)
      /\ Emit.generated flat = length (Emit.leafDocuments flat)
      /\ (Forall (fun s => writeFileSync (Flat.leafFile flatLeaf s) = None) flatBatch ->
          Emit.leafDocuments flat = map (Flat.leafFile flatLeaf) flatBatch
          /\ length (Emit.leafDocuments flat) = length flatBatch)).
Proof.
  cbv zeta.
  destruct (generateSamples_leaf_count nestedLeaf writeFileSync nestedBatch) as [Hleaves Hgen].
  split; [split; [|split; [|split; [|split; [|split]]]]|].
  - rewrite Hleaves. apply writeLeaves_taken.
  - rewrite Hgen, Hleaves. reflexivity.
  - intros Hall. rewrite Hleaves, (writeLeaves_all _ _ _ Hall).
    split; [reflexivity | apply length_map].
  - intros s. apply groupServices_files.
  - intros k. apply groupServices_keys.
  - intros Hall Hwrites. apply generateSamples_returns; assumption.
  - intros Hall.
    destruct (generateServices_complete flatLeaf flatCategory flatSubcategory writeFileSync
                flatBatch Hall) as (Hret & Hflat & Hcount).
    split; [exact Hret|]. split; [rewrite Hflat; apply flat_writeLeaves_taken|].
    split; [rewrite Hcount, Hflat; reflexivity|].
    intros Hwrites. rewrite Hflat, (flat_writeLeaves_all _ _ _ Hwrites).
    split; [reflexivity | apply length_map].
Qed.

Lemma one_leaf_per_record_witness :
  Emit.thrown
    (Fumadocs.generateSamples nestedHeading takesAll
       [nestedProgramming; nestedRestaurant (Some "Hospitality-Services")]) = None
  /\ length (Emit.leafDocuments
               (Fumadocs.generateSamples nestedHeading takesAll
                  [nestedProgramming; nestedRestaurant (Some "Hospitality-Services")])) = 2
  /\ length (Emit.leafDocuments
               (Flat.generateServices flatHeading categoryHeading subcategoryHeading takesAll
                  [flatProgramming; flatRestaurant (Some hospitality)])) = 2.
Proof.
  destruct (one_leaf_per_record takesAll nestedHeading
              [nestedProgramming; nestedRestaurant (Some "Hospitality-Services")]
              flatHeading categoryHeading subcategoryHeading
              [flatProgramming; flatRestaurant (Some hospitality)])
    as [(_ & _ & Hone & _ & _ & Hnested) Hflat].
  split; [|split].
  - apply Hnested; [repeat constructor; discriminate | reflexivity].
  - apply Hone. repeat constructor.
  - destruct Hflat as (_ & _ & _ & Hall); [repeat constructor; discriminate|].
    apply Hall. repeat constructor.
Defined.

(** C5, as stated, fails on a batch of one record that has no category.
    The nested planner files it under the key [undefined], has no group
    Uncategorized, and ends in a TypeError when it renders the index of
    that group. The flat planner throws while grouping: the record is
    dropped, no leaf document is written. It fails too, in both
    planners, on a batch of one record with its metadata whose write
    throws, here because its name has a slash: the record is skipped
    without an error, and there is no leaf document for it. *)
Lemma missing_category_is_not_uncategorized :
  Fumadocs.category (nestedRestaurant None) = None
  /\ JSMap.keys (Fumadocs.groupServices [nestedRestaurant None]) = [None]
  /\ ~ In (Some "Uncategorized")
         (JSMap.keys (Fumadocs.groupServices [nestedRestaurant None]))
  /\ Emit.thrown (Fumadocs.generateSamples nestedHeading takesAll [nestedRestaurant None])
     = Some (JS.TypeError "Cannot read properties of undefined (reading 'replace')")
  /\ Flat.category (flatRestaurant None) = None
  /\ Emit.leafDocuments
       (Flat.generateServices flatHeading categoryHeading subcategoryHeading takesAll
          [flatRestaurant None]) = []
  /\ length (Emit.leafDocuments
               (Flat.generateServices flatHeading categoryHeading subcategoryHeading takesAll
                  [flatRestaurant None]))
     <> length [flatRestaurant None]
  /\ Emit.thrown
       (Flat.generateServices flatHeading categoryHeading subcategoryHeading takesAll
          [flatRestaurant None])
     = Some (JS.TypeError "Cannot read properties of undefined (reading 'name')")
  /\ refusesSlash (Fumadocs.leafFile nestedHeading nestedSlashed) = Some noSuchDirectory
  /\ Emit.leafDocuments (Fumadocs.generateSamples nestedHeading refusesSlash [nestedSlashed])
     = []
  /\ Emit.generated (Fumadocs.generateSamples nestedHeading refusesSlash [nestedSlashed]) = 0
  /\ Emit.thrown (Fumadocs.generateSamples nestedHeading refusesSlash [nestedSlashed]) = None
  /\ Flat.generateServices flatHeading categoryHeading subcategoryHeading refusesSlash
       [flatSlashed]
     = Emit.mkRun
         [Emit.mkFile Emit.CategoryIndex ["ProfessionalServices.mdx"]
            "# Professional Services";
          Emit.mkFile Emit.SubcategoryIndex ["ComputerServices.mdx"] "# Computer Services"]
         0 None.
Proof.
  split; [reflexivity|]. split; [reflexivity|].
  split; [intros [H|[]]; discriminate|].
  split; [reflexivity|]. split; [reflexivity|]. split; [reflexivity|].
  split; [discriminate|]. split; [reflexivity|].
  split; [reflexivity|]. split; [reflexivity|]. split; [reflexivity|].
  split; reflexivity.
Qed.

(** The planners do not compare the paths they write to: a record that
    occurs twice in a batch is written twice to one path. *)
Lemma repeated_record_shares_its_path :
  map Emit.path
    (Emit.leafDocuments
       (Fumadocs.generateSamples nestedHeading takesAll
          [nestedRestaurant (Some "Hospitality-Services");
           nestedRestaurant (Some "Hospitality-Services")]))
  = [["(Hospitality-Services)"; "(Restaurants)"; "Full-Service-Restaurants.mdx"];
     ["(Hospitality-Services)"; "(Restaurants)"; "Full-Service-Restaurants.mdx"]].
Proof. reflexivity. Qed.

(** * Further properties of the code *)

(** ** Case mapping *)

Lemma lowerChar_upperChar c :
  isAsciiUnit c = true -> JS.lowerChar (JS.upperChar c) = JS.lowerChar c.
Proof. all_chars c. Qed.

Lemma lowerChar_lowerChar c :
  isAsciiUnit c = true -> JS.lowerChar (JS.lowerChar c) = JS.lowerChar c.
Proof. all_chars c. Qed.

Lemma toLowerCase_toUpperCase s :
  asciiText s -> JS.toLowerCase (JS.toUpperCase s) = JS.toLowerCase s.
Proof.
  unfold asciiText, JS.toLowerCase, JS.toUpperCase.
  induction s as [|c s IH]; [reflexivity|]. simpl.
  intros [Hc Hs]%andb_true_iff. rewrite (lowerChar_upperChar c Hc), (IH Hs). reflexivity.
Qed.

Lemma toLowerCase_idempotent s :
  asciiText s -> JS.toLowerCase (JS.toLowerCase s) = JS.toLowerCase s.
Proof.
  unfold asciiText, JS.toLowerCase.
  induction s as [|c s IH]; [reflexivity|]. simpl.
  intros [Hc Hs]%andb_true_iff. rewrite (lowerChar_lowerChar c Hc), (IH Hs). reflexivity.
Qed.

Lemma includes_refl s : JS.includes s s = true.
Proof. apply includes_spec. exists EmptyString, EmptyString. rewrite append_nil_r. reflexivity. Qed.

Lemma includes_empty s : JS.includes EmptyString s = true.
Proof. apply includes_spec. exists EmptyString, s. reflexivity. Qed.

Lemma includes_trans a b c :
  JS.includes a b = true -> JS.includes b c = true -> JS.includes a c = true.
Proof.
  rewrite !includes_spec. intros (p & q & ->) (p' & q' & ->).
  exists (p' +:+ p), (q +:+ q'). rewrite !append_assoc. reflexivity.
Qed.

(** ** The queries of the classification registry *)

(** X1. [searchIndustries] does not look at the case of a keyword made of
    ASCII characters: the keyword, its upper-casing and its lower-casing
    find the same industries. *)
Theorem searchIndustries_keyword_case (industries : list Naics.NAICSIndustry) (keyword : string) :
  asciiText keyword ->
  NaicsQueries.searchIndustries industries (JS.toUpperCase keyword)
  = NaicsQueries.searchIndustries industries keyword
  /\ NaicsQueries.searchIndustries industries (JS.toLowerCase keyword)
     = NaicsQueries.searchIndustries industries keyword.
Proof.
  intros Hk. unfold NaicsQueries.searchIndustries. cbv zeta.
  rewrite (toLowerCase_toUpperCase _ Hk), (toLowerCase_idempotent _ Hk). split; reflexivity.
Qed.

Lemma searchIndustries_keyword_case_witness :
  NaicsQueries.searchIndustries NaicsQueries.NAICS_VALUES "COMPUTER"
  = NaicsQueries.searchIndustries NaicsQueries.NAICS_VALUES "Computer"
  /\ NaicsQueries.searchIndustries NaicsQueries.NAICS_VALUES "computer"
     = NaicsQueries.searchIndustries NaicsQueries.NAICS_VALUES "Computer".
Proof.
  apply (searchIndustries_keyword_case NaicsQueries.NAICS_VALUES "Computer"). reflexivity.
Defined.

Lemma matchesKeyword_refine k k' industry :
  JS.includes k' k = true ->
  NaicsQueries.matchesKeyword k industry = true ->
  NaicsQueries.matchesKeyword k' industry = true.
Proof.
  intros Hk. unfold NaicsQueries.matchesKeyword. rewrite !orb_true_iff.
  intros [Ht|Hd].
  - left. eapply includes_trans; eassumption.
  - right. destruct (Naics.ind_description industry) as [[|c d]|]; try discriminate.
    eapply includes_trans; eassumption.
Qed.

(** X2. A keyword that contains another one, case aside, narrows the
    search: every industry found for the longer keyword is found for the
    shorter one. The empty keyword finds every industry of the table. *)
Theorem searchIndustries_narrows (industries : list Naics.NAICSIndustry)
    (keyword shorter : string) :
  JS.includes (JS.toLowerCase shorter) (JS.toLowerCase keyword) = true ->
  (forall industry,
     In industry (NaicsQueries.searchIndustries industries keyword) ->
     In industry (NaicsQueries.searchIndustries industries shorter))
  /\ NaicsQueries.searchIndustries industries EmptyString = industries.
Proof.
  intros Hk. unfold NaicsQueries.searchIndustries. cbv zeta. split.
  - intros industry [Hin Hm]%List.filter_In. apply List.filter_In.
    split; [exact Hin|]. eapply matchesKeyword_refine; eassumption.
  - induction industries as [|i l IH]; [reflexivity|].
    cbn [List.filter]. unfold NaicsQueries.matchesKeyword at 1.
    rewrite includes_empty. cbn [orb]. f_equal. exact IH.
Qed.

Lemma searchIndustries_narrows_witness :
  In (Naics.mkIndustry "541512" "Computer Systems Design Services"
        (Some "Planning and designing computer systems that integrate computer hardware, software, and communication technologies")
        Naics.sector54)
     (NaicsQueries.searchIndustries NaicsQueries.NAICS_VALUES "COMPUTER").
Proof.
  apply (proj1 (searchIndustries_narrows NaicsQueries.NAICS_VALUES "Computer Systems" "COMPUTER"
                  eq_refl)).
  vm_compute. tauto.
Defined.

Section JSMapOrder.
Context {K V : Type} `{EqDecision K}.
Implicit Types (k : K) (v : V) (m : list (K * V)).

Lemma has_true_In k m : JSMap.has k m = true <-> In k (JSMap.keys m).
Proof.
  unfold JSMap.has, JSMap.keys. induction m as [|[k0 v0] m IH]; simpl.
  - split; [discriminate | contradiction].
  - destruct (decide (k = k0)) as [->|Hne].
    + split; [intros _; left; reflexivity | reflexivity].
    + rewrite IH. split; [intros Hin; right; exact Hin|].
      intros [Heq|Hin]; [congruence | exact Hin].
Qed.

Lemma has_false_notIn k m : JSMap.has k m = false <-> ~ In k (JSMap.keys m).
Proof.
  rewrite <- has_true_In. destruct (JSMap.has k m); split; congruence.
Qed.

(** Setting a key the map does not have puts it last. *)
Lemma set_fresh k v m : JSMap.has k m = false -> JSMap.set k v m = m ++ [(k, v)].
Proof.
  unfold JSMap.has. induction m as [|[k0 v0] m IH]; simpl; [reflexivity|].
  destruct (decide (k = k0)); [discriminate|]. intros Hm. rewrite (IH Hm). reflexivity.
Qed.


Lemma keys_set_fresh k v m : JSMap.has k m = false -> JSMap.keys (JSMap.set k v m) = JSMap.keys m ++ [k].
Proof. intros Hm. rewrite (set_fresh _ _ _ Hm). unfold JSMap.keys. apply map_app. Qed.

Lemma NoDup_snoc (l : list K) k : NoDup l -> ~ In k l -> NoDup (l ++ [k]).
Proof.
  induction 1 as [|x l Hx Hl IH]; intros Hk.
  - constructor; [intros Hin; apply elem_of_nil in Hin; exact Hin | constructor].
  - simpl. constructor.
    + rewrite list_elem_of_In. intros Hin. apply in_app_or in Hin as [Hin|[->|[]]].
      * apply Hx. apply list_elem_of_In. exact Hin.
      * apply Hk. left. reflexivity.
    + apply IH. intros Hin. apply Hk. right. exact Hin.
Qed.
End JSMapOrder.

Lemma addSector_invariant sectors industry :
  NoDup (JSMap.keys sectors) ->
  Forall (fun e => e.1 = Naics.sector_code e.2) sectors ->
  NoDup (JSMap.keys (NaicsQueries.addSector sectors industry))
  /\ Forall (fun e => e.1 = Naics.sector_code e.2) (NaicsQueries.addSector sectors industry).
Proof.
  intros Hnd Hall. unfold NaicsQueries.addSector. cbv zeta.
  destruct (JSMap.has _ sectors) eqn:E; [split; assumption|].
  split.
  - rewrite keys_set_fresh by exact E. apply NoDup_snoc; [exact Hnd|].
    apply has_false_notIn, E.
  - apply Forall_set; [reflexivity | exact Hall].
Qed.

Lemma addSector_keeps sectors industry e :
  In e sectors -> In e (NaicsQueries.addSector sectors industry).
Proof.
  intros Hin. unfold NaicsQueries.addSector. cbv zeta.
  destruct (JSMap.has _ sectors) eqn:E; [exact Hin|].
  rewrite set_fresh by exact E. apply in_or_app. left. exact Hin.
Qed.

Lemma addSector_has sectors industry :
  In (Naics.sector_code (Naics.ind_sector industry))
     (JSMap.keys (NaicsQueries.addSector sectors industry)).
Proof.
  unfold NaicsQueries.addSector. cbv zeta.
  destruct (JSMap.has _ sectors) eqn:E; [apply has_true_In, E|].
  rewrite keys_set_fresh by exact E. apply in_or_app. right. left. reflexivity.
Qed.

Lemma addSector_origin sectors industry e :
  In e (NaicsQueries.addSector sectors industry) ->
  In e sectors \/ e.2 = Naics.ind_sector industry.
Proof.
  unfold NaicsQueries.addSector. cbv zeta.
  destruct (JSMap.has _ sectors) eqn:E; [intros Hin; left; exact Hin|].
  rewrite set_fresh by exact E. intros Hin. apply in_app_or in Hin as [Hin|[<-|[]]].
  - left. exact Hin.
  - right. reflexivity.
Qed.

Lemma fold_addSector_invariant industries sectors :
  NoDup (JSMap.keys sectors) ->
  Forall (fun e => e.1 = Naics.sector_code e.2) sectors ->
  let result := fold_left NaicsQueries.addSector industries sectors in
  NoDup (JSMap.keys result)
  /\ Forall (fun e => e.1 = Naics.sector_code e.2) result
  /\ (forall e, In e sectors -> In e result)
  /\ (forall i, In i industries ->
      In (Naics.sector_code (Naics.ind_sector i)) (JSMap.keys result))
  /\ (forall e, In e result ->
      In e sectors \/ exists i, In i industries /\ Naics.ind_sector i = e.2).
Proof.
  revert sectors. induction industries as [|x industries IH]; intros sectors Hnd Hall; cbn.
  - repeat split; try assumption; tauto.
  - destruct (addSector_invariant sectors x Hnd Hall) as [Hnd' Hall'].
    destruct (IH _ Hnd' Hall') as (H1 & H2 & H3 & H4 & H5).
    repeat split; try assumption.
    + intros e He. apply H3, addSector_keeps, He.
    + intros i [<-|Hi]; [|apply H4, Hi].
      pose proof (addSector_has sectors x) as Hk.
      unfold JSMap.keys in *. apply in_map_iff in Hk as (e & He & Hin).
      apply in_map_iff. exists e. split; [exact He | apply H3, Hin].
    + intros e He. apply H5 in He as [He|(i & Hi & Hs)].
      * apply addSector_origin in He as [He|He]; [left; exact He|].
        right. exists x. split; [left; reflexivity | symmetry; exact He].
      * right. exists i. split; [right; exact Hi | exact Hs].
Qed.

(** X3. [getAllSectors] lists every sector of the table once: the codes
    of the sectors it returns are pairwise distinct, the sector code of
    every industry is among them, and every sector returned is the sector
    of an industry of the table. *)
Theorem getAllSectors_distinct_and_complete (industries : list Naics.NAICSIndustry) :
  NoDup (map Naics.sector_code (NaicsQueries.getAllSectors industries))
  /\ (forall industry, In industry industries ->
      In (Naics.sector_code (Naics.ind_sector industry))
         (map Naics.sector_code (NaicsQueries.getAllSectors industries)))
  /\ (forall sector, In sector (NaicsQueries.getAllSectors industries) ->
      exists industry, In industry industries /\ Naics.ind_sector industry = sector).
Proof.
  unfold NaicsQueries.getAllSectors.
  destruct (fold_addSector_invariant industries [] NoDup_nil_2 (Forall_nil_2 _))
    as (Hnd & Hall & _ & Hcover & Horigin).
  cbv zeta in *.
  set (result := fold_left NaicsQueries.addSector industries []) in *.
  assert (Hkeys : map Naics.sector_code (JSMap.values result) = JSMap.keys result).
  { unfold JSMap.values, JSMap.keys. rewrite map_map.
    clear -Hall. induction Hall as [|e l He _ IH]; [reflexivity|].
    cbn. rewrite <- He, IH. reflexivity. }
  rewrite Hkeys. split; [exact Hnd|]. split; [exact Hcover|].
  intros sector Hin. unfold JSMap.values in Hin.
  apply in_map_iff in Hin as (e & <- & He).
  destruct (Horigin e He) as [[]|Hex]. exact Hex.
Qed.

(** A sector among [serviceSectors], and the two filters together. *)
Lemma getIndustriesBySector_cons industry industries sc :
  NaicsQueries.getIndustriesBySector (industry :: industries) sc
  = (if String.eqb (Naics.sector_code (Naics.ind_sector industry)) sc
     then [industry] else [])
    ++ NaicsQueries.getIndustriesBySector industries sc.
Proof.
  unfold NaicsQueries.getIndustriesBySector. cbn [List.filter].
  destruct (String.eqb _ sc); reflexivity.
Qed.

(** X4. Selecting a sector among the service-providing industries:
    for a sector of the service list it gives the industries of that
    sector, as on the whole table; for any other sector it gives
    nothing. *)
Theorem sector_of_service_industries (industries : list Naics.NAICSIndustry) (sc : string) :
  (NaicsQueries.arrayIncludes NaicsQueries.serviceSectors sc = true ->
   NaicsQueries.getIndustriesBySector (NaicsQueries.getServiceIndustries industries) sc
   = NaicsQueries.getIndustriesBySector industries sc)
  /\ (NaicsQueries.arrayIncludes NaicsQueries.serviceSectors sc = false ->
      NaicsQueries.getIndustriesBySector (NaicsQueries.getServiceIndustries industries) sc
      = []).
Proof.
  split; intros Hsc; induction industries as [|i l IH]; try reflexivity.
  - unfold NaicsQueries.getServiceIndustries in *. cbn [List.filter].
    destruct (NaicsQueries.arrayIncludes _ (Naics.sector_code (Naics.ind_sector i))) eqn:E.
    + rewrite !getIndustriesBySector_cons, IH. reflexivity.
    + rewrite getIndustriesBySector_cons, IH.
      destruct (String.eqb_spec (Naics.sector_code (Naics.ind_sector i)) sc) as [Heq|_];
        [congruence | reflexivity].
  - unfold NaicsQueries.getServiceIndustries in *. cbn [List.filter].
    destruct (NaicsQueries.arrayIncludes _ (Naics.sector_code (Naics.ind_sector i))) eqn:E;
      [|exact IH].
    rewrite getIndustriesBySector_cons, IH.
    destruct (String.eqb_spec (Naics.sector_code (Naics.ind_sector i)) sc) as [Heq|_];
      [congruence | reflexivity].
Qed.

Lemma sector_of_service_industries_witness :
  length (NaicsQueries.getIndustriesBySector
            (NaicsQueries.getServiceIndustries NaicsQueries.NAICS_VALUES) "54") = 5
  /\ NaicsQueries.getIndustriesBySector
       (NaicsQueries.getServiceIndustries NaicsQueries.NAICS_VALUES) "11" = [].
Proof.
  destruct (sector_of_service_industries NaicsQueries.NAICS_VALUES "54") as [H54 _].
  destruct (sector_of_service_industries NaicsQueries.NAICS_VALUES "11") as [_ H11].
  split.
  - rewrite H54; reflexivity.
  - apply H11. reflexivity.
Defined.

Lemma substring_0_nonempty n s :
  0 < n -> 0 < String.length s -> String.substring 0 n s <> EmptyString.
Proof.
  destruct n as [|n]; [lia|]. destruct s as [|c s]; [simpl; lia|]. discriminate.
Qed.

(** X5. The name of the industry group is a plain lookup that may miss:
    the classification of a code names its industry group exactly when
    the code has at least 4 characters and its first 4 characters are a
    key of the table of group names, and the name is then the table's. *)
Theorem industryGroupName_is_a_lookup
    (data : gmap string Naics.NAICSIndustry) (c : string) (r : Naics.NAICSClassification) :
  Naics.getClassification data c = Some r ->
  forall name,
    Naics.industryGroupName r = Some name
    <-> 4 <= String.length c
        /\ Naics.industryGroupNames !! String.substring 0 4 c = Some name.
Proof.
  unfold Naics.getClassification. destruct (Naics.getIndustry data c); [|discriminate].
  destruct (4 <=? String.length c) eqn:E; intros Hr name;
    apply (f_equal (fun o => n ← o; Naics.industryGroupName n)) in Hr;
    cbn [mbind option_bind Naics.industryGroupName] in Hr; rewrite <- Hr.
  - apply Nat.leb_le in E. unfold Naics.getIndustryGroupName.
    pose proof (substring_0_nonempty 4 c ltac:(lia) ltac:(lia)) as Hne.
    destruct (String.substring 0 4 c) as [|a t]; [contradiction|].
    split; [intros H; split; [exact E | exact H] | intros [_ H]; exact H].
  - apply Nat.leb_gt in E. cbn. split; [discriminate | intros [H _]; lia].
Qed.

Lemma industryGroupName_is_a_lookup_witness :
  Naics.industryGroupName schoolClassification = Some "Elementary and Secondary Schools".
Proof.
  apply (industryGroupName_is_a_lookup Naics.NAICS_DATA "611110" schoolClassification
           schoolClassification_resolved).
  split; [simpl; lia | vm_compute; reflexivity].
Defined.

(** ** Slugs and names of the generator *)

Lemma sfilter_all p s : JS.sforall p s = true -> JS.sfilter p s = s.
Proof.
  induction s as [|c s IH]; [reflexivity|]. simpl.
  intros [Hc Hs]%andb_true_iff. rewrite Hc, (IH Hs). reflexivity.
Qed.

Lemma replaceRuns_none cls rep b s :
  JS.sforall (fun c => negb (cls c)) s = true -> JS.replaceRuns_from cls rep b s = s.
Proof.
  revert b. induction s as [|c s IH]; intros b; [reflexivity|]. simpl.
  intros [Hc Hs]%andb_true_iff. apply negb_true_iff in Hc. rewrite Hc, (IH _ Hs). reflexivity.
Qed.

Lemma hyphenateLowerUpper_none s :
  JS.sforall notUpper s = true -> JS.hyphenateLowerUpper s = s.
Proof.
  induction s as [|a r IH]; [reflexivity|].
  destruct r as [|b t]; [reflexivity|].
  intros H. simpl in H. apply andb_true_iff in H as [Ha Hr].
  assert (Hb : JS.isUpper b = false).
  { simpl in Hr. apply andb_true_iff in Hr as [Hb _]. apply negb_true_iff in Hb. exact Hb. }
  change (JS.hyphenateLowerUpper (String a (String b t)))
    with (if JS.isLower a && JS.isUpper b
          then String a (String JS.hyphen (String b (JS.hyphenateLowerUpper t)))
          else String a (JS.hyphenateLowerUpper (String b t))).
  rewrite Hb, andb_false_r, (IH Hr). reflexivity.
Qed.

Lemma toKebabCase_of_slug t : JS.sforall slugChar t = true -> Mdx.toKebabCase t = t.
Proof.
  intros Ht. unfold Mdx.toKebabCase, JS.replaceRuns, JS.removeAll.
  rewrite hyphenateLowerUpper_none.
  2: { revert Ht. apply sforall_weaken. intros c. all_chars c. }
  rewrite replaceRuns_none.
  2: { revert Ht. apply sforall_weaken. intros c. all_chars c. }
  rewrite sfilter_all.
  2: { revert Ht. apply sforall_weaken. intros c. all_chars c. }
  apply toLowerCase_fixed. revert Ht. apply sforall_weaken. intros c. all_chars c.
Qed.

(** X6. [toKebabCase] is idempotent, and its result is made of lower-case
    letters, digits and hyphens: a slug is its own slug. *)
Theorem toKebabCase_idempotent (str : string) :
  JS.sforall slugChar (Mdx.toKebabCase str) = true
  /\ Mdx.toKebabCase (Mdx.toKebabCase str) = Mdx.toKebabCase str.
Proof.
  assert (H : JS.sforall slugChar (Mdx.toKebabCase str) = true)
    by apply toKebabCase_alphabet.
  split; [exact H | apply toKebabCase_of_slug, H].
Qed.

Lemma endsWith_cons p c s :
  s <> EmptyString -> endsWith p (String c s) = endsWith p s.
Proof. destruct s; [contradiction | reflexivity]. Qed.

Lemma closedByAlnum_tail c s : closedByAlnum (String c s) -> closedByAlnum s.
Proof.
  intros [H|H]; [discriminate|]. destruct s as [|c' s']; [left; reflexivity|].
  right. exact H.
Qed.

(** In a text that ends in a letter or a digit, a run of separators is
    always followed by one: the match succeeds, captures it, and leaves
    a shorter text of the same kind. *)
Lemma sepRun_closed s :
  endsWith JS.isAlnum s = true ->
  exists d rest,
    JS.sepRun s = Some (d, rest) /\ JS.isAlnum d = true
    /\ closedByAlnum rest /\ String.length rest < String.length s.
Proof.
  induction s as [|c s IH]; [discriminate|]. intros Hs. simpl.
  destruct (JS.isAlnum c) eqn:Ec.
  - exists c, s. split; [reflexivity|]. split; [exact Ec|].
    split; [|simpl; lia]. apply (closedByAlnum_tail c). right. exact Hs.
  - destruct s as [|c' s'].
    + simpl in Hs. congruence.
    + destruct (IH Hs) as (d & rest & Hrun & Hd & Hrest & Hlen).
      exists d, rest. rewrite Hrun. split; [reflexivity|]. split; [exact Hd|].
      split; [exact Hrest | simpl in *; lia].
Qed.

Lemma capitalizeAfterSep_steps_alnum n s :
  String.length s <= n -> closedByAlnum s ->
  JS.sforall JS.isAlnum (JS.capitalizeAfterSep_steps n s) = true.
Proof.
  revert s. induction n as [|n IH]; intros s Hlen Hs.
  - destruct s; [reflexivity | simpl in Hlen; lia].
  - destruct s as [|c t]; [reflexivity|].
    cbn [JS.capitalizeAfterSep_steps JS.matchSep].
    destruct (JS.isAlnum c) eqn:Ec.
    + cbn [JS.sforall]. rewrite Ec. apply IH; [simpl in Hlen; lia|].
      apply (closedByAlnum_tail c), Hs.
    + destruct Hs as [Hs|Hs]; [discriminate|].
      destruct t as [|c' t']; [simpl in Hs; congruence|].
      destruct (sepRun_closed (String c' t') Hs) as (d & rest & Hrun & Hd & Hrest & Hl).
      rewrite Hrun. cbn [JS.sforall].
      replace (JS.isAlnum (JS.upperChar d)) with true by (revert Hd; all_chars d).
      apply IH; [simpl in *; lia | exact Hrest].
Qed.

Lemma upperLeadingLower_alnum s :
  JS.sforall JS.isAlnum s = true -> JS.sforall JS.isAlnum (JS.upperLeadingLower s) = true.
Proof.
  destruct s as [|c t]; [reflexivity|]. simpl.
  intros [Hc Ht]%andb_true_iff. destruct (JS.isLower c) eqn:E; simpl.
  - rewrite Ht, andb_true_r. revert E. all_chars c.
  - rewrite Hc, Ht. reflexivity.
Qed.

Lemma lowerLeadingUpper_alnum s :
  JS.sforall JS.isAlnum s = true -> JS.sforall JS.isAlnum (JS.lowerLeadingUpper s) = true.
Proof.
  destruct s as [|c t]; [reflexivity|]. simpl.
  intros [Hc Ht]%andb_true_iff. destruct (JS.isUpper c) eqn:E; simpl.
  - rewrite Ht, andb_true_r. revert E. all_chars c.
  - rewrite Hc, Ht. reflexivity.
Qed.

(** X7. On a title that ends in a letter or a digit, [toPascalCase] and
    [toCamelCase] return letters and digits only, so the file name of
    [generateFilename] is such a name followed by the extension. *)
Theorem names_are_alphanumeric (title : string) :
  endsWith JS.isAlnum title = true ->
  JS.sforall JS.isAlnum (Mdx.toPascalCase title) = true
  /\ JS.sforall JS.isAlnum (Mdx.toCamelCase title) = true
  /\ exists name,
       Mdx.generateFilename title = name +:+ ".mdx" /\ JS.sforall JS.isAlnum name = true.
Proof.
  intros Ht.
  assert (H : JS.sforall JS.isAlnum (JS.capitalizeAfterSep title) = true).
  { apply capitalizeAfterSep_steps_alnum; [lia | right; exact Ht]. }
  assert (Hp : JS.sforall JS.isAlnum (Mdx.toPascalCase title) = true)
    by apply upperLeadingLower_alnum, H.
  split; [exact Hp|]. split; [apply lowerLeadingUpper_alnum, H|].
  exists (Mdx.toPascalCase title). split; [reflexivity | exact Hp].
Qed.

Lemma names_are_alphanumeric_witness :
  JS.sforall JS.isAlnum
    (Mdx.toPascalCase "Offices of Certified Public Accountants") = true.
Proof.
  refine (proj1 (names_are_alphanumeric "Offices of Certified Public Accountants" _)).
  vm_compute. reflexivity.
Defined.

(** X8. Whatever the title, [toPascalCase] does not begin with a
    lower-case letter and [toCamelCase] does not begin with an upper-case
    letter. *)
Theorem names_leading_case (title : string) :
  startsWithOrEmpty notLower (Mdx.toPascalCase title) = true
  /\ startsWithOrEmpty notUpper (Mdx.toCamelCase title) = true.
Proof.
  unfold Mdx.toPascalCase, Mdx.toCamelCase.
  destruct (JS.capitalizeAfterSep title) as [|c t]; [split; reflexivity|].
  unfold JS.upperLeadingLower, JS.lowerLeadingUpper, notLower, notUpper.
  split.
  - destruct (JS.isLower c) eqn:E; cbn [startsWithOrEmpty].
    + revert E. all_chars c.
    + rewrite E. reflexivity.
  - destruct (JS.isUpper c) eqn:E; cbn [startsWithOrEmpty].
    + revert E. all_chars c.
    + rewrite E. reflexivity.
Qed.

(** ** What a rendered document always holds *)

Lemma includes_app_l x a b : JS.includes x a = true -> JS.includes x (a +:+ b) = true.
Proof.
  rewrite !includes_spec. intros (p & q & ->). exists p, (q +:+ b).
  rewrite !append_assoc. reflexivity.
Qed.

Lemma includes_app_r x a b : JS.includes x b = true -> JS.includes x (a +:+ b) = true.
Proof.
  rewrite !includes_spec. intros (p & q & ->). exists (a +:+ p), q.
  rewrite !append_assoc. reflexivity.
Qed.

Lemma includes_joinLines x line lines :
  In line lines -> JS.includes x line = true -> JS.includes x (JS.joinLines lines) = true.
Proof.
  intros Hin Hx. induction lines as [|a l IH]; [contradiction|].
  destruct l as [|b l].
  - destruct Hin as [->|[]]. exact Hx.
  - rewrite joinLines_cons2. destruct Hin as [->|Hin].
    + apply includes_app_l, Hx.
    + apply includes_app_r, includes_app_r, IH, Hin.
Qed.

Lemma includes_line line lines :
  In line lines -> JS.includes line (JS.joinLines lines) = true.
Proof. intros Hin. eapply includes_joinLines; [exact Hin | apply includes_refl]. Qed.

Section DocumentContents.
Context {Num : Type}.
Variable numberToString : Num -> string.
Variable num_0_7 : Num.

(** X9. Every rendered document opens with the delimiter of the metadata
    block and the [$id] line, whose slug is made of lower-case letters,
    digits and hyphens, and it ends without white space: no line feed is
    left after the last resource link. *)
Theorem generate_frame (o : @Mdx.ServiceMDXOptions Num) :
  (exists rest,
     Mdx.generate numberToString num_0_7 o
     = "---" +:+ JS.nl +:+ "$id: https://services.org.ai/"
       +:+ Mdx.toKebabCase (Naics.ind_title (Mdx.opt_industry o)) +:+ JS.nl +:+ rest)
  /\ JS.sforall slugChar (Mdx.toKebabCase (Naics.ind_title (Mdx.opt_industry o))) = true
  /\ endsNonSpace (Mdx.generate numberToString num_0_7 o) = true.
Proof.
  rewrite generate_layout. split; [|split].
  - unfold document, documentHead, frontmatterOf.
    rewrite frontmatter_description_key. unfold frontmatterTop.
    eexists. repeat rewrite append_assoc. reflexivity.
  - apply toKebabCase_alphabet.
  - unfold document, documentTail.
    do 12 apply endsNonSpace_app_r. apply generateResourcesSection_ends.
Qed.

Lemma includes_resources x (o : @Mdx.ServiceMDXOptions Num) :
  JS.includes x
    (Mdx.generateResourcesSection (Mdx.opt_wikidata o) (Some (Mdx.opt_classification o)))
  = true ->
  JS.includes x (Mdx.generate numberToString num_0_7 o) = true.
Proof.
  intros Hx. rewrite generate_layout. unfold document, documentTail.
  do 12 apply includes_app_r. exact Hx.
Qed.

(** X10. Every rendered document holds the fixed Schema.org link and the
    census link for the code of its classification; without facts, that
    census link is the end of the document. *)
Theorem resources_fixed_links (o : @Mdx.ServiceMDXOptions Num) :
  let code := Naics.code (Mdx.opt_classification o) in
  let census :=
    "- [NAICS " +:+ code +:+ "](https://www.census.gov/naics/?input=" +:+ code +:+ ")" in
  JS.includes "- [Schema.org Service](https://schema.org/Service)"
    (Mdx.generate numberToString num_0_7 o) = true
  /\ JS.includes census (Mdx.generate numberToString num_0_7 o) = true
  /\ (Mdx.opt_wikidata o = None ->
      exists before,
        Mdx.generate numberToString num_0_7 o = before +:+ JS.nl +:+ census).
Proof.
  cbv zeta. split; [|split].
  - apply includes_resources. unfold Mdx.generateResourcesSection.
    apply includes_line. apply in_or_app. left. right. right. left. reflexivity.
  - apply includes_resources. unfold Mdx.generateResourcesSection.
    apply includes_line. apply in_or_app. right. apply in_or_app. left. left. reflexivity.
  - intros Hw. rewrite generate_layout. unfold document, documentTail.
    unfold Mdx.generateResourcesSection. rewrite Hw.
    cbn [Mdx.resourcesWikidataLines app]. do 3 rewrite joinLines_cons2.
    exists (documentHead numberToString num_0_7 o +:+ JS.nl +:+ JS.nl
            +:+ Mdx.generateDescription (Mdx.opt_industry o) None +:+ JS.nl +:+ JS.nl
            +:+ documentMiddle o +:+ JS.nl +:+ JS.nl
            +:+ Mdx.examplesSection o +:+ JS.nl +:+ JS.nl
            +:+ "## Resources" +:+ JS.nl +:+ "" +:+ JS.nl
            +:+ "- [Schema.org Service](https://schema.org/Service)").
    repeat rewrite append_assoc. reflexivity.
Qed.


End DocumentContents.

Lemma resources_fixed_links_witness :
  exists before,
    Mdx.generate printed "0.7" scenarioOptions
    = before +:+ JS.nl +:+ "- [NAICS 611110](https://www.census.gov/naics/?input=611110)".
Proof.
  apply (proj2 (proj2 (resources_fixed_links printed "0.7" scenarioOptions))). reflexivity.
Defined.


(** ** Entity identifiers *)

Lemma isQ_eq c : Wikidata.isQ c = true -> c = "Q"%char.
Proof. all_chars c. Qed.

Lemma eqb_empty_false t : t <> EmptyString -> String.eqb t EmptyString = false.
Proof. destruct t; [contradiction | reflexivity]. Qed.

Lemma sforall_isDigit_Q p digits : JS.sforall JS.isDigit (p +:+ "Q" +:+ digits) = false.
Proof.
  rewrite sforall_app. apply andb_false_iff. right. reflexivity.
Qed.

Lemma matchQID_suffix prefix digits :
  digits <> EmptyString -> JS.sforall JS.isDigit digits = true ->
  Wikidata.matchQID (prefix +:+ "Q" +:+ digits) = Some ("Q" +:+ digits).
Proof.
  intros Hne Hd. induction prefix as [|c p IH].
  - change (Wikidata.matchQID (String "Q"%char digits) = Some (String "Q"%char digits)).
    cbn [Wikidata.matchQID]. rewrite (eqb_empty_false _ Hne), Hd. reflexivity.
  - rewrite append_cons. cbn [Wikidata.matchQID].
    rewrite sforall_isDigit_Q, andb_false_r. exact IH.
Qed.

(** X12. [extractQID] recovers the identifier an entity address ends in:
    whatever precedes it, a Q followed by one or more digits at the end
    of the address is returned as it stands. *)
Theorem extractQID_of_entity_address (prefix digits : string) :
  digits <> EmptyString -> JS.sforall JS.isDigit digits = true ->
  Wikidata.extractQID (Some (prefix +:+ "Q" +:+ digits)) = JS.Returned ("Q" +:+ digits).
Proof.
  intros Hne Hd. unfold Wikidata.extractQID.
  rewrite (matchQID_suffix prefix digits Hne Hd). reflexivity.
Qed.

Lemma extractQID_of_entity_address_witness :
  Wikidata.extractQID (Some "http://www.wikidata.org/entity/Q21198342")
  = JS.Returned "Q21198342".
Proof.
  apply (extractQID_of_entity_address "http://www.wikidata.org/entity/" "21198342");
    [discriminate | reflexivity].
Defined.

Lemma matchQID_shape uri q :
  Wikidata.matchQID uri = Some q ->
  wellFormedQID q /\ exists before, uri = before +:+ q.
Proof.
  induction uri as [|c t IH]; [discriminate|]. cbn [Wikidata.matchQID].
  destruct (Wikidata.isQ c && negb (String.eqb t EmptyString) && JS.sforall JS.isDigit t)
    eqn:E.
  - intros [= <-]. apply andb_true_iff in E as [E Hd]. apply andb_true_iff in E as [Hq Hne].
    apply isQ_eq in Hq. subst c. split.
    + exists t. split; [reflexivity|]. split; [|exact Hd].
      intros ->. discriminate.
    + exists EmptyString. reflexivity.
  - intros Hq. destruct (IH Hq) as [Hw [before ->]]. split; [exact Hw|].
    exists (String c before). reflexivity.
Qed.

(** [extractQID] does not throw on a string, and returns the empty string
    or a well-formed identifier that the address ends in. *)
Lemma extractQID_returns (uri : string) :
  exists q,
    Wikidata.extractQID (Some uri) = JS.Returned q
    /\ (q = EmptyString \/ (wellFormedQID q /\ exists before, uri = before +:+ q)).
Proof.
  unfold Wikidata.extractQID.
  destruct (Wikidata.matchQID uri) as [q|] eqn:E.
  - exists q. split; [reflexivity|]. right. apply matchQID_shape, E.
  - exists EmptyString. split; [reflexivity | left; reflexivity].
Qed.

(** X13. On every address [extractQID] returns, without throwing, either
    the empty string or a well-formed identifier that the address ends
    in; extracting from its own result changes nothing. *)
Theorem extractQID_result (uri : string) :
  exists q,
    Wikidata.extractQID (Some uri) = JS.Returned q
    /\ (q = EmptyString \/ (wellFormedQID q /\ exists before, uri = before +:+ q))
    /\ Wikidata.extractQID (Some q) = JS.Returned q.
Proof.
  destruct (extractQID_returns uri) as (q & Hq & Hshape).
  exists q. split; [exact Hq|]. split; [exact Hshape|].
  destruct Hshape as [->|[(digits & -> & Hne & Hd) _]]; [reflexivity|].
  unfold Wikidata.extractQID.
  pose proof (matchQID_suffix EmptyString digits Hne Hd) as Hm.
  rewrite append_nil in Hm. rewrite Hm. reflexivity.
Qed.

(** ** The parser of query results *)

Lemma parseServiceResults_bound_witness :
  exists services,
    Wikidata.parseServiceResults
      (Wikidata.mkResponse
         (Some (Wikidata.mkResults
                  (Some [serviceOnly "http://www.wikidata.org/entity/Q3914";
                         serviceOnly "http://www.wikidata.org/entity/Q11707"]))))
    = JS.Returned services
    /\ length services = 2.
Proof.
  destruct (parseServiceResults_bound
              (Wikidata.mkResults
                 (Some [serviceOnly "http://www.wikidata.org/entity/Q3914";
                        serviceOnly "http://www.wikidata.org/entity/Q11707"]))
              [serviceOnly "http://www.wikidata.org/entity/Q3914";
               serviceOnly "http://www.wikidata.org/entity/Q11707"] eq_refl)
    as (services & Hparse & Hlen & _).
  - repeat constructor; discriminate.
  - exists services. split; [exact Hparse | exact Hlen].
Defined.

Lemma parseBinding_unbound b :
  ~ serviceBound b ->
  Wikidata.parseBinding b
  = JS.Thrown (JS.TypeError "Cannot read properties of undefined (reading 'match')").
Proof.
  unfold serviceBound, Wikidata.parseBinding. intros Hb.
  destruct (Wikidata.b_service b) as [t|]; [|reflexivity].
  contradiction Hb. discriminate.
Qed.

Lemma mapArray_parseBinding_unbound bs :
  Exists (fun b => ~ serviceBound b) bs ->
  Wikidata.mapArray Wikidata.parseBinding bs
  = JS.Thrown (JS.TypeError "Cannot read properties of undefined (reading 'match')").
Proof.
  induction bs as [|b bs IH]; intros Hex.
  - apply Exists_nil in Hex. contradiction.
  - cbn [Wikidata.mapArray].
    destruct (Wikidata.b_service b) as [t|] eqn:Eb.
    + destruct (parseBinding_bound b) as [s ->]; [unfold serviceBound; congruence|].
      apply Exists_cons in Hex as [Hb|Hex].
      * contradiction Hb. unfold serviceBound. congruence.
      * cbn. rewrite (IH Hex). reflexivity.
    + rewrite parseBinding_unbound; [reflexivity|].
      unfold serviceBound. intros Hb. contradiction.
Qed.

(** X15. One binding that does not bind [?service] makes the whole parse
    throw: no service of the other bindings is returned. *)
Theorem parseServiceResults_all_or_nothing (r : Wikidata.Results) (bs : list Wikidata.Binding) :
  Wikidata.bindings r = Some bs ->
  Exists (fun b => ~ serviceBound b) bs ->
  Wikidata.parseServiceResults (Wikidata.mkResponse (Some r))
  = JS.Thrown (JS.TypeError "Cannot read properties of undefined (reading 'match')").
Proof.
  intros Hr Hex. unfold Wikidata.parseServiceResults. cbn. rewrite Hr.
  apply mapArray_parseBinding_unbound, Hex.
Qed.

Lemma parseServiceResults_all_or_nothing_witness :
  Wikidata.parseServiceResults
    (Wikidata.mkResponse
       (Some (Wikidata.mkResults
                (Some [serviceOnly "http://www.wikidata.org/entity/Q3914"; emptyBinding]))))
  = JS.Thrown (JS.TypeError "Cannot read properties of undefined (reading 'match')").
Proof.
  apply (parseServiceResults_all_or_nothing
           (Wikidata.mkResults
              (Some [serviceOnly "http://www.wikidata.org/entity/Q3914"; emptyBinding]))
           [serviceOnly "http://www.wikidata.org/entity/Q3914"; emptyBinding] eq_refl).
  apply Exists_cons. right. apply Exists_cons. left. intros H. apply H. reflexivity.
Defined.

Lemma extractQID_if_bound_shape t q :
  Wikidata.extractQID_if_bound t = JS.Returned q -> (q = None <-> t = None).
Proof.
  destruct t as [x|]; cbn.
  - intros [= <-]. split; discriminate.
  - intros [= <-]. split; reflexivity.
Qed.

(** X16. A service parsed from a binding has an identifier that is empty
    or well formed, a label that is a string (empty when the label is not
    bound), and the identifiers of its industry and its provider exactly
    when the binding binds them. *)
Theorem parsed_service_fields (b : Wikidata.Binding) (s : Wikidata.WikidataService) :
  Wikidata.parseBinding b = JS.Returned s ->
  (Wikidata.qid s = EmptyString \/ wellFormedQID (Wikidata.qid s))
  /\ (Wikidata.b_serviceLabel b = None -> Wikidata.label s = EmptyString)
  /\ (Wikidata.industryQID s = None <-> Wikidata.b_industry b = None)
  /\ (Wikidata.providerQID s = None <-> Wikidata.b_provider b = None).
Proof.
  unfold Wikidata.parseBinding.
  destruct (Wikidata.b_service b) as [t|]; [|discriminate]. cbn [Wikidata.valueOf fmap option_fmap option_map].
  destruct (extractQID_returns (Wikidata.value t)) as (q & Hq & Hshape).
  rewrite Hq. cbn [mbind JS.completion_bind].
  destruct (Wikidata.extractQID_if_bound (Wikidata.b_industry b)) as [iq|e] eqn:Ei;
    [|discriminate].
  destruct (Wikidata.extractQID_if_bound (Wikidata.b_provider b)) as [pq|e] eqn:Ep;
    [|discriminate].
  intros [= <-]. cbn.
  split; [destruct Hshape as [->|[Hw _]]; [left; reflexivity | right; exact Hw]|].
  split; [intros ->; reflexivity|].
  split; [apply extractQID_if_bound_shape, Ei | apply extractQID_if_bound_shape, Ep].
Qed.

Lemma parsed_service_fields_witness :
  Wikidata.label
    (Wikidata.mkService "Q3914" EmptyString None None None None None None None None None None)
  = EmptyString.
Proof.
  refine (proj1 (proj2 (parsed_service_fields
            (serviceOnly "http://www.wikidata.org/entity/Q3914")
            (Wikidata.mkService "Q3914" EmptyString None None None None None None None None
               None None) eq_refl)) eq_refl).
Defined.

(** ** The digital-delivery score and the main loop *)

Local Open Scope Q_scope.

(** X17. The digital-delivery score of every industry lies between 0.3
    and 1.0. *)
Theorem digital_score_bounds (industry : Naics.NAICSIndustry) :
  0.3 <= Generate.calculateDigitalScore industry
  /\ Generate.calculateDigitalScore industry <= 1.0.
Proof.
  unfold Generate.calculateDigitalScore. cbv zeta.
  repeat match goal with
         | |- context [if ?b then _ else _] => destruct b
         end;
    split; vm_compute; discriminate.
Qed.

Local Close Scope Q_scope.

(** X18. The score looks at the title only through its lower-casing and
    at the sector only through its code: two industries that agree on
    both have the same score, whatever their codes and descriptions. *)
Theorem digital_score_inputs (industry industry' : Naics.NAICSIndustry) :
  JS.toLowerCase (Naics.ind_title industry) = JS.toLowerCase (Naics.ind_title industry') ->
  Naics.sector_code (Naics.ind_sector industry)
  = Naics.sector_code (Naics.ind_sector industry') ->
  Generate.calculateDigitalScore industry = Generate.calculateDigitalScore industry'.
Proof.
  intros Ht Hs. unfold Generate.calculateDigitalScore. cbv zeta. rewrite Ht, Hs. reflexivity.
Qed.

Lemma digital_score_inputs_witness :
  Generate.calculateDigitalScore
    (Naics.mkIndustry "518210" "DATA PROCESSING, Hosting" None
       (Naics.mkSector "51" "Information" None))
  = Generate.calculateDigitalScore
      (Naics.mkIndustry "000000" "data processing, hosting" (Some "x")
         (Naics.mkSector "51" "Other name" (Some "y"))).
Proof.
  apply (digital_score_inputs
           (Naics.mkIndustry "518210" "DATA PROCESSING, Hosting" None
              (Naics.mkSector "51" "Information" None))
           (Naics.mkIndustry "000000" "data processing, hosting" (Some "x")
              (Naics.mkSector "51" "Other name" (Some "y"))));
    reflexivity.
Defined.

Section MainLoop.
Variable numberToString : Q -> string.
Variable data : gmap string Naics.NAICSIndustry.

Lemma step_tally t industry :
  let t' := Driver.step numberToString data t industry in
  Driver.generated t' + Driver.failed t' = S (Driver.generated t + Driver.failed t)
  /\ (length (Driver.files t) = Driver.generated t ->
      length (Driver.files t') = Driver.generated t').
Proof.
  unfold Driver.step. destruct (Driver.generateService numberToString data industry);
    cbn [Driver.generated Driver.failed Driver.files]; split; try lia.
  intros Hl. rewrite length_app, Hl. simpl. lia.
Qed.

Lemma fold_step_tally industries t :
  let t' := fold_left (Driver.step numberToString data) industries t in
  Driver.generated t' + Driver.failed t'
  = Driver.generated t + Driver.failed t + length industries
  /\ (length (Driver.files t) = Driver.generated t ->
      length (Driver.files t') = Driver.generated t').
Proof.
  revert t. induction industries as [|i l IH]; intros t; cbn [fold_left length].
  - split; [lia | tauto].
  - destruct (step_tally t i) as [H1 H2]. cbv zeta in H1, H2.
    destruct (IH (Driver.step numberToString data t i)) as [H3 H4]. cbv zeta in H3, H4.
    split; [lia | tauto].
Qed.

(** X19. The tally of [generateAllServices] is complete: every
    service-providing industry of the table is counted once, as generated
    or as failed, and one file is written per industry counted as
    generated. *)
Theorem generateAllServices_tally (industries : list Naics.NAICSIndustry) :
  let t := Driver.generateAllServices numberToString data industries in
  Driver.generated t + Driver.failed t
  = length (NaicsQueries.getServiceIndustries industries)
  /\ length (Driver.files t) = Driver.generated t.
Proof.
  cbv zeta. unfold Driver.generateAllServices.
  destruct (fold_step_tally (NaicsQueries.getServiceIndustries industries)
              (Driver.mkTally [] 0 0)) as [H1 H2].
  cbv zeta in H1, H2. cbn [Driver.generated Driver.failed Driver.files] in H1, H2.
  split; [lia | apply H2; reflexivity].
Qed.

Lemma fold_step_no_failure industries t :
  Forall (fun i => is_Some (data !! Naics.ind_code i)) industries ->
  Driver.failed (fold_left (Driver.step numberToString data) industries t)
  = Driver.failed t.
Proof.
  intros Hall. revert t. induction Hall as [|i l [v Hv] _ IH]; intros t; [reflexivity|].
  cbn [fold_left]. rewrite IH. unfold Driver.step, Driver.generateService.
  unfold Naics.getClassification, Naics.getIndustry. rewrite Hv. reflexivity.
Qed.

(** X20. An industry fails only when its own code is not a key of the
    table: on a table in which the code of every record is a key, no
    industry fails and every service-providing industry is generated. *)
Theorem generateAllServices_complete (industries : list Naics.NAICSIndustry) :
  Forall (fun i => is_Some (data !! Naics.ind_code i)) industries ->
  let t := Driver.generateAllServices numberToString data industries in
  Driver.failed t = 0
  /\ Driver.generated t = length (NaicsQueries.getServiceIndustries industries).
Proof.
  intros Hall. cbv zeta. unfold Driver.generateAllServices.
  destruct (fold_step_tally (NaicsQueries.getServiceIndustries industries)
              (Driver.mkTally [] 0 0)) as [Htally _].
  cbv zeta in Htally. cbn [Driver.generated Driver.failed] in Htally.
  assert (Hf : Driver.failed
                 (fold_left (Driver.step numberToString data)
                    (NaicsQueries.getServiceIndustries industries) (Driver.mkTally [] 0 0))
               = 0).
  { rewrite fold_step_no_failure; [reflexivity|].
    unfold NaicsQueries.getServiceIndustries. apply Forall_forall.
    intros i Hi. apply list_elem_of_In in Hi. apply List.filter_In in Hi as [Hi _].
    rewrite Forall_forall in Hall. apply Hall, list_elem_of_In, Hi. }
  split; [exact Hf | lia].
Qed.

End MainLoop.

Lemma generateAllServices_complete_witness :
  Driver.failed
    (Driver.generateAllServices printScore Naics.NAICS_DATA NaicsQueries.NAICS_VALUES) = 0
  /\ Driver.generated
       (Driver.generateAllServices printScore Naics.NAICS_DATA NaicsQueries.NAICS_VALUES) = 10.
Proof.
  destruct (generateAllServices_complete printScore Naics.NAICS_DATA NaicsQueries.NAICS_VALUES)
    as [Hf Hg].
  - repeat constructor; vm_compute; eexists; reflexivity.
  - split; [exact Hf | rewrite Hg; reflexivity].
Defined.

(** ** The groups of the nested planner *)

Lemma groupOf_groupService m x k sk :
  groupOf (Fumadocs.groupService m x) k sk
  = groupOf m k sk ++ (if keyedBy k sk x then [x] else []).
Proof.
  rewrite Fumadocs_groupService_eq. cbv zeta. unfold groupOf, keyedBy.
  destruct (decide (k = Fumadocs.category x)) as [->|Nk].
  - rewrite get_set_eq. cbn [from_option id].
    destruct (decide (sk = Fumadocs.subcategory x)) as [->|Ns].
    + rewrite get_set_eq. cbn [from_option id].
      rewrite bool_decide_eq_true_2 by (split; reflexivity). reflexivity.
    + rewrite get_set_ne by exact Ns.
      rewrite bool_decide_eq_false_2 by (intros [_ H]; congruence).
      rewrite app_nil_r. reflexivity.
  - rewrite get_set_ne by exact Nk.
    rewrite bool_decide_eq_false_2 by (intros [H _]; congruence).
    rewrite app_nil_r. reflexivity.
Qed.

Lemma groupOf_fold batch m k sk :
  groupOf (fold_left Fumadocs.groupService batch m) k sk
  = groupOf m k sk ++ List.filter (keyedBy k sk) batch.
Proof.
  revert m. induction batch as [|x batch IH]; intros m; cbn [fold_left List.filter].
  - rewrite app_nil_r. reflexivity.
  - rewrite IH, groupOf_groupService. rewrite <- app_assoc.
    destruct (keyedBy k sk x); reflexivity.
Qed.

(** X21. The nested planner groups by category and subcategory: the list
    kept under two keys is made of exactly the records of the batch that
    carry both, in the order of the batch. No record is lost or put in
    two groups. *)
Theorem groupServices_partition (batch : list Fumadocs.Service) (k sk : option string) :
  groupOf (Fumadocs.groupServices batch) k sk = List.filter (keyedBy k sk) batch.
Proof. unfold Fumadocs.groupServices. rewrite groupOf_fold. reflexivity. Qed.







(** ** The nested planner on records without their metadata *)

Lemma groupService_nonEmpty m s :
  Forall nonEmptyCat m -> Forall nonEmptyCat (Fumadocs.groupService m s).
Proof.
  intros Hm. rewrite Fumadocs_groupService_eq. cbv zeta.
  apply Forall_set; [|exact Hm]. unfold nonEmptyCat. cbn [fst snd].
  split; [apply set_nonempty|].
  apply Forall_set.
  - cbn [snd]. intros E. apply app_eq_nil in E as [_ E]. discriminate.
  - destruct (JSMap.get (Fumadocs.category s) m) as [sub|] eqn:E; [|constructor].
    apply get_In in E. rewrite Forall_forall in Hm.
    apply list_elem_of_In in E. apply Hm in E. apply E.
Qed.

Lemma groupServices_nonEmpty services :
  Forall nonEmptyCat (Fumadocs.groupServices services).
Proof.
  unfold Fumadocs.groupServices. generalize (Forall_nil_2 nonEmptyCat).
  generalize (@nil (option string * Fumadocs.SubcategoryMap)).
  induction services as [|x services IH]; intros m Hm; simpl; [exact Hm|].
  apply IH, groupService_nonEmpty, Hm.
Qed.

Lemma filed_unkeyed s m : filed s m -> ~ hasMetadata s -> allKeyed m = false.
Proof.
  intros (sub & l & Hsub & Hl & _) Hno.
  destruct (allKeyed m) eqn:E; [exfalso|reflexivity]. apply Hno.
  unfold allKeyed in E. rewrite forallb_forall in E.
  apply get_In in Hsub. apply get_In in Hl.
  specialize (E _ Hsub). apply andb_true_iff in E as [Hk Hall].
  rewrite forallb_forall in Hall. specialize (Hall _ Hl).
  unfold keyPresent in Hk, Hall. cbn [fst snd] in Hk, Hall.
  split; intros E'; rewrite E' in *; discriminate.
Qed.

Section NestedPlannerErrors.
Variable generateServiceMDX : Fumadocs.Service -> string.
Variable writeFileSync : Emit.File -> option JS.Error.

(** A key that is [undefined] ends the loops over the index pages in an
    error, whatever the file system does. *)
Lemma writeSubcategoryIndexes_fails c entries :
  Forall (fun e : option string * list Fumadocs.Service => e.2 <> []) entries ->
  forallb keyPresent entries = false ->
  (Fumadocs.writeSubcategoryIndexes writeFileSync (Some c) entries).2 <> None.
Proof.
  induction 1 as [|[k services] entries Hs _ IH]; [discriminate|].
  cbn [snd] in Hs. cbn [forallb]. unfold keyPresent at 1. cbn [fst].
  destruct services as [|s0 services]; [contradiction|].
  destruct k as [k|]; [|discriminate].
  cbn [andb]. intros Hkeys. cbn [Fumadocs.writeSubcategoryIndexes].
  cbn [Fumadocs.generateSubcategoryIndex Fumadocs.displayName Fumadocs.first mbind
       JS.completion_bind].
  destruct (writeFileSync _); [discriminate|].
  destruct (Fumadocs.writeSubcategoryIndexes writeFileSync (Some c) entries) as [fs e].
  exact (IH Hkeys).
Qed.

Lemma writeCategoryIndexes_fails entries :
  Forall nonEmptyCat entries ->
  allKeyed entries = false ->
  (Fumadocs.writeCategoryIndexes writeFileSync entries).2 <> None.
Proof.
  induction 1 as [|[k sub] entries [Hsub Hall] _ IH]; [discriminate|].
  cbn [fst snd] in Hsub, Hall.
  unfold allKeyed. cbn [forallb]. fold (allKeyed entries).
  unfold keyPresent at 1. cbn [fst snd].
  destruct k as [k|]; [|discriminate].
  pose proof (writeSubcategoryIndexes_fails k sub Hall) as Hfails.
  destruct sub as [|[sk l] sub]; [contradiction|].
  apply Forall_cons in Hall as [Hl _]. cbn [snd] in Hl.
  destruct l as [|s0 l]; [contradiction|].
  cbn [andb]. intros Hkeys.
  cbn [Fumadocs.writeCategoryIndexes JSMap.values map snd concat app].
  cbn [Fumadocs.generateCategoryIndex Fumadocs.displayName Fumadocs.first mbind
       JS.completion_bind].
  destruct (writeFileSync _); [discriminate|].
  destruct (Fumadocs.writeSubcategoryIndexes writeFileSync (Some k) ((sk, s0 :: l) :: sub))
    as [fs [e|]]; [discriminate|].
  destruct (forallb keyPresent ((sk, s0 :: l) :: sub)) eqn:Esub.
  - destruct (Fumadocs.writeCategoryIndexes writeFileSync entries) as [fs' e'].
    exact (IH Hkeys).
  - contradiction (Hfails eq_refl). reflexivity.
Qed.

(** On a file system that takes every file, the error is the one of the
    first key that is [undefined]. *)
Lemma writeSubcategoryIndexes_thrown c entries :
  (forall f, writeFileSync f = None) ->
  Forall (fun e : option string * list Fumadocs.Service => e.2 <> []) entries ->
  (Fumadocs.writeSubcategoryIndexes writeFileSync (Some c) entries).2
  = if forallb keyPresent entries then None else Some replaceOfUndefined.
Proof.
  intros Hw. induction 1 as [|[k services] entries Hs _ IH]; [reflexivity|].
  cbn [snd] in Hs. cbn [forallb]. unfold keyPresent at 1. cbn [fst].
  destruct services as [|s0 services]; [contradiction|].
  destruct k as [k|]; [|reflexivity].
  cbn [andb]. cbn [Fumadocs.writeSubcategoryIndexes].
  cbn [Fumadocs.generateSubcategoryIndex Fumadocs.displayName Fumadocs.first mbind
       JS.completion_bind].
  rewrite Hw.
  destruct (Fumadocs.writeSubcategoryIndexes writeFileSync (Some c) entries) as [fs e].
  exact IH.
Qed.

Lemma writeCategoryIndexes_thrown entries :
  (forall f, writeFileSync f = None) ->
  Forall nonEmptyCat entries ->
  (Fumadocs.writeCategoryIndexes writeFileSync entries).2
  = if allKeyed entries then None else Some replaceOfUndefined.
Proof.
  intros Hw. induction 1 as [|[k sub] entries [Hsub Hall] _ IH]; [reflexivity|].
  cbn [fst snd] in Hsub, Hall.
  unfold allKeyed. cbn [forallb]. fold (allKeyed entries).
  unfold keyPresent at 1. cbn [fst snd].
  destruct k as [k|]; [|reflexivity].
  pose proof (writeSubcategoryIndexes_thrown k sub Hw Hall) as Hret.
  destruct sub as [|[sk l] sub]; [contradiction|].
  apply Forall_cons in Hall as [Hl _]. cbn [snd] in Hl.
  destruct l as [|s0 l]; [contradiction|].
  cbn [Fumadocs.writeCategoryIndexes JSMap.values map snd concat app].
  cbn [Fumadocs.generateCategoryIndex Fumadocs.displayName Fumadocs.first mbind
       JS.completion_bind].
  rewrite Hw.
  destruct (Fumadocs.writeSubcategoryIndexes writeFileSync (Some k) ((sk, s0 :: l) :: sub))
    as [fs e].
  cbn [snd] in Hret. subst e. cbn [andb].
  destruct (forallb keyPresent ((sk, s0 :: l) :: sub)); [|reflexivity].
  destruct (Fumadocs.writeCategoryIndexes writeFileSync entries) as [fs' e']. exact IH.
Qed.

(** X24. When a record of the batch lacks its category or its
    subcategory, the nested planner ends in an error, whatever the file
    system does. Its leaf loop has by then written the document of every
    record whose write does not throw, and counted these. On a file
    system that takes every file, the leaf document of every record is
    written and counted, and the error is the TypeError raised when the
    index page of the group with the key [undefined] is rendered. *)
Theorem generateSamples_missing_metadata (services : list Fumadocs.Service) :
  Exists (fun s => ~ hasMetadata s) services ->
  let run := Fumadocs.generateSamples generateServiceMDX writeFileSync services in
  Emit.thrown run <> None
  /\ Emit.leafDocuments run
     = map (Fumadocs.leafFile generateServiceMDX)
         (List.filter
            (fun s => Emit.taken writeFileSync (Fumadocs.leafFile generateServiceMDX s))
            services)
  /\ Emit.generated run = length (Emit.leafDocuments run)
  /\ ((forall f, writeFileSync f = None) ->
      Emit.thrown run = Some replaceOfUndefined
      /\ Emit.leafDocuments run = map (Fumadocs.leafFile generateServiceMDX) services
      /\ Emit.generated run = length services).
Proof.
  intros (s & Hin & Hno)%Exists_exists. apply list_elem_of_In in Hin. cbv zeta.
  pose proof (filed_unkeyed s _ (groupServices_files services s Hin) Hno) as Hkeys.
  destruct (generateSamples_leaf_count generateServiceMDX writeFileSync services)
    as [Hleaves Hgen].
  split; [|split; [|split]].
  - pose proof (writeCategoryIndexes_fails _ (groupServices_nonEmpty services) Hkeys) as Hf.
    unfold Fumadocs.generateSamples. cbv zeta.
    destruct (Fumadocs.writeCategoryIndexes writeFileSync (Fumadocs.groupServices services))
      as [fs e].
    exact Hf.
  - rewrite Hleaves. apply writeLeaves_taken.
  - rewrite Hgen, Hleaves. reflexivity.
  - intros Hw.
    assert (Hall : Fumadocs.writeLeaves generateServiceMDX writeFileSync services
                   = map (Fumadocs.leafFile generateServiceMDX) services).
    { apply writeLeaves_all, Forall_forall. intros x _. apply Hw. }
    split; [|split].
    + pose proof (writeCategoryIndexes_thrown _ Hw (groupServices_nonEmpty services)) as Hret.
      rewrite Hkeys in Hret.
      unfold Fumadocs.generateSamples. cbv zeta.
      destruct (Fumadocs.writeCategoryIndexes writeFileSync (Fumadocs.groupServices services))
        as [fs e].
      exact Hret.
    + rewrite Hleaves. exact Hall.
    + rewrite Hgen, Hall. apply length_map.
Qed.

End NestedPlannerErrors.

Lemma generateSamples_missing_metadata_witness :
  Emit.thrown
    (Fumadocs.generateSamples nestedHeading takesAll
       [nestedProgramming; nestedRestaurant None])
  = Some replaceOfUndefined
  /\ Emit.generated
       (Fumadocs.generateSamples nestedHeading takesAll
          [nestedProgramming; nestedRestaurant None])
     = 2
  /\ Emit.thrown
       (Fumadocs.generateSamples nestedHeading refusesSlash
          [nestedSlashed; nestedRestaurant None])
     <> None.
Proof.
  split; [|split].
  - destruct (generateSamples_missing_metadata nestedHeading takesAll
                [nestedProgramming; nestedRestaurant None]) as (_ & _ & _ & Hall).
    + apply Exists_cons_tl, Exists_cons_hd. intros [Hc _]. apply Hc. reflexivity.
    + apply Hall. reflexivity.
  - destruct (generateSamples_missing_metadata nestedHeading takesAll
                [nestedProgramming; nestedRestaurant None]) as (_ & _ & _ & Hall).
    + apply Exists_cons_tl, Exists_cons_hd. intros [Hc _]. apply Hc. reflexivity.
    + apply Hall. reflexivity.
  - destruct (generateSamples_missing_metadata nestedHeading refusesSlash
                [nestedSlashed; nestedRestaurant None]) as (Hthrown & _).
    + apply Exists_cons_tl, Exists_cons_hd. intros [Hc _]. apply Hc. reflexivity.
    + exact Hthrown.
Defined.

(** ** The index pages of the nested planner *)

Lemma joinLines_cons a (l : list string) :
  l <> [] -> JS.joinLines (a :: l) = a +:+ JS.nl +:+ JS.joinLines l.
Proof. destruct l as [|b l]; [contradiction | reflexivity]. Qed.

(** Lines joined into one element of a list of lines are lines of the
    text the list is joined into. *)
Lemma joinLines_flatten_head (x : string) (inner l2 : list string) :
  JS.joinLines (JS.joinLines (x :: inner) :: l2) = JS.joinLines ((x :: inner) ++ l2).
Proof.
  revert x. induction inner as [|y inner IH]; intros x; [reflexivity|].
  destruct l2 as [|z l2].
  - rewrite app_nil_r. reflexivity.
  - rewrite (joinLines_cons2 (JS.joinLines (x :: y :: inner)) z l2).
    rewrite (joinLines_cons2 x y inner).
    change ((x :: y :: inner) ++ z :: l2) with (x :: ((y :: inner) ++ z :: l2)).
    rewrite (joinLines_cons x ((y :: inner) ++ z :: l2)) by discriminate.
    rewrite <- (IH y). rewrite (joinLines_cons2 (JS.joinLines (y :: inner)) z l2).
    rewrite !append_assoc. reflexivity.
Qed.

Lemma joinLines_flatten (l1 inner l2 : list string) :
  inner <> [] ->
  JS.joinLines (l1 ++ JS.joinLines inner :: l2) = JS.joinLines (l1 ++ inner ++ l2).
Proof.
  intros Hne. destruct inner as [|x inner]; [contradiction|]. clear Hne.
  induction l1 as [|a l1 IH].
  - apply joinLines_flatten_head.
  - change ((a :: l1) ++ JS.joinLines (x :: inner) :: l2)
      with (a :: (l1 ++ JS.joinLines (x :: inner) :: l2)).
    change ((a :: l1) ++ (x :: inner) ++ l2) with (a :: (l1 ++ (x :: inner) ++ l2)).
    rewrite (joinLines_cons a (l1 ++ JS.joinLines (x :: inner) :: l2))
      by (destruct l1; discriminate).
    rewrite (joinLines_cons a (l1 ++ (x :: inner) ++ l2)) by (destruct l1; discriminate).
    rewrite IH. reflexivity.
Qed.

Lemma hasLine_nested line (l1 inner l2 : list string) :
  In line inner -> hasLine line (JS.joinLines (l1 ++ JS.joinLines inner :: l2)).
Proof.
  intros Hin. rewrite joinLines_flatten by (intros ->; contradiction).
  apply hasLine_of_lines, in_or_app. right. apply in_or_app. left. exact Hin.
Qed.

Lemma generateSubcategoryIndex_links k sk l page s :
  Fumadocs.generateSubcategoryIndex k sk l = JS.Returned page ->
  In s l -> hasLine (subcategoryLink s) page.
Proof.
  intros Hpage Hin.
  destruct k as [k|]; [|discriminate]. destruct sk as [sk|]; [|discriminate].
  destruct l as [|s0 l]; [contradiction|].
  cbn [Fumadocs.generateSubcategoryIndex Fumadocs.displayName Fumadocs.first mbind
       JS.completion_bind] in Hpage.
  injection Hpage as <-.
  match goal with
  | |- hasLine _ (JS.joinLines (?a1 :: ?a2 :: ?a3 :: ?a4 :: ?a5 :: ?a6 :: ?a7 :: ?a8 :: ?a9
                                  :: JS.joinLines ?inner :: ?rest)) =>
      apply (hasLine_nested (subcategoryLink s) [a1; a2; a3; a4; a5; a6; a7; a8; a9]
               (map subcategoryLink (s0 :: l)) rest)
  end.
  apply in_map, Hin.
Qed.

Section NestedPlannerIndexes.
Variable generateServiceMDX : Fumadocs.Service -> string.
Variable writeFileSync : Emit.File -> option JS.Error.

Lemma writeSubcategoryIndexes_files k entries sk l :
  (Fumadocs.writeSubcategoryIndexes writeFileSync k entries).2 = None ->
  In (sk, l) entries ->
  exists page,
    Fumadocs.generateSubcategoryIndex k sk l = JS.Returned page
    /\ In (Emit.mkFile Emit.SubcategoryIndex
             [Fumadocs.dirName k; Fumadocs.dirName sk; "index.mdx"] page)
          (Fumadocs.writeSubcategoryIndexes writeFileSync k entries).1.
Proof.
  induction entries as [|[sk' l'] entries IH]; [contradiction|].
  cbn [Fumadocs.writeSubcategoryIndexes].
  destruct (Fumadocs.generateSubcategoryIndex k sk' l') as [page'|e'] eqn:E;
    [|discriminate].
  cbv zeta. destruct (writeFileSync _); [discriminate|].
  destruct (Fumadocs.writeSubcategoryIndexes writeFileSync k entries) as [fs e].
  cbn [fst snd] in *. intros He [Heq|Hin].
  - injection Heq as <- <-. exists page'. split; [exact E | left; reflexivity].
  - destruct (IH He Hin) as (page & Hp & Hf). exists page.
    split; [exact Hp | right; exact Hf].
Qed.

Lemma writeCategoryIndexes_files entries k sub sk l :
  (Fumadocs.writeCategoryIndexes writeFileSync entries).2 = None ->
  In (k, sub) entries -> In (sk, l) sub ->
  exists page,
    Fumadocs.generateSubcategoryIndex k sk l = JS.Returned page
    /\ In (Emit.mkFile Emit.SubcategoryIndex
             [Fumadocs.dirName k; Fumadocs.dirName sk; "index.mdx"] page)
          (Fumadocs.writeCategoryIndexes writeFileSync entries).1.
Proof.
  induction entries as [|[k' sub'] entries IH]; [contradiction|].
  cbn [Fumadocs.writeCategoryIndexes].
  destruct (Fumadocs.generateCategoryIndex k' (concat (JSMap.values sub'))) as [page'|e'];
    [|discriminate].
  cbv zeta. destruct (writeFileSync _); [discriminate|].
  pose proof (writeSubcategoryIndexes_files k' sub' sk l) as Hsub.
  destruct (Fumadocs.writeSubcategoryIndexes writeFileSync k' sub') as [fs [e|]];
    [discriminate|].
  destruct (Fumadocs.writeCategoryIndexes writeFileSync entries) as [fs' e'].
  cbn [fst snd] in *. intros He [Heq|Hin] Hl.
  - injection Heq as <- <-. destruct (Hsub eq_refl Hl) as (page & Hp & Hf).
    exists page. split; [exact Hp|]. right. apply in_or_app. left. exact Hf.
  - destruct (IH He Hin Hl) as (page & Hp & Hf). exists page.
    split; [exact Hp|]. right. apply in_or_app. right. exact Hf.
Qed.

(** X25. On a batch whose records all carry their metadata, and on a
    file system that takes every file, the nested planner writes, for
    every record, its leaf document and the index page of its
    subcategory to the same directory, and this page has a line that
    links the record, with the file name of the leaf document, less its
    extension, as the address. *)
Theorem leaf_is_linked_from_its_index (services : list Fumadocs.Service)
    (s : Fumadocs.Service) :
  Forall hasMetadata services -> (forall f, writeFileSync f = None) -> In s services ->
  let run := Fumadocs.generateSamples generateServiceMDX writeFileSync services in
  In (Fumadocs.leafFile generateServiceMDX s) (Emit.written run)
  /\ Emit.path (Fumadocs.leafFile generateServiceMDX s)
     = [Fumadocs.dirName (Fumadocs.category s); Fumadocs.dirName (Fumadocs.subcategory s);
        Fumadocs.fileSlug (Fumadocs.name s) +:+ ".mdx"]
  /\ exists index,
       In index (Emit.written run)
       /\ Emit.kind index = Emit.SubcategoryIndex
       /\ Emit.path index = subcategoryIndexPath s
       /\ hasLine (subcategoryLink s) (Emit.content index).
Proof.
  intros Hall Hw Hin. cbv zeta.
  pose proof (writeCategoryIndexes_returns writeFileSync Hw _
                (groupServices_renderable services Hall)) as Hret.
  destruct (groupServices_files services s Hin) as (sub & l & Hsub & Hl & Hs).
  apply get_In in Hsub. apply get_In in Hl.
  destruct (writeCategoryIndexes_files _ _ _ _ _ Hret Hsub Hl) as (page & Hpage & Hf).
  unfold Fumadocs.generateSamples. cbv zeta.
  rewrite writeLeaves_all by (apply Forall_forall; intros x _; apply Hw).
  destruct (Fumadocs.writeCategoryIndexes writeFileSync (Fumadocs.groupServices services))
    as [fs e].
  cbn [fst snd Emit.written] in *.
  split; [apply in_or_app; left; apply in_map, Hin|]. split; [reflexivity|].
  eexists. split; [apply in_or_app; right; exact Hf|].
  split; [reflexivity|]. split; [reflexivity|].
  cbn [Emit.content]. apply (generateSubcategoryIndex_links _ _ _ _ _ Hpage Hs).
Qed.

End NestedPlannerIndexes.

Lemma leaf_is_linked_from_its_index_witness :
  exists index,
    In index
      (Emit.written
         (Fumadocs.generateSamples nestedHeading takesAll
            [nestedProgramming; nestedRestaurant (Some "Hospitality-Services")]))
    /\ Emit.path index = subcategoryIndexPath nestedProgramming
    /\ hasLine (subcategoryLink nestedProgramming) (Emit.content index).
Proof.
  destruct (leaf_is_linked_from_its_index nestedHeading takesAll
              [nestedProgramming; nestedRestaurant (Some "Hospitality-Services")]
              nestedProgramming) as (_ & _ & index & Hin & _ & Hpath & Hlink).
  - repeat constructor; discriminate.
  - reflexivity.
  - left. reflexivity.
  - exists index. split; [exact Hin|]. split; [exact Hpath | exact Hlink].
Defined.

(** ** The groups of the flat planner *)

Section EnsurePush.
Context {K V : Type} `{EqDecision K}.

(** A key is given a fresh value when it has none, and its value is then
    updated: every other key keeps what it had. *)
Lemma get_ensure_update (k : K) (v0 : V) (f : V -> V) (m : list (K * V)) (k' : K) :
  JSMap.get k'
    (match JSMap.get k (if JSMap.has k m then m else JSMap.set k v0 m) with
     | Some d => JSMap.set k (f d) (if JSMap.has k m then m else JSMap.set k v0 m)
     | None => if JSMap.has k m then m else JSMap.set k v0 m
     end)
  = if decide (k' = k) then Some (f (default v0 (JSMap.get k m))) else JSMap.get k' m.
Proof.
  unfold JSMap.has. destruct (JSMap.get k m) as [d|] eqn:E.
  - rewrite E. cbn [from_option id]. destruct (decide (k' = k)) as [->|Hne].
    + apply get_set_eq.
    + apply get_set_ne, Hne.
  - rewrite get_set_eq. cbn [from_option id]. destruct (decide (k' = k)) as [->|Hne].
    + apply get_set_eq.
    + rewrite !get_set_ne by exact Hne. reflexivity.
Qed.
End EnsurePush.

Lemma Flat_groupService_groups cm sm s :
  hasFlatMetadata s ->
  exists cm' sm',
    Flat.groupService (cm, sm) s = JS.Returned (cm', sm')
    /\ (forall k, flatCategoryGroup cm' k
                  = flatCategoryGroup cm k ++ (if inFlatCategory k s then [s] else []))
    /\ (forall k, flatSubcategoryGroup sm' k
                  = flatSubcategoryGroup sm k ++ (if inFlatSubcategory k s then [s] else [])).
Proof.
  intros [Hc Hs]. unfold Flat.groupService, inFlatCategory, inFlatSubcategory,
    flatCategoryKey, flatSubKey.
  destruct (Flat.category s) as [c|]; [|contradiction].
  destruct (Flat.subcategory s) as [sub|]; [|contradiction].
  cbn [Flat.required mbind JS.completion_bind]. cbv zeta.
  eexists. eexists. split; [reflexivity|]. split; intros k.
  - unfold flatCategoryGroup. unfold Flat.CategoryMap in *.
    rewrite (get_ensure_update (Flat.cat_name c)
               (Flat.mkCategoryData (Flat.cat_display c) [])
               (fun d => Flat.mkCategoryData (Flat.cd_display d) (Flat.cd_services d ++ [s]))).
    destruct (decide (k = Flat.cat_name c)) as [->|Hne].
    + rewrite bool_decide_eq_true_2 by reflexivity.
      destruct (JSMap.get (Flat.cat_name c) cm); reflexivity.
    + rewrite bool_decide_eq_false_2 by congruence. rewrite app_nil_r. reflexivity.
  - unfold flatSubcategoryGroup. unfold Flat.SubcategoryMap in *.
    rewrite (get_ensure_update (Flat.cat_name c +:+ ":" +:+ Flat.cat_name sub)
               (Flat.mkSubcategoryData c sub [])
               (fun d => Flat.mkSubcategoryData (Flat.sd_category d) (Flat.sd_subcategory d)
                           (Flat.sd_services d ++ [s]))).
    destruct (decide (k = Flat.cat_name c +:+ ":" +:+ Flat.cat_name sub)) as [->|Hne].
    + rewrite bool_decide_eq_true_2 by reflexivity.
      destruct (JSMap.get (Flat.cat_name c +:+ ":" +:+ Flat.cat_name sub) sm); reflexivity.
    + rewrite bool_decide_eq_false_2 by congruence. rewrite app_nil_r. reflexivity.
Qed.

Lemma Flat_groupServices_groups services cm sm :
  Forall hasFlatMetadata services ->
  exists cm' sm',
    Flat.groupServices (cm, sm) services = JS.Returned (cm', sm')
    /\ (forall k, flatCategoryGroup cm' k
                  = flatCategoryGroup cm k ++ List.filter (inFlatCategory k) services)
    /\ (forall k, flatSubcategoryGroup sm' k
                  = flatSubcategoryGroup sm k ++ List.filter (inFlatSubcategory k) services).
Proof.
  intros Hall. revert cm sm. induction Hall as [|s services Hs _ IH]; intros cm sm.
  - exists cm, sm. split; [reflexivity|]. split; intros k; rewrite app_nil_r; reflexivity.
  - destruct (Flat_groupService_groups cm sm s Hs) as (cm1 & sm1 & H1 & Hc1 & Hs1).
    destruct (IH cm1 sm1) as (cm' & sm' & H' & Hc' & Hs').
    exists cm', sm'. cbn [Flat.groupServices]. rewrite H1.
    split; [exact H'|]. cbn [List.filter]. split; intros k.
    + rewrite Hc', Hc1, <- app_assoc. destruct (inFlatCategory k s); reflexivity.
    + rewrite Hs', Hs1, <- app_assoc. destruct (inFlatSubcategory k s); reflexivity.
Qed.

(** X26. On a batch whose records all carry their metadata, the
    grouping loop of the flat planner returns two maps. Under a category
    name the first holds exactly the records of that category, in the
    order of the batch; under a key [category:subcategory] the second
    holds exactly the records whose two names make up that key. *)
Theorem flat_groups_partition (services : list Flat.Service) :
  Forall hasFlatMetadata services ->
  exists cm sm,
    Flat.groupServices ([], []) services = JS.Returned (cm, sm)
    /\ (forall k, flatCategoryGroup cm k = List.filter (inFlatCategory k) services)
    /\ (forall k, flatSubcategoryGroup sm k = List.filter (inFlatSubcategory k) services).
Proof.
  intros Hall.
  destruct (Flat_groupServices_groups services [] [] Hall) as (cm & sm & H & Hc & Hs).
  exists cm, sm. split; [exact H|]. split; intros k; [rewrite Hc | rewrite Hs]; reflexivity.
Qed.

Lemma flat_groups_partition_witness :
  exists cm sm,
    Flat.groupServices ([], []) [flatProgramming; flatRestaurant (Some hospitality)]
    = JS.Returned (cm, sm)
    /\ flatCategoryGroup cm (Flat.cat_name hospitality)
       = [flatRestaurant (Some hospitality)].
Proof.
  destruct (flat_groups_partition [flatProgramming; flatRestaurant (Some hospitality)])
    as (cm & sm & H & Hc & _).
  - repeat constructor; discriminate.
  - exists cm, sm. split; [exact H|]. rewrite Hc. reflexivity.
Defined.

Lemma generateServices_aborts_witness :
  Flat.generateServices flatHeading categoryHeading subcategoryHeading takesAll
    [flatProgramming; flatRestaurant None]
  = Emit.mkRun [] 0
      (Some (JS.TypeError "Cannot read properties of undefined (reading 'name')")).
Proof.
  apply generateServices_aborts.
  apply Exists_cons_tl, Exists_cons_hd. intros [Hc _]. apply Hc. reflexivity.
Defined.

(** ** The file names of the sample scripts *)

Lemma fileNameChar_stripped rep name :
  JS.sforall notParen rep = true -> JS.sforall notSpace rep = true ->
  JS.sforall fileNameChar (JS.removeAll JS.isParen (JS.replaceRuns JS.isSpace rep name))
  = true.
Proof.
  intros Hp Hs. unfold JS.removeAll, JS.replaceRuns.
  apply sforall_sfilter with (P := notSpace).
  - intros c H1 H2. unfold fileNameChar, notParen. rewrite H1, H2. reflexivity.
  - apply sforall_replaceRuns with (P := anyChar); [| exact Hs | apply sforall_any].
    intros c H1 _. unfold notSpace. rewrite H1. reflexivity.
Qed.

(** X27. The file names the sample scripts derive from the name of a
    service -- with white space turned into hyphens in the nested script,
    dropped in the simple one, and parentheses removed in both -- hold no
    white space and no parenthesis, whatever the name. *)
Theorem sample_file_names (name : string) :
  JS.sforall fileNameChar (Fumadocs.fileSlug name) = true
  /\ JS.sforall fileNameChar (Samples.pascalName name) = true.
Proof. split; apply fileNameChar_stripped; reflexivity. Qed.

(** ** The category index pages of the nested planner *)

Lemma length_concat_push (sub : Fumadocs.SubcategoryMap) sk (x : Fumadocs.Service) :
  length (concat (JSMap.values
            (JSMap.set sk (default [] (JSMap.get sk sub) ++ [x]) sub)))
  = S (length (concat (JSMap.values sub))).
Proof.
  induction sub as [|[k' v'] sub IH]; [reflexivity|].
  cbn [JSMap.get JSMap.set]. destruct (decide (sk = k')) as [->|Hne].
  - cbn [from_option id JSMap.values map snd concat].
    rewrite !length_app. cbn [length]. lia.
  - unfold JSMap.values in *. cbn [map snd concat]. rewrite !length_app, IH. lia.
Qed.

Lemma recordsOfCategory_groupService m x k :
  length (recordsOfCategory (Fumadocs.groupService m x) k)
  = length (recordsOfCategory m k) + (if inCategory k x then 1 else 0).
Proof.
  rewrite Fumadocs_groupService_eq. cbv zeta. unfold recordsOfCategory, inCategory.
  destruct (decide (k = Fumadocs.category x)) as [->|Hne].
  - rewrite get_set_eq. cbn [from_option id].
    rewrite bool_decide_eq_true_2 by reflexivity.
    rewrite length_concat_push. lia.
  - rewrite get_set_ne by exact Hne.
    rewrite bool_decide_eq_false_2 by congruence. lia.
Qed.

Lemma recordsOfCategory_fold services m k :
  length (recordsOfCategory (fold_left Fumadocs.groupService services m) k)
  = length (recordsOfCategory m k) + length (List.filter (inCategory k) services).
Proof.
  revert m. induction services as [|x services IH]; intros m; cbn [fold_left List.filter].
  - cbn [length]. lia.
  - rewrite IH, recordsOfCategory_groupService.
    destruct (inCategory k x); cbn [length]; lia.
Qed.

Lemma generateCategoryIndex_contents k l page s :
  Fumadocs.generateCategoryIndex k l = JS.Returned page ->
  In s l ->
  hasLine (categoryLink s) page /\ hasLine (totalLine (length l)) page.
Proof.
  intros Hpage Hin.
  destruct k as [k|]; [|discriminate].
  destruct l as [|s0 l]; [contradiction|].
  cbn [Fumadocs.generateCategoryIndex Fumadocs.displayName Fumadocs.first mbind
       JS.completion_bind] in Hpage.
  injection Hpage as <-. split.
  - match goal with
    | |- hasLine _ (JS.joinLines (?a1 :: ?a2 :: ?a3 :: ?a4 :: ?a5 :: ?a6 :: ?a7 :: ?a8 :: ?a9
                                    :: JS.joinLines ?inner :: ?rest)) =>
        apply (hasLine_nested (categoryLink s) [a1; a2; a3; a4; a5; a6; a7; a8; a9]
                 (map categoryLink (s0 :: l)) rest)
    end.
    apply in_map, Hin.
  - apply hasLine_of_lines. do 15 right. left. reflexivity.
Qed.

Section NestedPlannerCategoryIndexes.
Variable generateServiceMDX : Fumadocs.Service -> string.
Variable writeFileSync : Emit.File -> option JS.Error.

Lemma writeCategoryIndexes_category_files entries k sub :
  (Fumadocs.writeCategoryIndexes writeFileSync entries).2 = None ->
  JSMap.get k entries = Some sub ->
  exists page,
    Fumadocs.generateCategoryIndex k (concat (JSMap.values sub)) = JS.Returned page
    /\ In (Emit.mkFile Emit.CategoryIndex [Fumadocs.dirName k; "index.mdx"] page)
          (Fumadocs.writeCategoryIndexes writeFileSync entries).1.
Proof.
  induction entries as [|[k' sub'] entries IH]; [discriminate|].
  cbn [Fumadocs.writeCategoryIndexes JSMap.get].
  destruct (Fumadocs.generateCategoryIndex k' (concat (JSMap.values sub')))
    as [page'|e'] eqn:E; [|discriminate].
  cbv zeta. destruct (writeFileSync _); [discriminate|].
  destruct (Fumadocs.writeSubcategoryIndexes writeFileSync k' sub') as [fs [e|]];
    [discriminate|].
  destruct (Fumadocs.writeCategoryIndexes writeFileSync entries) as [fs' e'].
  cbn [fst snd] in *. intros He Hget.
  destruct (decide (k = k')) as [->|Hne].
  - injection Hget as <-. exists page'. split; [exact E | left; reflexivity].
  - destruct (IH He Hget) as (page & Hp & Hf). exists page.
    split; [exact Hp|]. right. apply in_or_app. right. exact Hf.
Qed.

(** X28. On a batch whose records all carry their metadata, and on a
    file system that takes every file, the nested planner writes, for
    every record, the index page of its category; this page has a line
    that links the record, with the subcategory and the file name of the
    leaf document in its address, and a line that gives as the total the
    number of records of the batch that have this category. *)
Theorem category_index_lists_its_records (services : list Fumadocs.Service)
    (s : Fumadocs.Service) :
  Forall hasMetadata services -> (forall f, writeFileSync f = None) -> In s services ->
  exists index,
    In index
      (Emit.written (Fumadocs.generateSamples generateServiceMDX writeFileSync services))
    /\ Emit.kind index = Emit.CategoryIndex
    /\ Emit.path index = [Fumadocs.dirName (Fumadocs.category s); "index.mdx"]
    /\ hasLine (categoryLink s) (Emit.content index)
    /\ hasLine
         (totalLine (length (List.filter (inCategory (Fumadocs.category s)) services)))
         (Emit.content index).
Proof.
  intros Hall Hw Hin.
  pose proof (writeCategoryIndexes_returns writeFileSync Hw _
                (groupServices_renderable services Hall)) as Hret.
  destruct (groupServices_files services s Hin) as (sub & l & Hsub & Hl & Hs).
  destruct (writeCategoryIndexes_category_files _ _ _ Hret Hsub) as (page & Hpage & Hf).
  assert (Hmem : In s (concat (JSMap.values sub))).
  { apply in_concat. exists l. split; [|exact Hs].
    apply get_In in Hl. apply (in_map snd) in Hl. exact Hl. }
  destruct (generateCategoryIndex_contents _ _ _ _ Hpage Hmem) as [Hlink Htotal].
  assert (Hcount : length (concat (JSMap.values sub))
                   = length (List.filter (inCategory (Fumadocs.category s)) services)).
  { pose proof (recordsOfCategory_fold services [] (Fumadocs.category s)) as Hc.
    fold (Fumadocs.groupServices services) in Hc.
    unfold recordsOfCategory in Hc. rewrite Hsub in Hc. exact Hc. }
  rewrite Hcount in Htotal.
  unfold Fumadocs.generateSamples. cbv zeta.
  destruct (Fumadocs.writeCategoryIndexes writeFileSync (Fumadocs.groupServices services))
    as [fs e].
  cbn [fst snd Emit.written] in *.
  eexists. split; [apply in_or_app; right; exact Hf|].
  split; [reflexivity|]. split; [reflexivity|].
  cbn [Emit.content]. split; [exact Hlink | exact Htotal].
Qed.

End NestedPlannerCategoryIndexes.

Lemma category_index_lists_its_records_witness :
  exists index,
    In index
      (Emit.written
         (Fumadocs.generateSamples nestedHeading takesAll
            [nestedProgramming; nestedRestaurant (Some "Hospitality-Services")]))
    /\ Emit.path index
       = [Fumadocs.dirName (Fumadocs.category nestedProgramming); "index.mdx"]
    /\ hasLine (totalLine 1) (Emit.content index).
Proof.
  destruct (category_index_lists_its_records nestedHeading takesAll
              [nestedProgramming; nestedRestaurant (Some "Hospitality-Services")]
              nestedProgramming) as (index & Hin & _ & Hpath & _ & Htotal).
  - repeat constructor; discriminate.
  - reflexivity.
  - left. reflexivity.
  - exists index. split; [exact Hin|]. split; [exact Hpath | exact Htotal].
Defined.
